(** * PG_Profile_Parser: the report analyzer and the HTML data extractor

    A shallow embedding of [analyze_db_report.py] (class [PostgresAnalyzer])
    and of the JSON-span scanner of [parse_html_to_excel.py], with the
    properties of the specification stated and settled against them.

    Conventions of the embedding.
    - A Python [str] is a Rocq [string] (or the list of its characters where
      the code walks it by index); one [ascii] stands for one character.
    - A spreadsheet cell is a [value]: an [int], a finite [float] (carried as
      the exact rational it denotes), [NaN] (pandas' missing value) or a
      [str].  Rounding of binary floating point is not modelled.
    - Code that can raise returns a [result]; the exception kinds are the
      ones Python raises at that point.
    - What the Python runtime and pandas decide and the sources do not
      (the [repr] of a float, [int()] on a [str], the order [sort_values]
      picks with its default [kind], the clock) is gathered in the class
      [Runtime]; the functions and theorems are stated for any instance.
    - The formatting of a sheet ([apply_sheet_formatting]) works on the
      cells, filter and column widths of a worksheet, with openpyxl's
      [get_column_letter] left as a parameter; the command line ([main] of
      both scripts) has [glob] and the processing of one file as
      parameters. *)

From Stdlib Require Import ZArith QArith List String Ascii Bool Lia.
From Stdlib Require Import DecimalString Permutation.
From stdpp Require Import gmap strings.
Import ListNotations.
Open Scope string_scope.
Open Scope list_scope.

(* ================================================================== *)
(** * Python values and exceptions *)
(* ================================================================== *)

Module Py.

Inductive exn : Type :=
| KeyError (key : string)
| TypeError
| ValueError
| IndexError
| ZeroDivisionError.

Inductive result (A : Type) : Type :=
| Ok (a : A)
| Raise (e : exn).
Arguments Ok {A} a.
Arguments Raise {A} e.

Definition bind {A B} (m : result A) (k : A -> result B) : result B :=
  match m with
  | Ok a => k a
  | Raise e => Raise e
  end.

Definition is_ok {A} (m : result A) : bool :=
  match m with Ok _ => true | Raise _ => false end.

(** The double quote, the backslash and the line feed. *)
Definition dquote : ascii := "034"%char.
Definition backslash : ascii := "092"%char.
Definition nl : string := String "010"%char "".

(** A cell of a sheet, and any scalar the analyzer computes with. *)
Inductive value : Type :=
| VInt (z : Z)
| VFloat (q : Q)
| VNaN
| VStr (s : string).

(** What the sources leave to the Python runtime and to pandas. *)
Class Runtime : Type := {
  (** [repr(x)] of a finite float *)
  float_repr : Q -> string;
  (** [int(s)] of a [str]: [None] when Python raises [ValueError] *)
  int_of_str : string -> option Z;
  (** the positions, in output order, that [sort_values(ascending=False)]
      picks for a column with its default [kind] *)
  sort_order : list value -> result (list nat);
  (** [datetime.now().strftime(...)] at the head and at the foot of a report *)
  now_head : string;
  now_foot : string
}.

Definition Qltb (x y : Q) : bool := negb (Qle_bool y x).

(** [isinstance(v, str)] *)
Definition is_str (v : value) : bool :=
  match v with VStr _ => true | _ => false end.

Definition as_Q (v : value) : option Q :=
  match v with
  | VInt z => Some (inject_Z z)
  | VFloat q => Some q
  | VNaN | VStr _ => None
  end.

(** [bool(v)] *)
Definition truthy (v : value) : bool :=
  match v with
  | VInt z => negb (z =? 0)%Z
  | VFloat q => negb (Qeq_bool q 0)
  | VNaN => true
  | VStr s => negb (String.eqb s "")
  end.

(** [pd.isna(v)] and [pd.notna(v)] *)
Definition isna (v : value) : bool :=
  match v with VNaN => true | _ => false end.
Definition notna (v : value) : bool := negb (isna v).

(** [a < b]: a [str] orders only against a [str]; NaN compares false. *)
Definition py_lt (a b : value) : result bool :=
  match a, b with
  | VStr s, VStr t => Ok (String.ltb s t)
  | VStr _, _ | _, VStr _ => Raise TypeError
  | _, _ =>
      match as_Q a, as_Q b with
      | Some x, Some y => Ok (Qltb x y)
      | _, _ => Ok false
      end
  end.

(** [a <= b] *)
Definition py_le (a b : value) : result bool :=
  match a, b with
  | VStr s, VStr t => Ok (String.leb s t)
  | VStr _, _ | _, VStr _ => Raise TypeError
  | _, _ =>
      match as_Q a, as_Q b with
      | Some x, Some y => Ok (Qle_bool x y)
      | _, _ => Ok false
      end
  end.

Definition py_gt (a b : value) : result bool := py_lt b a.
Definition py_ge (a b : value) : result bool := py_le b a.

(** [a == b] never raises. *)
Definition py_eq (a b : value) : bool :=
  match a, b with
  | VStr s, VStr t => String.eqb s t
  | _, _ =>
      match as_Q a, as_Q b with
      | Some x, Some y => Qeq_bool x y
      | _, _ => false
      end
  end.

(** [s * n] for a [str] and an [int] *)
Fixpoint str_repeat (s : string) (n : nat) : string :=
  match n with
  | O => ""
  | S n' => s +:+ str_repeat s n'
  end.

(** [a + b] *)
Definition py_add (a b : value) : result value :=
  match a, b with
  | VInt x, VInt y => Ok (VInt (x + y))
  | VStr s, VStr t => Ok (VStr (s +:+ t))
  | VStr _, _ | _, VStr _ => Raise TypeError
  | _, _ =>
      match as_Q a, as_Q b with
      | Some x, Some y => Ok (VFloat (x + y))
      | _, _ => Ok VNaN
      end
  end.

(** [a * b] *)
Definition py_mul (a b : value) : result value :=
  match a, b with
  | VInt x, VInt y => Ok (VInt (x * y))
  | VStr s, VInt n | VInt n, VStr s => Ok (VStr (str_repeat s (Z.to_nat n)))
  | VStr _, _ | _, VStr _ => Raise TypeError
  | _, _ =>
      match as_Q a, as_Q b with
      | Some x, Some y => Ok (VFloat (x * y))
      | _, _ => Ok VNaN
      end
  end.

(** [a / b], true division.  The sources divide only by non-zero constants
    or under a [> 0] guard; a zero divisor is given Python's exception. *)
Definition py_div (a b : value) : result value :=
  match a, b with
  | VStr _, _ | _, VStr _ => Raise TypeError
  | _, _ =>
      match as_Q b with
      | Some y =>
          if Qeq_bool y 0 then Raise ZeroDivisionError
          else match as_Q a with
               | Some x => Ok (VFloat (x / y))
               | None => Ok VNaN
               end
      | None => Ok VNaN
      end
  end.

(** [int(v)]: a float is truncated towards zero. *)
Definition py_int {rt : Runtime} (v : value) : result Z :=
  match v with
  | VInt z => Ok z
  | VFloat q => Ok (Z.quot (Qnum q) (Zpos (Qden q)))
  | VNaN => Raise ValueError
  | VStr s => match int_of_str s with Some z => Ok z | None => Raise ValueError end
  end.

(** ** Text formatting *)

Definition str_of_Z (z : Z) : string := NilZero.string_of_int (Z.to_int z).

(** The first [n] characters, [s[:n]]. *)
Fixpoint str_take (n : nat) (s : string) : string :=
  match n, s with
  | S n', String c s' => String c (str_take n' s')
  | _, _ => ""
  end.

(** Thousands separators, on the digits taken from the right. *)
Fixpoint group_rev (ds : list ascii) (n : nat) : list ascii :=
  match ds with
  | [] => []
  | d :: ds' =>
      if (n =? 3)%nat then ","%char :: d :: group_rev ds' 1
      else d :: group_rev ds' (S n)
  end.

Definition group_digits (ds : string) : string :=
  string_of_list_ascii (rev (group_rev (rev (list_ascii_of_string ds)) 0)).

(** [f"{z:,}"] for an [int] *)
Definition format_comma_Z (z : Z) : string :=
  (if (z <? 0)%Z then "-" else "") +:+ group_digits (str_of_Z (Z.abs z)).

(** Rounding to the nearest integer, ties to the even one. *)
Definition round_half_even (q : Q) : Z :=
  let n := Qnum q in
  let m := Zpos (Qden q) in
  let fl := (n / m)%Z in
  match (2 * (n mod m) ?= m)%Z with
  | Lt => fl
  | Gt => (fl + 1)%Z
  | Eq => if Z.even fl then fl else (fl + 1)%Z
  end.

(** Zeros on the left up to [width] characters. *)
Definition zero_pad (width : nat) (s : string) : string :=
  str_repeat "0" (width - String.length s) +:+ s.

(** [f"{q:.df}"] for a finite number *)
Definition format_fixed (d : nat) (q : Q) : string :=
  let scale := (10 ^ Z.of_nat d)%Z in
  let a := Z.abs (round_half_even (q * inject_Z scale)) in
  (if Qltb q 0 then "-" else "")
  +:+ str_of_Z (a / scale)
  +:+ (if (d =? 0)%nat then "" else "." +:+ zero_pad d (str_of_Z (a mod scale))).

(** [f"{v:.df}"] *)
Definition format_f (d : nat) (v : value) : result string :=
  match v with
  | VInt z => Ok (format_fixed d (inject_Z z))
  | VFloat q => Ok (format_fixed d q)
  | VNaN => Ok "nan"
  | VStr _ => Raise ValueError
  end.

(** Grouping the leading digits of a float's [repr]. *)
Fixpoint leading_digits (s : string) : string * string :=
  match s with
  | String c s' =>
      if ((48 <=? nat_of_ascii c) && (nat_of_ascii c <=? 57))%nat
      then let (ds, rest) := leading_digits s' in (String c ds, rest)
      else ("", s)
  | EmptyString => ("", "")
  end.

Definition group_repr (s : string) : string :=
  match s with
  | String "-" s' => let (ds, rest) := leading_digits s' in "-" +:+ group_digits ds +:+ rest
  | _ => let (ds, rest) := leading_digits s in group_digits ds +:+ rest
  end.

(** [f"{v:,}"] *)
Definition format_comma {rt : Runtime} (v : value) : result string :=
  match v with
  | VInt z => Ok (format_comma_Z z)
  | VFloat q => Ok (group_repr (float_repr q))
  | VNaN => Ok "nan"
  | VStr _ => Raise ValueError
  end.

(** [str(v)], which is also [f"{v}"] *)
Definition py_str {rt : Runtime} (v : value) : string :=
  match v with
  | VInt z => str_of_Z z
  | VFloat q => float_repr q
  | VNaN => "nan"
  | VStr s => s
  end.

(** [round(v, d)] *)
Definition py_round (d : nat) (v : value) : result value :=
  match v with
  | VInt z => Ok (VInt z)
  | VFloat q =>
      let scale := inject_Z (10 ^ Z.of_nat d) in
      Ok (VFloat (inject_Z (round_half_even (q * scale)) / scale))
  | VNaN => Ok VNaN
  | VStr _ => Raise TypeError
  end.

(** [enumerate(xs, i)] *)
Fixpoint enumerate {A} (i : nat) (xs : list A) : list (nat * A) :=
  match xs with
  | [] => []
  | x :: xs' => (i, x) :: enumerate (S i) xs'
  end.

(** A [for] loop that appends one entry per item and stops at the first
    exception. *)
Fixpoint for_each {A B} (f : A -> result B) (l : list A) : result (list B) :=
  match l with
  | [] => Ok []
  | x :: l' =>
      match f x with
      | Ok y => match for_each f l' with Ok ys => Ok (y :: ys) | Raise e => Raise e end
      | Raise e => Raise e
      end
  end.

End Py.
Export Py.

Notation "'let*' x ':=' m 'in' k" := (Py.bind m (fun x => k))
  (at level 10, x pattern, m at level 100, k at level 200).

(* ================================================================== *)
(** * parse_html_to_excel.py: locating the JSON span *)
(* ================================================================== *)

Module ParseHtml.

Definition start_marker : list ascii := list_ascii_of_string "const data=".

(** [s.startswith(p)], used to define [str.find]. *)
Fixpoint starts_with (p s : list ascii) : bool :=
  match p, s with
  | [], _ => true
  | _ :: _, [] => false
  | a :: p', b :: s' => Ascii.eqb a b && starts_with p' s'
  end.

(** [content.find(p)], searching from index [i]: the lowest index at which
    [p] occurs, [None] for Python's [-1]. *)
Fixpoint find_from (p s : list ascii) (i : nat) : option nat :=
  if starts_with p s then Some i
  else match s with
       | [] => None
       | _ :: s' => find_from p s' (S i)
       end.

Definition find (p s : list ascii) : option nat := find_from p s 0.

(** [content[lo:hi]] for indices within range. *)
Definition slice (s : list ascii) (lo hi : nat) : list ascii :=
  firstn (hi - lo) (skipn lo s).

(** The [for i in range(start_idx, len(content))] loop of
    [extract_data_from_html]: [cs] is [content[i:]].  It answers [Some
    end_idx] when the loop reaches [break] and [None] when it runs off the
    end of the text. *)
Fixpoint scan (cs : list ascii) (i : nat) (brace_count : Z)
    (in_string escape_next : bool) {struct cs} : option nat :=
  match cs with
  | [] => None
  | char :: rest =>
      if escape_next then
        scan rest (S i) brace_count in_string false
      else if Ascii.eqb char backslash then
        scan rest (S i) brace_count in_string true
      else if Ascii.eqb char dquote && negb escape_next then
        scan rest (S i) brace_count (negb in_string) escape_next
      else if negb in_string then
        if Ascii.eqb char "{" then
          scan rest (S i) (brace_count + 1)%Z in_string escape_next
        else if Ascii.eqb char "}" then
          let brace_count := (brace_count - 1)%Z in
          if (brace_count =? 0)%Z then Some (i + 1)
          else scan rest (S i) brace_count in_string escape_next
        else scan rest (S i) brace_count in_string escape_next
      else scan rest (S i) brace_count in_string escape_next
  end.

(** [extract_data_from_html] up to [data_str]: the text handed to
    [json.loads]. *)
Definition extract_data_str (content : list ascii) : result (list ascii) :=
  match find start_marker content with
  | None => Raise ValueError
  | Some start_idx =>
      let start_idx := start_idx + length start_marker in
      let end_idx :=
        match scan (skipn start_idx content) start_idx 0 false false with
        | Some e => e
        | None => start_idx
        end in
      Ok (slice content start_idx end_idx)
  end.

(** ** Well-formed JSON text (the grammar of json.org / RFC 8259) *)

Definition is_ws (c : ascii) : bool :=
  Ascii.eqb c " " || Ascii.eqb c "009" || Ascii.eqb c "010" || Ascii.eqb c "013".

Definition is_digit (c : ascii) : bool :=
  ((48 <=? nat_of_ascii c) && (nat_of_ascii c <=? 57))%nat.

Definition is_hex (c : ascii) : bool :=
  is_digit c
  || ((65 <=? nat_of_ascii c) && (nat_of_ascii c <=? 70))%nat
  || ((97 <=? nat_of_ascii c) && (nat_of_ascii c <=? 102))%nat.

(** Characters a JSON string may hold unescaped: anything from U+0020 on
    except the quotation mark and the reverse solidus. *)
Definition is_unescaped (c : ascii) : bool :=
  (32 <=? nat_of_ascii c)%nat && negb (Ascii.eqb c dquote) && negb (Ascii.eqb c backslash).

(** The character after a reverse solidus in a two-character escape. *)
Definition is_escape_code (c : ascii) : bool :=
  existsb (Ascii.eqb c) [dquote; backslash; "/"; "b"; "f"; "n"; "r"; "t"]%char.

Inductive json_ws : list ascii -> Prop :=
| ws_nil : json_ws []
| ws_cons c w : is_ws c = true -> json_ws w -> json_ws (c :: w).

(** The characters between the quotation marks of a string. *)
Inductive json_chars : list ascii -> Prop :=
| chars_nil : json_chars []
| chars_plain c s :
    is_unescaped c = true -> json_chars s -> json_chars (c :: s)
| chars_escape c s :
    is_escape_code c = true -> json_chars s -> json_chars (backslash :: c :: s)
| chars_unicode h1 h2 h3 h4 s :
    forallb is_hex [h1; h2; h3; h4] = true -> json_chars s ->
    json_chars (backslash :: "u"%char :: h1 :: h2 :: h3 :: h4 :: s).

Definition json_string (t : list ascii) : Prop :=
  exists s, json_chars s /\ t = dquote :: s ++ [dquote].

Definition json_digits (t : list ascii) : Prop :=
  t <> [] /\ forallb is_digit t = true.

(** integer: digit | onenine digits | '-' digit | '-' onenine digits *)
Definition json_integer (t : list ascii) : Prop :=
  exists sign ds,
    t = sign ++ ds /\ (sign = [] \/ sign = ["-"%char]) /\ json_digits ds /\
    (forall ds', ds = "0"%char :: ds' -> ds' = []).

Definition json_fraction (t : list ascii) : Prop :=
  t = [] \/ exists ds, json_digits ds /\ t = "."%char :: ds.

Definition json_exponent (t : list ascii) : Prop :=
  t = [] \/
  exists e sign ds,
    (e = "e"%char \/ e = "E"%char) /\
    (sign = [] \/ sign = ["+"%char] \/ sign = ["-"%char]) /\
    json_digits ds /\ t = e :: sign ++ ds.

Definition json_number (t : list ascii) : Prop :=
  exists i f e,
    json_integer i /\ json_fraction f /\ json_exponent e /\ t = i ++ f ++ e.

Inductive json_value : list ascii -> Prop :=
| value_object t : json_object t -> json_value t
| value_array t : json_array t -> json_value t
| value_string t : json_string t -> json_value t
| value_number t : json_number t -> json_value t
| value_true : json_value (list_ascii_of_string "true")
| value_false : json_value (list_ascii_of_string "false")
| value_null : json_value (list_ascii_of_string "null")
with json_object : list ascii -> Prop :=
| object_empty w : json_ws w -> json_object ("{"%char :: w ++ ["}"%char])
| object_members m : json_members m -> json_object ("{"%char :: m ++ ["}"%char])
with json_members : list ascii -> Prop :=
| members_one m : json_member m -> json_members m
| members_more m ms :
    json_member m -> json_members ms -> json_members (m ++ ","%char :: ms)
with json_member : list ascii -> Prop :=
| member_pair w1 k w2 e :
    json_ws w1 -> json_string k -> json_ws w2 -> json_element e ->
    json_member (w1 ++ k ++ w2 ++ ":"%char :: e)
with json_array : list ascii -> Prop :=
| array_empty w : json_ws w -> json_array ("["%char :: w ++ ["]"%char])
| array_elements es : json_elements es -> json_array ("["%char :: es ++ ["]"%char])
with json_elements : list ascii -> Prop :=
| elements_one e : json_element e -> json_elements e
| elements_more e es :
    json_element e -> json_elements es -> json_elements (e ++ ","%char :: es)
with json_element : list ascii -> Prop :=
| element_value w1 v w2 :
    json_ws w1 -> json_value v -> json_ws w2 -> json_element (w1 ++ v ++ w2).

(** Text the scanner passes over without changing its state: characters
    that are no brace, quotation mark or reverse solidus, string literals,
    and brace groups. *)
Definition is_neutral (c : ascii) : bool :=
  negb (Ascii.eqb c dquote) && negb (Ascii.eqb c backslash)
  && negb (Ascii.eqb c "{") && negb (Ascii.eqb c "}").

Inductive quoted_body : list ascii -> Prop :=
| qb_nil : quoted_body []
| qb_plain c s :
    Ascii.eqb c dquote = false -> Ascii.eqb c backslash = false ->
    quoted_body s -> quoted_body (c :: s)
| qb_escape c s : quoted_body s -> quoted_body (backslash :: c :: s).

Inductive balanced : list ascii -> Prop :=
| bal_nil : balanced []
| bal_neutral c t : is_neutral c = true -> balanced t -> balanced (c :: t)
| bal_quoted s t :
    quoted_body s -> balanced t -> balanced (dquote :: s ++ dquote :: t)
| bal_group g t :
    balanced g -> balanced t -> balanced ("{"%char :: g ++ "}"%char :: t).

(** The sample of the specification: [const data={"a":"{}","b":1}] followed
    by trailing HTML. *)
Definition quote (s : string) : list ascii :=
  dquote :: list_ascii_of_string s ++ [dquote].

Definition sample_object : list ascii :=
  "{"%char :: quote "a" ++ ":"%char :: quote "{}" ++ ","%char :: quote "b"
  ++ list_ascii_of_string ":1}".

Definition sample_html : list ascii :=
  list_ascii_of_string "<script>const data=" ++ sample_object
  ++ list_ascii_of_string ";</script></body></html>".

End ParseHtml.

(* ================================================================== *)
(** * The part of pandas the analyzer uses *)
(* ================================================================== *)

Module Pandas.

(** A sheet: its column labels and its rows, each row holding one cell per
    column. *)
Record DataFrame : Type := {
  columns : list string;
  data : list (list value)
}.

(** A row as [iterrows] and [iloc] hand it out: labels with their cells. *)
Definition Series : Type := list (string * value).

(** [pd.DataFrame()] *)
Definition empty_frame : DataFrame := {| columns := []; data := [] |}.

(** [df.empty]: an axis of length 0 *)
Definition df_empty (df : DataFrame) : bool :=
  match columns df, data df with
  | [], _ | _, [] => true
  | _, _ => false
  end.

(** [c in df.columns] *)
Definition has_column (df : DataFrame) (c : string) : bool :=
  existsb (String.eqb c) (columns df).

Definition iterrows (df : DataFrame) : list Series :=
  map (combine (columns df)) (data df).

(** [row.get(key, default)] *)
Fixpoint series_get (row : Series) (key : string) (default : value) : value :=
  match row with
  | [] => default
  | (k, v) :: row' => if String.eqb k key then v else series_get row' key default
  end.

(** [df[c]] *)
Definition column (df : DataFrame) (c : string) : result (list value) :=
  if has_column df c
  then Ok (map (fun row => series_get row c VNaN) (iterrows df))
  else Raise (KeyError c).

(** [xs.iloc[0]] *)
Definition iloc0 {A} (xs : list A) : result A :=
  match xs with
  | x :: _ => Ok x
  | [] => Raise IndexError
  end.

(** [df[mask]] for a boolean mask *)
Fixpoint keep {A} (xs : list A) (mask : list bool) : list A :=
  match xs, mask with
  | x :: xs', b :: mask' => if b then x :: keep xs' mask' else keep xs' mask'
  | _, _ => []
  end.

Definition mask_rows (df : DataFrame) (mask : list bool) : DataFrame :=
  {| columns := columns df; data := keep (data df) mask |}.

(** The items at the given positions, in that order. *)
Fixpoint items_at {A} (xs : list A) (order : list nat) : list A :=
  match order with
  | [] => []
  | i :: order' =>
      match nth_error xs i with
      | Some x => x :: items_at xs order'
      | None => items_at xs order'
      end
  end.

Definition take_rows (df : DataFrame) (order : list nat) : DataFrame :=
  {| columns := columns df; data := items_at (data df) order |}.

(** [df.sort_values(by=c, ascending=False)] *)
Definition sort_values_desc {rt : Runtime} (df : DataFrame) (c : string)
  : result DataFrame :=
  let* keys := column df c in
  let* order := sort_order keys in
  Ok (take_rows df order).

(** [df.head(n)] *)
Definition head (n : nat) (df : DataFrame) : DataFrame :=
  {| columns := columns df; data := firstn n (data df) |}.

(** A stable sort into descending order, by insertion: [lt x y] says that
    [x] goes after [y]. *)
Fixpoint insert_desc {A} (lt : A -> A -> bool) (x : A) (xs : list A) : list A :=
  match xs with
  | [] => [x]
  | y :: xs' => if lt x y then y :: insert_desc lt x xs' else x :: xs
  end.

Definition sort_desc {A} (lt : A -> A -> bool) (xs : list A) : list A :=
  fold_right (insert_desc lt) [] xs.

(** [sorted(xs, key=key, reverse=True)]: Python's sort is stable. *)
Definition sorted_desc {A} (key : A -> nat) (xs : list A) : list A :=
  sort_desc (fun x y => (key x <? key y)%nat) xs.

(** Every row has one cell per column; a sheet read from a workbook has
    no rows when it has no columns. *)
Definition well_formed (df : DataFrame) : Prop :=
  Forall (fun r => length r = length (columns df)) (data df) /\
  (columns df = [] -> data df = []).

End Pandas.
Export Pandas.

(* ================================================================== *)
(** * analyze_db_report.py: class PostgresAnalyzer *)
(* ================================================================== *)

Module Analyzer.

(** [self.sheets], as [load_data] fills it: sheet name to table. *)
Abbreviation Workbook := (gmap string DataFrame).

(** [self.sheets.get(name, pd.DataFrame())] *)
Definition sheet (wb : Workbook) (name : string) : DataFrame :=
  default empty_frame (wb !! name).

Record db_stat : Type := {
  db_dbname : value;
  db_size : value;
  db_size_delta : value;
  db_cache_hit_ratio : value;
  db_commits : value;
  db_rollbacks : value;
  db_rollback_ratio : value;
  db_deadlocks : value;
  db_temp_files : value;
  db_temp_bytes : value;
  db_issues : list string
}.

Record query_stat : Type := {
  q_query_id : value;
  q_query_preview : string;
  q_query_preview_suffix : string;
  q_dbname : value;
  q_username : value;
  q_calls : value;
  q_total_time : value;
  q_mean_time : value;
  q_rows : value;
  q_cache_ratio : value;
  q_temp_blks : value;
  q_issues : list string
}.

Record wal_query_stat : Type := {
  wq_query_id : value;
  wq_query_preview : string;
  wq_query_preview_suffix : string;
  wq_dbname : value;
  wq_calls : value;
  wq_wal_bytes : value;
  wq_wal_mb : value;
  wq_wal_gb : value;
  wq_wal_pct : value
}.

Record wal_stat : Type := {
  wal_records : value;
  wal_fpi : value;
  wal_bytes : value;
  wal_size_mb : value;
  wal_size_gb : value;
  wal_write_time : value;
  wal_sync_time : value
}.

Record table_stat : Type := {
  t_dbname : value;
  t_schema : value;
  t_table : value;
  t_size : value;
  t_live_tuples : value;
  t_dead_tuples : value;
  t_seq_scan : value;
  t_idx_scan : value;
  t_mod_since_analyze : value;
  t_issues : list string
}.

Record index_stat : Type := {
  i_dbname : value;
  i_schema : value;
  i_table : value;
  i_index : value;
  i_size : value;
  i_scans : value
}.

(** ** Whitespace normalisation: [' '.join(s.split())] *)

(** [c.isspace()] for the characters up to U+00FF *)
Definition is_space (c : ascii) : bool :=
  existsb (Nat.eqb (nat_of_ascii c)) [9; 10; 11; 12; 13; 28; 29; 30; 31; 32; 133; 160]%nat.

(** [s.split()]: [word] is the word being read, most recent character
    first. *)
Fixpoint split_from (word : list ascii) (cs : list ascii) : list (list ascii) :=
  match cs with
  | [] => match word with [] => [] | _ => [rev word] end
  | c :: cs' =>
      if is_space c then
        match word with
        | [] => split_from [] cs'
        | _ => rev word :: split_from [] cs'
        end
      else split_from (c :: word) cs'
  end.

Definition split (s : string) : list (list ascii) :=
  split_from [] (list_ascii_of_string s).

(** [' '.join(words)] *)
Fixpoint join_space (words : list (list ascii)) : list ascii :=
  match words with
  | [] => []
  | [w] => w
  | w :: rest => w ++ " "%char :: join_space rest
  end.

Definition normalize (s : string) : string :=
  string_of_list_ascii (join_space (split s)).

(** The normalisation in the words of the specification, as one pass over
    the text: a whitespace run between two words becomes one space, and
    whitespace before the first word or after the last one is dropped.
    [seen_word] says that a word has been copied, [pending] that a
    whitespace run has been read since. *)
Fixpoint collapse_from (seen_word pending : bool) (cs : list ascii) : list ascii :=
  match cs with
  | [] => []
  | c :: cs' =>
      if is_space c then collapse_from seen_word seen_word cs'
      else if pending then " "%char :: c :: collapse_from true false cs'
      else c :: collapse_from true false cs'
  end.

Definition collapse_whitespace (s : string) : string :=
  string_of_list_ascii (collapse_from false false (list_ascii_of_string s)).

(** The rows of the [queries] sheet that carry a query id, in sheet
    order. *)
Definition rows_with_id (queries : DataFrame) (query_id : value) : list Series :=
  List.filter (fun row => py_eq (series_get row "hexqueryid" VNaN) query_id)
    (iterrows queries).

Section WithRuntime.
Context {rt : Runtime}.

(** The text the report shows for a period column that is not there. *)
Definition not_given : value := VStr "Не указан".

(** ** get_report_period *)
Definition get_report_period (wb : Workbook) : result (value * value * Z) :=
  let props := sheet wb "Properties" in
  if df_empty props then Ok (not_given, not_given, 0%Z)
  else
    let* start :=
      if has_column props "report_start1"
      then (let* c := column props "report_start1" in iloc0 c)
      else Ok not_given in
    let* end_ :=
      if has_column props "report_end1"
      then (let* c := column props "report_end1" in iloc0 c)
      else Ok not_given in
    let duration_min :=
      match (let* c := column props "interval_duration_sec" in
             let* duration_sec := iloc0 c in
             let* minutes := py_div duration_sec (VInt 60) in
             py_int minutes)
      with
      | Ok z => z
      | Raise _ => 0%Z
      end in
    Ok (start, end_, duration_min).

(** [x and x > 0] used as a condition *)
Definition positive (v : value) : result bool :=
  if truthy v then py_gt v (VInt 0) else Ok false.

(** ** analyze_database_stats *)

(** [(rollbacks / (commits + rollbacks) * 100) if (commits + rollbacks) > 0
    else 0] *)
Definition rollback_ratio_of (commits rollbacks : value) : result value :=
  let* total := py_add commits rollbacks in
  let* some := py_gt total (VInt 0) in
  if some then
    let* total := py_add commits rollbacks in
    let* share := py_div rollbacks total in
    py_mul share (VInt 100)
  else Ok (VInt 0).

(** The body of the loop over the rows of [dbstat]. *)
Definition database_entry (row : Series) : result db_stat :=
  let dbname := series_get row "dbname" (VStr "Unknown") in
  let cache_hit_ratio := series_get row "blks_hit_pct" (VInt 0) in
  let size := series_get row "datsize" (VStr "N/A") in
  let size_delta := series_get row "datsize_delta" (VStr "N/A") in
  let commits := series_get row "xact_commit" (VInt 0) in
  let rollbacks := series_get row "xact_rollback" (VInt 0) in
  let deadlocks := series_get row "deadlocks" (VInt 0) in
  let temp_files := series_get row "temp_files" (VInt 0) in
  let temp_bytes := series_get row "temp_bytes" (VInt 0) in
  let issues := [] in
  let* low := py_lt cache_hit_ratio (VInt 95) in
  let* issues :=
    if low then
      let* pct := format_f 2 cache_hit_ratio in
      Ok (issues ++ ["⚠️ Низкий cache hit ratio: " +:+ pct +:+ "%"])
    else Ok issues in
  let* locked := positive deadlocks in
  let issues :=
    if locked
    then issues ++ ["⚠️ Обнаружены deadlocks: " +:+ py_str deadlocks]
    else issues in
  let* spilled := positive temp_files in
  let issues :=
    if spilled
    then issues ++ ["⚠️ Использование временных файлов: " +:+ py_str temp_files
                    +:+ " (" +:+ py_str temp_bytes +:+ ")"]
    else issues in
  let* rollback_ratio := rollback_ratio_of commits rollbacks in
  let* high := py_gt rollback_ratio (VInt 5) in
  let* issues :=
    if high then
      let* pct := format_f 2 rollback_ratio in
      Ok (issues ++ ["⚠️ Высокий процент rollback: " +:+ pct +:+ "%"])
    else Ok issues in
  Ok {| db_dbname := dbname;
        db_size := size;
        db_size_delta := size_delta;
        db_cache_hit_ratio := cache_hit_ratio;
        db_commits := commits;
        db_rollbacks := rollbacks;
        db_rollback_ratio := rollback_ratio;
        db_deadlocks := deadlocks;
        db_temp_files := temp_files;
        db_temp_bytes := temp_bytes;
        db_issues := issues |}.

Definition analyze_database_stats (wb : Workbook) : result (list db_stat) :=
  let df := sheet wb "dbstat" in
  if df_empty df then Ok []
  else for_each database_entry (iterrows df).

(** ** get_query_text *)
Definition get_query_text (wb : Workbook) (query_id : value)
  : result (option string) :=
  let queries_df := sheet wb "queries" in
  if df_empty queries_df then Ok None
  else
    let* ids := column queries_df "hexqueryid" in
    let query_row := mask_rows queries_df (map (fun v => py_eq v query_id) ids) in
    if negb (df_empty query_row) then
      let* texts := column query_row "query_texts" in
      let* query_texts := iloc0 texts in
      match query_texts with
      | VStr s => if negb (String.eqb s "") then Ok (Some (normalize s)) else Ok None
      | _ => Ok None
      end
    else Ok None.

(** [query_text[:50] if query_text else 'N/A'] *)
Definition preview_of (query_text : option string) : string :=
  match query_text with
  | Some t => if negb (String.eqb t "") then str_take 50 t else "N/A"
  | None => "N/A"
  end.

(** ['...' if query_text and len(query_text) > 50 else ''] *)
Definition preview_suffix_of (query_text : option string) : string :=
  match query_text with
  | Some t => if negb (String.eqb t "") && (50 <? String.length t)%nat then "..." else ""
  | None => ""
  end.

(** ** analyze_top_queries *)

(** [(shared_blks_hit / total_blks * 100) if total_blks > 0 else 100] with
    [total_blks = shared_blks_hit + shared_blks_read] *)
Definition cache_ratio_of (shared_blks_hit shared_blks_read : value)
  : result value :=
  let* total_blks := py_add shared_blks_hit shared_blks_read in
  let* touched := py_gt total_blks (VInt 0) in
  if touched then
    let* share := py_div shared_blks_hit total_blks in
    py_mul share (VInt 100)
  else Ok (VInt 100).

(** The body of the loop over the selected rows of [top_statements]. *)
Definition query_entry (wb : Workbook) (time_col mean_col : string) (row : Series)
  : result query_stat :=
  let query_id := series_get row "hexqueryid" (VStr "N/A") in
  let dbname := series_get row "dbname" (VStr "N/A") in
  let username := series_get row "username" (VStr "N/A") in
  let calls := series_get row "calls" (VInt 0) in
  let total_time := series_get row time_col (VInt 0) in
  let mean_time := series_get row mean_col (VInt 0) in
  let rows := series_get row "rows" (VInt 0) in
  let* query_text := get_query_text wb query_id in
  let query_preview := preview_of query_text in
  let query_preview_suffix := preview_suffix_of query_text in
  let shared_blks_hit := series_get row "shared_blks_hit" (VInt 0) in
  let shared_blks_read := series_get row "shared_blks_read" (VInt 0) in
  let temp_blks_written := series_get row "temp_blks_written" (VInt 0) in
  let* query_cache_ratio := cache_ratio_of shared_blks_hit shared_blks_read in
  let issues := [] in
  let* slow := py_gt mean_time (VInt 1000) in
  let* issues :=
    if slow then
      let* ms := format_f 2 mean_time in
      Ok (issues ++ ["Медленный запрос: " +:+ ms +:+ " мс"])
    else Ok issues in
  let* spilled := py_gt temp_blks_written (VInt 0) in
  let issues :=
    if spilled
    then issues ++ ["Использует temp: " +:+ py_str temp_blks_written +:+ " блоков"]
    else issues in
  let* cold := py_lt query_cache_ratio (VInt 90) in
  let* issues :=
    if cold then
      let* pct := format_f 1 query_cache_ratio in
      Ok (issues ++ ["Низкий cache hit: " +:+ pct +:+ "%"])
    else Ok issues in
  Ok {| q_query_id := query_id;
        q_query_preview := query_preview;
        q_query_preview_suffix := query_preview_suffix;
        q_dbname := dbname;
        q_username := username;
        q_calls := calls;
        q_total_time := total_time;
        q_mean_time := mean_time;
        q_rows := rows;
        q_cache_ratio := query_cache_ratio;
        q_temp_blks := temp_blks_written;
        q_issues := issues |}.

Definition analyze_top_queries (wb : Workbook) (top_n : nat)
  : result (list query_stat) :=
  let df := sheet wb "top_statements" in
  if df_empty df then Ok []
  else
    let time_col :=
      if has_column df "total_exec_time" then "total_exec_time" else "total_time" in
    let mean_col :=
      if has_column df "mean_exec_time" then "mean_exec_time" else "mean_time" in
    let* sorted := sort_values_desc df time_col in
    let df_sorted := head top_n sorted in
    for_each (query_entry wb time_col mean_col) (iterrows df_sorted).

(** ** analyze_top_wal_queries *)

(** The body of the loop over the selected rows. *)
Definition wal_query_entry (wb : Workbook) (row : Series) : result wal_query_stat :=
  let query_id := series_get row "hexqueryid" (VStr "N/A") in
  let wal_bytes := series_get row "wal_bytes" (VInt 0) in
  let wal_bytes_pct := series_get row "wal_bytes_pct" (VInt 0) in
  let* query_text := get_query_text wb query_id in
  let query_preview := preview_of query_text in
  let query_preview_suffix := preview_suffix_of query_text in
  let* wal_mb := py_div wal_bytes (VInt (1024 * 1024)) in
  let* large := py_gt wal_mb (VInt 1024) in
  let* wal_gb := if large then py_div wal_mb (VInt 1024) else Ok (VInt 0) in
  let* wal_mb_rounded := py_round 2 wal_mb in
  let* some_gb := py_gt wal_gb (VInt 0) in
  let* wal_gb_rounded := if some_gb then py_round 3 wal_gb else Ok (VInt 0) in
  let* wal_pct := if truthy wal_bytes_pct then py_round 2 wal_bytes_pct else Ok (VInt 0) in
  Ok {| wq_query_id := query_id;
        wq_query_preview := query_preview;
        wq_query_preview_suffix := query_preview_suffix;
        wq_dbname := series_get row "dbname" (VStr "N/A");
        wq_calls := series_get row "calls" (VInt 0);
        wq_wal_bytes := wal_bytes;
        wq_wal_mb := wal_mb_rounded;
        wq_wal_gb := wal_gb_rounded;
        wq_wal_pct := wal_pct |}.

Definition analyze_top_wal_queries (wb : Workbook) (top_n : nat)
  : result (list wal_query_stat) :=
  let df := sheet wb "top_statements" in
  if df_empty df then Ok []
  else if negb (has_column df "wal_bytes") then Ok []
  else
    let* wal := column df "wal_bytes" in
    let present := map notna wal in
    let* above := for_each (fun v => py_gt v (VInt 0)) wal in
    let df_wal :=
      mask_rows df (map (fun p => andb (fst p) (snd p)) (combine present above)) in
    if df_empty df_wal then Ok []
    else
      let* sorted := sort_values_desc df_wal "wal_bytes" in
      let df_sorted := head top_n sorted in
      for_each (wal_query_entry wb) (iterrows df_sorted).

(** ** analyze_wal_stats: [None] is the empty dict *)
Definition analyze_wal_stats (wb : Workbook) : result (option wal_stat) :=
  let df := sheet wb "wal_stats" in
  if df_empty df then Ok None
  else
    let* row := iloc0 (iterrows df) in
    let wal_records := series_get row "wal_records" (VInt 0) in
    let wal_fpi := series_get row "wal_fpi" (VInt 0) in
    let wal_bytes := series_get row "wal_bytes" (VInt 0) in
    let wal_write_time := series_get row "wal_write_time" (VInt 0) in
    let wal_sync_time := series_get row "wal_sync_time" (VInt 0) in
    let* wal_mb :=
      if truthy wal_bytes then py_div wal_bytes (VInt (1024 * 1024)) else Ok (VInt 0) in
    let* wal_gb := py_div wal_mb (VInt 1024) in
    Ok (Some {| wal_records := wal_records;
                wal_fpi := wal_fpi;
                wal_bytes := wal_bytes;
                wal_size_mb := wal_mb;
                wal_size_gb := wal_gb;
                wal_write_time := wal_write_time;
                wal_sync_time := wal_sync_time |}).

(** ** analyze_tables *)

(** The body of the loop over the rows of [top_tables]: what it appends
    to [results], nothing for a table without issues. *)
Definition table_entry (row : Series) : result (list table_stat) :=
  let dbname := series_get row "dbname" (VStr "N/A") in
  let schemaname := series_get row "schemaname" (VStr "N/A") in
  let relname := series_get row "relname" (VStr "N/A") in
  let n_live_tup := series_get row "n_live_tup" (VInt 0) in
  let n_dead_tup := series_get row "n_dead_tup" (VInt 0) in
  let n_mod_since_analyze := series_get row "n_mod_since_analyze" (VInt 0) in
  let seq_scan := series_get row "seq_scan" (VInt 0) in
  let idx_scan := series_get row "idx_scan" (VInt 0) in
  let relsize := series_get row "relsize" (VStr "N/A") in
  let issues := [] in
  let* live := py_gt n_live_tup (VInt 0) in
  let* issues :=
    if live then
      let* share := py_div n_dead_tup n_live_tup in
      let* dead_ratio := py_mul share (VInt 100) in
      let* bloated := py_gt dead_ratio (VInt 20) in
      if bloated then
        let* pct := format_f 1 dead_ratio in
        let* dead := format_comma n_dead_tup in
        Ok (issues ++ ["⚠️ Много мертвых строк: " +:+ pct +:+ "% (" +:+ dead +:+ ")"])
      else Ok issues
    else Ok issues in
  let* live := py_gt n_live_tup (VInt 0) in
  let* stale :=
    if live then
      let* fifth := py_mul n_live_tup (VFloat (2 # 10)) in
      py_gt n_mod_since_analyze fifth
    else Ok false in
  let* issues :=
    if stale then
      let* mods := format_comma n_mod_since_analyze in
      Ok (issues ++ ["⚠️ Нужен ANALYZE: " +:+ mods +:+ " изменений"])
    else Ok issues in
  let* scanned := py_gt seq_scan (VInt 100) in
  let* big := if scanned then py_gt n_live_tup (VInt 10000) else Ok false in
  let issues :=
    if big
    then issues ++ ["⚠️ Много seq_scan: " +:+ py_str seq_scan
                    +:+ " (возможно нужен индекс)"]
    else issues in
  match issues with
  | [] => Ok []
  | _ =>
      Ok [ {| t_dbname := dbname;
              t_schema := schemaname;
              t_table := relname;
              t_size := relsize;
              t_live_tuples := n_live_tup;
              t_dead_tuples := n_dead_tup;
              t_seq_scan := seq_scan;
              t_idx_scan := idx_scan;
              t_mod_since_analyze := n_mod_since_analyze;
              t_issues := issues |} ]
  end.

Definition analyze_tables (wb : Workbook) (top_n : nat) : result (list table_stat) :=
  let df := sheet wb "top_tables" in
  if df_empty df then Ok []
  else
    let* entries := for_each table_entry (iterrows df) in
    let results := concat entries in
    Ok (firstn top_n (sorted_desc (fun x => length (t_issues x)) results)).

(** ** analyze_indexes *)

Definition index_entry (row : Series) : index_stat :=
  {| i_dbname := series_get row "dbname" (VStr "N/A");
     i_schema := series_get row "schemaname" (VStr "N/A");
     i_table := series_get row "relname" (VStr "N/A");
     i_index := series_get row "indexrelname" (VStr "N/A");
     i_size := series_get row "indexrelsize" (VStr "N/A");
     i_scans := series_get row "idx_scan" (VInt 0) |}.

(** The loop over the rows of [top_indexes], appending to [results]. *)
Fixpoint unused_indexes_loop (rows : list Series) (results : list index_stat)
  : list index_stat :=
  match rows with
  | [] => results
  | row :: rows' =>
      let idx_scan := series_get row "idx_scan" (VInt 0) in
      if py_eq idx_scan (VInt 0)
      then unused_indexes_loop rows' (results ++ [index_entry row])
      else unused_indexes_loop rows' results
  end.

Definition analyze_indexes (wb : Workbook) : list index_stat :=
  let df := sheet wb "top_indexes" in
  if df_empty df then []
  else unused_indexes_loop (iterrows df) [].

(** ** generate_markdown_report

    The report is the sequence of texts handed to [f.write], in order. *)

Definition nl2 : string := nl +:+ nl.

Definition str_of_nat (n : nat) : string := str_of_Z (Z.of_nat n).

(** [for] loop whose body writes several texts. *)
Definition write_each {A} (f : A -> result (list string)) (xs : list A)
  : result (list string) :=
  let* blocks := for_each f xs in Ok (concat blocks).

Definition bullet (item : string) : string := "- " +:+ item +:+ nl.

(** The fixed headers and placeholders. *)
Definition h_title : string := "# 📊 Анализ производительности PostgreSQL" +:+ nl2.
Definition h_period : string := "## ⏱️ Период мониторинга" +:+ nl2.
Definition h_databases : string := "## 🗄️ Общая статистика баз данных" +:+ nl2.
Definition h_wal : string := "## 📝 Статистика Write-Ahead Log (WAL)" +:+ nl2.
Definition h_wal_queries : string := "### 📊 Топ-5 запросов по генерации WAL" +:+ nl2.
Definition h_queries : string := "## 🔥 Топ самых тяжелых запросов" +:+ nl2.
Definition h_tables : string := "## 🗂️ Таблицы требующие внимания" +:+ nl2.
Definition h_indexes : string := "## 🔍 Неиспользуемые индексы" +:+ nl2.
Definition h_summary : string := "## 📋 Общие выводы и рекомендации" +:+ nl2.
Definition h_good : string := "### ✅ Что работает хорошо" +:+ nl2.
Definition h_critical : string := nl +:+ "### ⚠️ Критические проблемы" +:+ nl2.
Definition h_advice : string := nl +:+ "### 💡 Рекомендации по оптимизации" +:+ nl2.
Definition h_footer : string := "## 📚 Дополнительная информация" +:+ nl2.
Definition rule : string := "---" +:+ nl2.
Definition wal_unavailable : string := "*Данные недоступны*" +:+ nl2.
Definition queries_unavailable : string := "*Данные о запросах недоступны*" +:+ nl2.

(** The three lines of the WAL rate classification. *)
Definition wal_high : string :=
  "⚠️ **Высокая скорость генерации WAL** - возможно много операций записи" +:+ nl2.
Definition wal_moderate : string := "⚡ **Умеренная активность записи**" +:+ nl2.
Definition wal_normal : string := "✅ **Нормальная активность записи**" +:+ nl2.

Definition is_rate_line (s : string) : bool :=
  String.eqb s wal_high || String.eqb s wal_moderate || String.eqb s wal_normal.

(** One database of the "Общая статистика баз данных" section. *)
Definition render_database (db : db_stat) : result (list string) :=
  let size_str := if isna (db_size db) then "" else py_str (db_size db) in
  let size_delta_str :=
    if isna (db_size_delta db) then "" else py_str (db_size_delta db) in
  let* commits_str :=
    if notna (db_commits db)
    then (let* n := py_int (db_commits db) in Ok (format_comma_Z n))
    else Ok "" in
  let* rollbacks_str :=
    if notna (db_rollbacks db)
    then (let* n := py_int (db_rollbacks db) in Ok (format_comma_Z n))
    else Ok "" in
  let* rollback_ratio_str :=
    if notna (db_rollback_ratio db) && negb (String.eqb rollbacks_str "")
    then (let* pct := format_f 2 (db_rollback_ratio db) in Ok ("(" +:+ pct +:+ "%)"))
    else Ok "" in
  let* deadlocks_str :=
    if isna (db_deadlocks db) || py_eq (db_deadlocks db) (VInt 0)
    then Ok ""
    else (let* n := py_int (db_deadlocks db) in Ok (str_of_Z n)) in
  let* temp_files_str :=
    if isna (db_temp_files db) || py_eq (db_temp_files db) (VInt 0)
    then Ok ""
    else (let* n := py_int (db_temp_files db) in Ok (str_of_Z n)) in
  let* cache := format_f 2 (db_cache_hit_ratio db) in
  Ok ([ "### База данных: `" +:+ py_str (db_dbname db) +:+ "`" +:+ nl2;
        "| Метрика | Значение |" +:+ nl;
        "|---------|----------|" +:+ nl;
        "| **Размер БД** | " +:+ size_str +:+ " |" +:+ nl;
        "| **Изменение размера** | " +:+ size_delta_str +:+ " |" +:+ nl;
        "| **Cache Hit Ratio** | " +:+ cache +:+ "% |" +:+ nl;
        "| **Commits** | " +:+ commits_str +:+ " |" +:+ nl;
        "| **Rollbacks** | " +:+ rollbacks_str +:+ " " +:+ rollback_ratio_str
          +:+ " |" +:+ nl;
        "| **Deadlocks** | " +:+ deadlocks_str +:+ " |" +:+ nl;
        "| **Временные файлы** | " +:+ temp_files_str +:+ " |" +:+ nl2 ]
      ++ match db_issues db with
         | [] => [ "✅ **Проблем не обнаружено**" +:+ nl2 ]
         | issues =>
             [ "**⚠️ Обнаруженные проблемы:**" +:+ nl2 ]
             ++ map bullet issues ++ [ nl ]
         end).

(** [wal_stats['size_mb'] / duration if duration > 0 else 0] *)
Definition wal_per_min_of (size_mb : value) (duration : Z) : result value :=
  if (0 <? duration)%Z then py_div size_mb (VInt duration) else Ok (VInt 0).

(** The [if]/[elif]/[else] that picks the classification line. *)
Definition wal_rate_line (wal_per_min : value) : result string :=
  let* high := py_gt wal_per_min (VInt 100) in
  if high then Ok wal_high
  else
    let* moderate := py_gt wal_per_min (VInt 50) in
    if moderate then Ok wal_moderate else Ok wal_normal.

(** The "Статистика Write-Ahead Log" section. *)
Definition render_wal (wal_stats : option wal_stat) (duration : Z)
  : result (list string) :=
  match wal_stats with
  | Some w =>
      let* records := format_comma (wal_records w) in
      let* fpi := format_comma (wal_fpi w) in
      let* mb := format_f 2 (wal_size_mb w) in
      let* gb := format_f 3 (wal_size_gb w) in
      let* write_time := format_f 2 (wal_write_time w) in
      let* sync_time := format_f 2 (wal_sync_time w) in
      let* wal_per_min := wal_per_min_of (wal_size_mb w) duration in
      let* rate := format_f 2 wal_per_min in
      let* line := wal_rate_line wal_per_min in
      Ok [ h_wal;
           "| Метрика | Значение |" +:+ nl;
           "|---------|----------|" +:+ nl;
           "| **Количество записей** | " +:+ records +:+ " |" +:+ nl;
           "| **Full Page Images** | " +:+ fpi +:+ " |" +:+ nl;
           "| **Объем WAL** | " +:+ mb +:+ " MB (" +:+ gb +:+ " GB) |" +:+ nl;
           "| **Время записи** | " +:+ write_time +:+ " мс |" +:+ nl;
           "| **Время синхронизации** | " +:+ sync_time +:+ " мс |" +:+ nl2;
           "**Скорость генерации WAL**: " +:+ rate +:+ " MB/мин" +:+ nl2;
           line ]
  | None => Ok [ h_wal; wal_unavailable ]
  end.

(** One query of the "Топ-5 запросов по генерации WAL" block. *)
Definition render_wal_query (item : nat * wal_query_stat) : result (list string) :=
  let (i, query) := item in
  let* calls := format_comma (wq_calls query) in
  let* mb := format_f 2 (wq_wal_mb query) in
  let* share := py_gt (wq_wal_pct query) (VInt 0) in
  let* pct :=
    if share
    then (let* p := format_f 1 (wq_wal_pct query) in
          Ok [ " — " +:+ p +:+ "% от общего WAL" ])
    else Ok [] in
  Ok ([ "**" +:+ str_of_nat i +:+ ". Query ID:** `" +:+ py_str (wq_query_id query)
          +:+ "`" +:+ nl2;
        "- **SQL Preview:** `" +:+ wq_query_preview query
          +:+ wq_query_preview_suffix query +:+ "`" +:+ nl;
        "- **База данных:** " +:+ py_str (wq_dbname query) +:+ nl;
        "- **Количество вызовов:** " +:+ calls +:+ nl;
        "- **Объем WAL:** " +:+ mb +:+ " MB" ]
      ++ pct ++ [ nl2 ]).

Definition render_wal_queries (top_wal_queries : list wal_query_stat)
  : result (list string) :=
  match top_wal_queries with
  | [] => Ok []
  | _ =>
      let* body := write_each render_wal_query (enumerate 1 top_wal_queries) in
      Ok ([ h_wal_queries;
            "*Запросы с наибольшим объемом Write-Ahead Log*" +:+ nl2 ]
          ++ body ++ [ nl ])
  end.

(** One query of the "Топ самых тяжелых запросов" section. *)
Definition render_query (item : nat * query_stat) : result (list string) :=
  let (i, query) := item in
  let* calls := format_comma (q_calls query) in
  let* total_ms := py_mul (q_total_time query) (VInt 1000) in
  let* total := format_f 0 total_ms in
  let* mean := format_f 2 (q_mean_time query) in
  let rows_value := q_rows query in
  let* counted := if notna rows_value then py_gt rows_value (VInt 0) else Ok false in
  let* rows_str :=
    if counted then (let* n := py_int rows_value in Ok (format_comma_Z n)) else Ok "" in
  let* cache := format_f 1 (q_cache_ratio query) in
  let* spilled := py_gt (q_temp_blks query) (VInt 0) in
  let* temp :=
    if spilled
    then (let* t := format_comma (q_temp_blks query) in
          Ok [ "| **Временные блоки** | " +:+ t +:+ " |" +:+ nl ])
    else Ok [] in
  let recommendations := [] in
  let* slow := py_gt (q_mean_time query) (VInt 1000) in
  let recommendations :=
    if slow
    then recommendations ++ [ "Рассмотреть оптимизацию запроса или добавление индексов" ]
    else recommendations in
  let* spilled := py_gt (q_temp_blks query) (VInt 0) in
  let recommendations :=
    if spilled
    then recommendations
         ++ [ "Увеличить `work_mem` для избежания использования временных файлов" ]
    else recommendations in
  let* cold := py_lt (q_cache_ratio query) (VInt 90) in
  let recommendations :=
    if cold
    then recommendations ++ [ "Проверить индексы и статистику таблиц" ]
    else recommendations in
  Ok ([ "### " +:+ str_of_nat i +:+ ". Query ID: `" +:+ py_str (q_query_id query)
          +:+ "`" +:+ nl2;
        "**SQL Preview:** `" +:+ q_query_preview query
          +:+ q_query_preview_suffix query +:+ "`" +:+ nl2;
        "| Параметр | Значение |" +:+ nl;
        "|----------|----------|" +:+ nl;
        "| **База данных** | " +:+ py_str (q_dbname query) +:+ " |" +:+ nl;
        "| **Пользователь** | " +:+ py_str (q_username query) +:+ " |" +:+ nl;
        "| **Количество вызовов** | " +:+ calls +:+ " |" +:+ nl;
        "| **Общее время выполнения** | " +:+ total +:+ " мс |" +:+ nl;
        "| **Среднее время** | " +:+ mean +:+ " мс |" +:+ nl;
        "| **Количество строк** | " +:+ rows_str +:+ " |" +:+ nl;
        "| **Cache Hit Ratio** | " +:+ cache +:+ "% |" +:+ nl ]
      ++ temp ++ [ nl ]
      ++ match q_issues query with
         | [] => [ "✅ **Запрос работает нормально**" +:+ nl2 ]
         | issues => [ "**⚠️ Проблемы:**" +:+ nl2 ] ++ map bullet issues ++ [ nl ]
         end
      ++ match recommendations with
         | [] => []
         | _ => [ "**💡 Рекомендации:**" +:+ nl2 ] ++ map bullet recommendations ++ [ nl ]
         end
      ++ [ rule ]).

Definition render_queries (top_queries : list query_stat) : result (list string) :=
  match top_queries with
  | [] => Ok [ h_queries; queries_unavailable ]
  | _ =>
      let* body := write_each render_query (enumerate 1 top_queries) in
      Ok ([ h_queries;
            "*Анализ " +:+ str_of_nat (length top_queries)
              +:+ " запросов с наибольшим временем выполнения*" +:+ nl2 ]
          ++ body)
  end.

(** One table of the "Таблицы требующие внимания" section. *)
Definition render_table (item : nat * table_stat) : result (list string) :=
  let (i, table) := item in
  let name := py_str (t_schema table) +:+ "." +:+ py_str (t_table table) in
  let* live := format_comma (t_live_tuples table) in
  let* dead := format_comma (t_dead_tuples table) in
  let* seq := format_comma (t_seq_scan table) in
  let* idx := format_comma (t_idx_scan table) in
  let* mods := format_comma (t_mod_since_analyze table) in
  let* fifth := py_mul (t_live_tuples table) (VFloat (2 # 10)) in
  let* bloated := py_gt (t_dead_tuples table) fifth in
  let* fifth := py_mul (t_live_tuples table) (VFloat (2 # 10)) in
  let* stale := py_gt (t_mod_since_analyze table) fifth in
  let* scanned := py_gt (t_seq_scan table) (VInt 100) in
  let* big := if scanned then py_gt (t_live_tuples table) (VInt 10000) else Ok false in
  Ok ([ "### " +:+ str_of_nat i +:+ ". `" +:+ name +:+ "`" +:+ nl2;
        "| Параметр | Значение |" +:+ nl;
        "|----------|----------|" +:+ nl;
        "| **База данных** | " +:+ py_str (t_dbname table) +:+ " |" +:+ nl;
        "| **Размер** | " +:+ py_str (t_size table) +:+ " |" +:+ nl;
        "| **Живых строк** | " +:+ live +:+ " |" +:+ nl;
        "| **Мертвых строк** | " +:+ dead +:+ " |" +:+ nl;
        "| **Seq Scan** | " +:+ seq +:+ " |" +:+ nl;
        "| **Index Scan** | " +:+ idx +:+ " |" +:+ nl;
        "| **Изменений с ANALYZE** | " +:+ mods +:+ " |" +:+ nl2;
        "**⚠️ Проблемы:**" +:+ nl2 ]
      ++ map bullet (t_issues table)
      ++ [ nl; "**💡 Рекомендации:**" +:+ nl2 ]
      ++ (if bloated
          then [ "- Выполнить `VACUUM ANALYZE " +:+ name +:+ ";`" +:+ nl ] else [])
      ++ (if stale then [ "- Выполнить `ANALYZE " +:+ name +:+ ";`" +:+ nl ] else [])
      ++ (if big
          then [ "- Рассмотреть создание индекса для частых запросов" +:+ nl ] else [])
      ++ [ nl; rule ]).

Definition render_tables (problem_tables : list table_stat) : result (list string) :=
  match problem_tables with
  | [] => Ok []
  | _ =>
      let* body := write_each render_table (enumerate 1 problem_tables) in
      Ok (h_tables :: body)
  end.

(** The "Неиспользуемые индексы" section. *)
Definition render_indexes (unused_indexes : list index_stat) : list string :=
  match unused_indexes with
  | [] => []
  | _ =>
      [ h_indexes;
        "*Индексы, которые не использовались за период мониторинга*" +:+ nl2;
        "| База данных | Схема | Таблица | Индекс | Размер |" +:+ nl;
        "|-------------|-------|---------|--------|--------|" +:+ nl ]
      ++ map (fun idx =>
                "| " +:+ py_str (i_dbname idx) +:+ " | " +:+ py_str (i_schema idx)
                +:+ " | " +:+ py_str (i_table idx) +:+ " | " +:+ py_str (i_index idx)
                +:+ " | " +:+ py_str (i_size idx) +:+ " |" +:+ nl)
             (firstn 10 unused_indexes)
      ++ [ nl +:+ "**💡 Рекомендация**: Рассмотреть удаление неиспользуемых индексов для экономии места и улучшения производительности INSERT/UPDATE операций." +:+ nl2;
           "```sql" +:+ nl;
           "-- Проверьте использование индекса перед удалением:" +:+ nl ]
      ++ map (fun idx =>
                "DROP INDEX IF EXISTS " +:+ py_str (i_schema idx) +:+ "."
                +:+ py_str (i_index idx) +:+ ";" +:+ nl)
             (firstn 3 unused_indexes)
      ++ [ "```" +:+ nl2; rule ]
  end.

(** The entries one database adds to [good_things]. *)
Definition good_of (db : db_stat) : result (list string) :=
  let* fine := py_ge (db_cache_hit_ratio db) (VInt 95) in
  let* first :=
    if fine then
      let* pct := format_f 2 (db_cache_hit_ratio db) in
      Ok [ "Отличный cache hit ratio в БД `" +:+ py_str (db_dbname db) +:+ "`: "
           +:+ pct +:+ "%" ]
    else Ok [] in
  Ok (first
      ++ (if py_eq (db_deadlocks db) (VInt 0)
          then [ "Нет deadlocks в БД `" +:+ py_str (db_dbname db) +:+ "`" ] else [])).

(** The entries one database adds to [critical]. *)
Definition critical_of (db : db_stat) : result (list string) :=
  let* bad := py_lt (db_cache_hit_ratio db) (VInt 90) in
  let* first :=
    if bad then
      let* pct := format_f 2 (db_cache_hit_ratio db) in
      Ok [ "**Очень низкий cache hit ratio** в `" +:+ py_str (db_dbname db) +:+ "`: "
           +:+ pct +:+ "% - нужно увеличить `shared_buffers`" ]
    else Ok [] in
  let* locked := positive (db_deadlocks db) in
  Ok (first
      ++ (if locked
          then [ "**Deadlocks** в `" +:+ py_str (db_dbname db) +:+ "`: "
                 +:+ py_str (db_deadlocks db) +:+ " - проверить логику приложения" ]
          else [])).

(** The entries one database adds to [recommendations]. *)
Definition advice_of (db : db_stat) : result (list string) :=
  let* spilled := positive (db_temp_files db) in
  let first :=
    if spilled
    then [ "**Увеличить work_mem** - обнаружено использование временных файлов" ]
    else [] in
  let* above := py_le (VInt 90) (db_cache_hit_ratio db) in
  let* middling := if above then py_lt (db_cache_hit_ratio db) (VInt 95) else Ok false in
  let* second :=
    if middling then
      let* pct := format_f 2 (db_cache_hit_ratio db) in
      Ok [ "**Рассмотреть увеличение shared_buffers** - cache hit ratio " +:+ pct
           +:+ "% можно улучшить" ]
    else Ok [] in
  Ok (first ++ second).

(** [[q for q in top_queries if q['mean_time'] > 1000]] *)
Fixpoint heavy_queries_of (top_queries : list query_stat) : result (list query_stat) :=
  match top_queries with
  | [] => Ok []
  | q :: rest =>
      let* slow := py_gt (q_mean_time q) (VInt 1000) in
      let* others := heavy_queries_of rest in
      Ok (if slow then q :: others else others)
  end.

(** The "Общие выводы и рекомендации" section. *)
Definition render_summary (db_stats : list db_stat) (top_queries : list query_stat)
    (problem_tables : list table_stat) (unused_indexes : list index_stat)
  : result (list string) :=
  let* good_things := write_each good_of db_stats in
  let good_things :=
    match good_things with
    | [] => [ "База работает в целом стабильно" ]
    | _ => good_things
    end in
  let* critical := write_each critical_of db_stats in
  let* recommendations := write_each advice_of db_stats in
  let recommendations :=
    match problem_tables with
    | [] => recommendations
    | _ => recommendations
           ++ [ "**Настроить autovacuum** - обнаружены таблицы с большим количеством мертвых строк" ]
    end in
  let recommendations :=
    match unused_indexes with
    | [] => recommendations
    | _ => recommendations
           ++ [ "**Удалить " +:+ str_of_nat (length unused_indexes)
                +:+ " неиспользуемых индексов** - освободит место и ускорит операции записи" ]
    end in
  let* heavy_queries := heavy_queries_of top_queries in
  let recommendations :=
    match heavy_queries with
    | [] => recommendations
    | _ => recommendations
           ++ [ "**Оптимизировать " +:+ str_of_nat (length heavy_queries)
                +:+ " медленных запросов** - используйте EXPLAIN ANALYZE для анализа" ]
    end in
  let recommendations :=
    match recommendations with
    | [] => [ "База данных настроена хорошо, критических рекомендаций нет" ]
    | _ => recommendations
    end in
  Ok ([ h_summary; h_good ]
      ++ map bullet good_things
      ++ [ h_critical ]
      ++ match critical with
         | [] => [ "- Критических проблем не обнаружено ✅" +:+ nl ]
         | _ => map bullet critical
         end
      ++ [ h_advice ]
      ++ map (fun item : nat * string =>
                str_of_nat (fst item) +:+ ". " +:+ snd item +:+ nl)
             (enumerate 1 recommendations)
      ++ [ nl +:+ rule ]).

Definition render_footer : list string :=
  [ h_footer;
    "**Источник данных**: `report--postgres-8360-8361.xlsx`" +:+ nl2;
    "**Инструменты анализа**: Python, pandas, openpyxl" +:+ nl2;
    "**Методология**: Анализ включает оценку производительности запросов, ";
    "использования индексов, статистики таблиц, WAL активности и общего здоровья БД."
      +:+ nl2;
    "*Отчет сгенерирован автоматически " +:+ now_foot +:+ "*" +:+ nl ].

Definition generate_markdown_report (wb : Workbook) : result (list string) :=
  let* period := get_report_period wb in
  let '(start, end_, duration) := period in
  let* db_stats := analyze_database_stats wb in
  let* top_queries := analyze_top_queries wb 10 in
  let* wal_stats := analyze_wal_stats wb in
  let* top_wal_queries := analyze_top_wal_queries wb 5 in
  let* problem_tables := analyze_tables wb 10 in
  let unused_indexes := analyze_indexes wb in
  let* databases := write_each render_database db_stats in
  let* wal := render_wal wal_stats duration in
  let* wal_queries := render_wal_queries top_wal_queries in
  let* queries := render_queries top_queries in
  let* tables := render_tables problem_tables in
  let* summary := render_summary db_stats top_queries problem_tables unused_indexes in
  Ok ([ h_title;
        "**Дата анализа**: " +:+ now_head +:+ nl2;
        h_period;
        "- **Начало**: `" +:+ py_str start +:+ "`" +:+ nl;
        "- **Конец**: `" +:+ py_str end_ +:+ "`" +:+ nl;
        "- **Длительность**: " +:+ str_of_Z duration +:+ " минут" +:+ nl2;
        rule;
        h_databases ]
      ++ databases
      ++ [ rule ]
      ++ wal
      ++ wal_queries
      ++ [ rule ]
      ++ queries
      ++ tables
      ++ render_indexes unused_indexes
      ++ summary
      ++ render_footer).

(** The section headers, in the order the report has them when every
    section is written. *)
Definition section_headers : list string :=
  [ h_title; h_period; h_databases; h_wal; h_wal_queries; h_queries; h_tables;
    h_indexes; h_summary; h_good; h_critical; h_advice; h_footer ].

Definition is_section_header (s : string) : bool :=
  existsb (String.eqb s) section_headers.

(** What [generate_markdown_report] writes for a workbook that has only a
    [Properties] sheet, for the period [get_report_period] found. *)
Definition properties_only_report (start end_ : value) (duration : Z) : list string :=
  [ h_title;
    "**Дата анализа**: " +:+ now_head +:+ nl2;
    h_period;
    "- **Начало**: `" +:+ py_str start +:+ "`" +:+ nl;
    "- **Конец**: `" +:+ py_str end_ +:+ "`" +:+ nl;
    "- **Длительность**: " +:+ str_of_Z duration +:+ " минут" +:+ nl2;
    rule;
    h_databases;
    rule;
    h_wal;
    wal_unavailable;
    rule;
    h_queries;
    queries_unavailable;
    h_summary;
    h_good;
    "- База работает в целом стабильно" +:+ nl;
    h_critical;
    "- Критических проблем не обнаружено ✅" +:+ nl;
    h_advice;
    "1. База данных настроена хорошо, критических рекомендаций нет" +:+ nl;
    nl +:+ rule ]
  ++ render_footer.

(** [process_excel_file] for a file that exists and loads: [True] when the
    report is written, [False] when the analysis raises. *)
Definition process_excel_file (wb : Workbook) : bool :=
  is_ok (generate_markdown_report wb).

End WithRuntime.

(** No field that the WAL table prints with a numeric format holds a
    [str]. *)
Definition wal_printable (w : wal_stat) : bool :=
  forallb (fun v => negb (is_str v))
    [ wal_records w; wal_fpi w; wal_size_mb w; wal_size_gb w;
      wal_write_time w; wal_sync_time w ].

(** ** A runtime to run the analyzer on sample workbooks

    Floats print with one decimal, [int()] refuses every [str], and
    [sort_values] orders a column of numbers with a stable sort, missing
    values last. *)

Definition value_ltb (a b : value) : bool :=
  match py_lt a b with
  | Ok c => c
  | Raise _ => false
  end.

Definition stable_order (keys : list value) : result (list nat) :=
  let present := List.filter (fun p => notna (snd p)) (enumerate 0 keys) in
  let missing := List.filter (fun p => isna (snd p)) (enumerate 0 keys) in
  if forallb (fun p => negb (is_str (snd p))) present
  then Ok (map fst (sort_desc (fun x y => value_ltb (snd x) (snd y)) present)
           ++ map fst missing)
  else Raise TypeError.

Definition sample_runtime : Runtime :=
  {| float_repr := format_fixed 1;
     int_of_str := fun _ => None;
     sort_order := stable_order;
     now_head := "2024-01-01 00:00:00";
     now_foot := "2024-01-01 00:00:01" |}.

(** A runtime whose [sort_values] also orders by descending key, missing
    values last, but places equal keys last row first: an order that the
    default [kind] of [sort_values], which is not a stable sort, may
    produce. *)
Definition unstable_order (keys : list value) : result (list nat) :=
  let present := List.filter (fun p => notna (snd p)) (enumerate 0 keys) in
  let missing := List.filter (fun p => isna (snd p)) (enumerate 0 keys) in
  if forallb (fun p => negb (is_str (snd p))) present
  then Ok (map fst (sort_desc (fun x y => value_ltb (snd x) (snd y)) (rev present))
           ++ map fst missing)
  else Raise TypeError.

Definition unstable_runtime : Runtime :=
  {| float_repr := format_fixed 1;
     int_of_str := fun _ => None;
     sort_order := unstable_order;
     now_head := "2024-01-01 00:00:00";
     now_foot := "2024-01-01 00:00:01" |}.

(** ** Sample rows and workbooks *)

(** Three statements, the first two with equal total time. *)
Definition wb_tied_statements : Workbook :=
  {[ "top_statements" :=
       {| columns := ["hexqueryid"; "total_exec_time"; "mean_exec_time"];
          data := [ [VStr "A1"; VFloat 1; VFloat (1 # 2)];
                    [VStr "B2"; VFloat 1; VFloat (1 # 4)];
                    [VStr "C3"; VFloat 2; VFloat (1 # 8)] ] |} ]}.

Definition query_ids (r : result (list query_stat)) : result (list value) :=
  let* stats := r in Ok (map q_query_id stats).

Definition sample_db_row : Series :=
  [ ("dbname", VStr "postgres"); ("blks_hit_pct", VFloat (995 # 10));
    ("xact_commit", VInt 90); ("xact_rollback", VInt 10) ].

Definition sample_idle_db_row : Series :=
  [ ("dbname", VStr "template1"); ("xact_commit", VInt 0); ("xact_rollback", VInt 0) ].

Definition sample_query_row : Series :=
  [ ("hexqueryid", VStr "A1"); ("total_exec_time", VFloat (3 # 2));
    ("mean_exec_time", VFloat (1 # 2));
    ("shared_blks_hit", VInt 30); ("shared_blks_read", VInt 10) ].

Definition sample_properties : DataFrame :=
  {| columns := ["report_start1"; "report_end1"; "interval_duration_sec"];
     data := [ [VStr "2024-01-01 10:00:00"; VStr "2024-01-01 11:00:00"; VInt 3600] ] |}.

(** The stored text of the specification's example, and a query whose
    stored text is a single space. *)
Definition sample_sql : string :=
  "SELECT   *" +:+ nl +:+ " FROM  t".

Definition wb_sample_queries : Workbook :=
  {[ "queries" :=
       {| columns := ["hexqueryid"; "query_texts"];
          data := [ [VStr "A1"; VStr sample_sql]; [VStr "B2"; VStr " "] ] |} ]}.

(** A workbook with a period of 60 minutes and 7200 MB of WAL. *)
Definition wb_sample_wal : Workbook :=
  <[ "wal_stats" :=
       {| columns := ["wal_records"; "wal_fpi"; "wal_bytes"];
          data := [ [VInt 1200; VInt 15; VInt (7200 * 1024 * 1024)] ] |} ]>
  {[ "Properties" := sample_properties ]}.

Definition sample_wal_stat : wal_stat :=
  {| wal_records := VInt 1200;
     wal_fpi := VInt 15;
     wal_bytes := VInt (7200 * 1024 * 1024);
     wal_size_mb := VFloat (inject_Z (7200 * 1024 * 1024) / inject_Z (1024 * 1024));
     wal_size_gb :=
       VFloat (inject_Z (7200 * 1024 * 1024) / inject_Z (1024 * 1024) / inject_Z 1024);
     wal_write_time := VInt 0;
     wal_sync_time := VInt 0 |}.

Definition sample_indexes : DataFrame :=
  {| columns := ["schemaname"; "relname"; "indexrelname"];
     data := [ [VStr "public"; VStr "orders"; VStr "orders_pkey"];
               [VStr "public"; VStr "orders"; VStr "orders_created_idx"] ] |}.

(** A [top_statements] sheet with neither [total_exec_time] nor
    [total_time]. *)
Definition wb_no_time_column : Workbook :=
  {[ "top_statements" :=
       {| columns := ["hexqueryid"; "calls"; "mean_exec_time"];
          data := [ [VStr "A1"; VInt 3; VFloat (1 # 2)] ] |} ]}.

(** A [queries] sheet without [hexqueryid]. *)
Definition wb_no_query_id : Workbook :=
  <[ "queries" :=
       {| columns := ["queryid"; "query_texts"];
          data := [ [VInt 7; VStr "SELECT 1"] ] |} ]>
  {[ "top_statements" :=
       {| columns := ["hexqueryid"; "total_exec_time"; "mean_exec_time"];
          data := [ [VStr "A1"; VFloat (3 # 2); VFloat (1 # 2)] ] |} ]}.

(** A database whose [blks_hit_pct] cell is empty. *)
Definition wb_missing_hit_pct : Workbook :=
  {[ "dbstat" :=
       {| columns := ["dbname"; "blks_hit_pct"; "xact_commit"];
          data := [ [VStr "postgres"; VNaN; VInt 12] ] |} ]}.

(** A statement whose time cells are empty. *)
Definition wb_missing_times : Workbook :=
  {[ "top_statements" :=
       {| columns := ["hexqueryid"; "total_exec_time"; "mean_exec_time"; "calls"];
          data := [ [VStr "A1"; VNaN; VNaN; VNaN] ] |} ]}.

(** ** Vocabulary of the further properties *)

Definition no_space (w : list ascii) : bool := forallb (fun c => negb (is_space c)) w.

(** A word as [str.split] yields it: not empty and free of whitespace. *)
Definition is_word (w : list ascii) : Prop := w <> [] /\ no_space w = true.

(** How many times a text is written to the report. *)
Definition count_line (target : string) (chunks : list string) : nat :=
  length (List.filter (fun s => String.eqb s target) chunks).

(** [s.startswith(prefix)] *)
Fixpoint str_starts_with (prefix s : string) : bool :=
  match prefix, s with
  | EmptyString, _ => true
  | String a p, String b s' => Ascii.eqb a b && str_starts_with p s'
  | String _ _, EmptyString => false
  end.


(** Lines of the query and table sections. *)
(** A [top_tables] sheet: a healthy table, two bloated ones around a table
    with all three issues, and a table that needs ANALYZE and an index. *)
Definition wb_sample_tables : Workbook :=
  {[ "top_tables" :=
       {| columns := ["relname"; "n_live_tup"; "n_dead_tup"; "n_mod_since_analyze";
                      "seq_scan"];
          data := [ [VStr "healthy"; VInt 1000; VInt 10; VInt 5; VInt 3];
                    [VStr "bloated"; VInt 1000; VInt 500; VInt 5; VInt 3];
                    [VStr "worst"; VInt 20000; VInt 9000; VInt 8000; VInt 250];
                    [VStr "swollen"; VInt 100; VInt 90; VInt 0; VInt 0];
                    [VStr "stale"; VInt 50000; VInt 10; VInt 20000; VInt 101] ] |} ]}.

(** A [top_statements] sheet with WAL volumes: one statement wrote nothing
    and one has no value. *)
Definition wb_sample_wal_queries : Workbook :=
  {[ "top_statements" :=
       {| columns := ["hexqueryid"; "wal_bytes"];
          data := [ [VStr "A1"; VInt 1048576];
                    [VStr "B2"; VInt 0];
                    [VStr "C3"; VNaN];
                    [VStr "D4"; VInt 5242880] ] |} ]}.

(** The third row of that sheet. *)
Definition sample_table_row : Series :=
  [ ("relname", VStr "worst"); ("n_live_tup", VInt 20000); ("n_dead_tup", VInt 9000);
    ("n_mod_since_analyze", VInt 8000); ("seq_scan", VInt 250) ].

(** The tables of a list that have [k] issues, in the order of the list. *)
Definition with_issues (k : nat) (tables : list table_stat) : list table_stat :=
  List.filter (fun t => (length (t_issues t) =? k)%nat) tables.

(** A table is kept with one to three issues, and only with a positive
    number of live rows. *)
Definition flagged (t : table_stat) : Prop :=
  (1 <= length (t_issues t) <= 3)%nat /\ py_gt (t_live_tuples t) (VInt 0) = Ok true.

Definition query_fine_line : string := "✅ **Запрос работает нормально**" +:+ nl2.
Definition issues_line : string := "**⚠️ Проблемы:**" +:+ nl2.
Definition advice_line : string := "**💡 Рекомендации:**" +:+ nl2.

(** The cells of a [dbstat] row that [analyze_database_stats] compares or
    formats as numbers hold no [str]. *)
Definition db_row_numeric (row : Series) : bool :=
  forallb (fun key => negb (is_str (series_get row key (VInt 0))))
    [ "blks_hit_pct"; "xact_commit"; "xact_rollback"; "deadlocks"; "temp_files" ].

(** An entry of [analyze_top_queries] with the issue of a slow query. *)
Definition has_slow_issue (e : query_stat) : bool :=
  existsb (str_starts_with "Медленный запрос") (q_issues e).

(** A [dbstat] sheet with two databases. *)
Definition wb_sample_databases : Workbook :=
  {[ "dbstat" :=
       {| columns := ["dbname"; "blks_hit_pct"; "xact_commit"; "xact_rollback"];
          data := [ [VStr "postgres"; VFloat (995 # 10); VInt 90; VInt 10];
                    [VStr "app"; VNaN; VInt 0; VInt 0] ] |} ]}.

(** A slow statement beside a fast one. *)
Definition wb_sample_slow : Workbook :=
  {[ "top_statements" :=
       {| columns := ["hexqueryid"; "total_exec_time"; "mean_exec_time"];
          data := [ [VStr "A1"; VFloat (3 # 2); VFloat (1 # 2)];
                    [VStr "B2"; VInt 90; VInt 1500] ] |} ]}.

End Analyzer.

(* ================================================================== *)
(** * parse_html_to_excel.py: the formatting of a sheet *)
(* ================================================================== *)

Module SheetFormat.

(** What [apply_sheet_formatting] reads and writes of an openpyxl cell:
    its value, the colour of its solid fill and whether its font is
    bold. *)
Record Cell : Type := {
  cell_value : option value;
  cell_fill : option string;
  cell_bold : bool
}.

(** The cell [worksheet.cell] creates where the sheet has none. *)
Definition blank : Cell :=
  {| cell_value := None; cell_fill := None; cell_bold := false |}.

(** A worksheet: its cells by (row, column), [auto_filter.ref] and the
    widths set in [column_dimensions], by column letter. *)
Record Worksheet : Type := {
  cells : gmap (nat * nat) Cell;
  auto_filter_ref : option string;
  column_widths : gmap string nat
}.

Definition HEADER_COLOR_RGB : nat * nat * nat := (144, 238, 144).
Definition ROW_COLOR_RGB : nat * nat * nat := (240, 255, 240).
Definition ENABLE_AUTOFILTER : bool := true.
Definition ENABLE_AUTOFIT_COLUMNS : bool := true.

Definition hex_digit (n : nat) : ascii :=
  nth n (list_ascii_of_string "0123456789ABCDEF") "0"%char.

(** ['{:02X}'.format(n)] for a byte *)
Definition hex02 (n : nat) : string :=
  String (hex_digit (n / 16)) (String (hex_digit (n mod 16)) "").

(** ['{:02X}{:02X}{:02X}'.format] of the three components *)
Definition rgb_hex (rgb : nat * nat * nat) : string :=
  let '(r, g, b) := rgb in hex02 r +:+ hex02 g +:+ hex02 b.

Definition header_fill : string := rgb_hex HEADER_COLOR_RGB.
Definition row_fill : string := rgb_hex ROW_COLOR_RGB.

(** [worksheet.cell(row=r, column=c)] *)
Definition cell_at (ws : Worksheet) (r c : nat) : Cell :=
  default blank (cells ws !! (r, c)).

Definition set_cell (ws : Worksheet) (r c : nat) (f : Cell -> Cell) : Worksheet :=
  {| cells := <[ (r, c) := f (cell_at ws r c) ]> (cells ws);
     auto_filter_ref := auto_filter_ref ws;
     column_widths := column_widths ws |}.

(** [cell.fill = header_fill; cell.font = Font(bold=True)] *)
Definition as_header (cell : Cell) : Cell :=
  {| cell_value := cell_value cell; cell_fill := Some header_fill; cell_bold := true |}.

(** [cell.fill = row_fill] *)
Definition as_data (cell : Cell) : Cell :=
  {| cell_value := cell_value cell;
     cell_fill := Some row_fill;
     cell_bold := cell_bold cell |}.

(** [range(lo, hi)] *)
Definition py_range (lo hi : nat) : list nat := seq lo (hi - lo).

(** [if cell.value:] *)
Definition truthy_value (v : option value) : bool :=
  match v with
  | Some x => truthy x
  | None => false
  end.

Section WithLibrary.
Context {rt : Runtime}.

(** [openpyxl.utils.get_column_letter] *)
Variable get_column_letter : nat -> string.

(** [len(str(cell.value))] *)
Definition value_length (v : option value) : nat :=
  match v with
  | Some x => String.length (py_str x)
  | None => 4
  end.

(** The inner loop that finds the longest text of a column. *)
Definition max_length (ws : Worksheet) (num_rows col : nat) : nat :=
  fold_left
    (fun max_length row =>
       let cell := cell_at ws row col in
       if truthy_value (cell_value cell) then
         let cell_length := value_length (cell_value cell) in
         if (max_length <? cell_length)%nat then cell_length else max_length
       else max_length)
    (py_range 1 (num_rows + 2)) 0.

Definition set_width (ws : Worksheet) (num_rows col : nat) : Worksheet :=
  let column_letter := get_column_letter col in
  let adjusted_width := Nat.min (max_length ws num_rows col + 2) 50 in
  {| cells := cells ws;
     auto_filter_ref := auto_filter_ref ws;
     column_widths := <[ column_letter := adjusted_width ]> (column_widths ws) |}.

(** The sheet as [apply_sheet_formatting] has it before its last loop, the
    one that sets the widths. *)
Definition styled (ws : Worksheet) (num_rows num_cols : nat) : Worksheet :=
  let ws :=
    fold_left (fun ws col => set_cell ws 1 col as_header)
      (py_range 1 (num_cols + 1)) ws in
  let ws :=
    fold_left
      (fun ws row =>
         fold_left (fun ws col => set_cell ws row col as_data)
           (py_range 1 (num_cols + 1)) ws)
      (py_range 2 (num_rows + 2)) ws in
  if ENABLE_AUTOFILTER && (0 <? num_rows)%nat
  then {| cells := cells ws;
          auto_filter_ref :=
            Some ("A1:" +:+ get_column_letter num_cols
                  +:+ str_of_Z (Z.of_nat (num_rows + 1)));
          column_widths := column_widths ws |}
  else ws.

Definition apply_sheet_formatting (ws : Worksheet) (num_rows num_cols : nat)
  : Worksheet :=
  let ws :=
    fold_left (fun ws col => set_cell ws 1 col as_header)
      (py_range 1 (num_cols + 1)) ws in
  let ws :=
    fold_left
      (fun ws row =>
         fold_left (fun ws col => set_cell ws row col as_data)
           (py_range 1 (num_cols + 1)) ws)
      (py_range 2 (num_rows + 2)) ws in
  let ws :=
    if ENABLE_AUTOFILTER && (0 <? num_rows)%nat
    then {| cells := cells ws;
            auto_filter_ref :=
              Some ("A1:" +:+ get_column_letter num_cols
                    +:+ str_of_Z (Z.of_nat (num_rows + 1)));
            column_widths := column_widths ws |}
    else ws in
  if ENABLE_AUTOFIT_COLUMNS
  then fold_left (fun ws col => set_width ws num_rows col)
         (py_range 1 (num_cols + 1)) ws
  else ws.

End WithLibrary.

(** Letters for the first 26 columns, to run the function on samples. *)
Definition sample_letter (col : nat) : string :=
  String (ascii_of_nat (64 + col)) "".

(** A sheet with a header row and two rows of data. *)
Definition sample_sheet : Worksheet :=
  {| cells :=
       list_to_map
         [ ((1, 1), {| cell_value := Some (VStr "relname"); cell_fill := None;
                       cell_bold := false |});
           ((1, 2), {| cell_value := Some (VStr "n_live_tup"); cell_fill := None;
                       cell_bold := false |});
           ((2, 1), {| cell_value := Some (VStr "orders"); cell_fill := None;
                       cell_bold := false |});
           ((2, 2), {| cell_value := Some (VInt 1200); cell_fill := None;
                       cell_bold := false |});
           ((3, 1), {| cell_value := Some (VStr "a_table_with_a_name_that_is_longer_than_the_widest_column");
                       cell_fill := None; cell_bold := false |});
           ((3, 2), {| cell_value := Some (VInt 0); cell_fill := None;
                       cell_bold := false |}) ];
     auto_filter_ref := None;
     column_widths := ∅ |}.

End SheetFormat.

(* ================================================================== *)
(** * The command line of both scripts: [main] *)
(* ================================================================== *)

Module Cli.

(** ['*' in file_pattern or '?' in file_pattern] *)
Definition has_wildcard (file_pattern : string) : bool :=
  existsb (Ascii.eqb "*") (list_ascii_of_string file_pattern)
  || existsb (Ascii.eqb "?") (list_ascii_of_string file_pattern).

Section WithSystem.

(** The state of the file system and of the console. *)
Variable World : Type.
(** [glob.glob] *)
Variable glob : string -> list string.
(** [str(Path(__file__).parent / DEFAULT_HTML_FILE)], or the same with
    [DEFAULT_EXCEL_FILE] *)
Variable default_path : string.
(** [process_html_file], or [process_excel_file]: whether the file was
    processed, and what this did to the world *)
Variable process_file : World -> string -> bool * World.

(** The list [main] builds from [args.files]. *)
Definition files_to_process (files : list string) : list string :=
  match files with
  | [] => [default_path]
  | _ =>
      fold_left
        (fun files_to_process file_pattern =>
           if has_wildcard file_pattern then
             match glob file_pattern with
             | [] => files_to_process
             | matched_files => files_to_process ++ matched_files
             end
           else files_to_process ++ [file_pattern])
        files []
  end.

(** The loop that processes the files and counts the outcomes. *)
Definition process_all (files : list string) (w : World) : nat * nat * World :=
  fold_left
    (fun state file =>
       let '(success_count, failed_count, w) := state in
       let (ok, w) := process_file w file in
       if ok then (success_count + 1, failed_count, w)
       else (success_count, failed_count + 1, w))
    files (0, 0, w).

(** [main]: [None] when it prints that no files were given and returns,
    the two counts otherwise. *)
Definition main (files : list string) (w : World) : option (nat * nat) * World :=
  match files_to_process files with
  | [] => (None, w)
  | to_process =>
      let '(success_count, failed_count, w) := process_all to_process w in
      (Some (success_count, failed_count), w)
  end.

End WithSystem.

End Cli.

(* ================================================================== *)
(** * Properties *)
(* ================================================================== *)

Module ParseHtmlSpec.
Import ParseHtml.

Scheme json_value_ind' := Minimality for json_value Sort Prop
  with json_object_ind' := Minimality for json_object Sort Prop
  with json_members_ind' := Minimality for json_members Sort Prop
  with json_member_ind' := Minimality for json_member Sort Prop
  with json_array_ind' := Minimality for json_array Sort Prop
  with json_elements_ind' := Minimality for json_elements Sort Prop
  with json_element_ind' := Minimality for json_element Sort Prop.

Combined Scheme json_mutind from json_value_ind', json_object_ind',
  json_members_ind', json_member_ind', json_array_ind', json_elements_ind',
  json_element_ind'.

Lemma neutral_step c rest i d :
  is_neutral c = true ->
  scan (c :: rest) i d false false = scan rest (S i) d false false.
Proof.
  unfold is_neutral. intros H.
  repeat (apply andb_prop in H; destruct H as [H ?]).
  apply negb_true_iff in H.
  repeat match goal with H' : negb _ = true |- _ => apply negb_true_iff in H' end.
  simpl. repeat match goal with H' : Ascii.eqb _ _ = false |- _ => rewrite H' end.
  reflexivity.
Qed.

(** Inside a string literal the scanner only looks for the closing
    quotation mark, skipping the character after each reverse solidus. *)
Lemma scan_quoted_body s :
  quoted_body s ->
  forall rest i d,
    scan (s ++ dquote :: rest) i d true false
    = scan rest (i + length s + 1) d false false.
Proof.
  induction 1 as [| c s Hq Hb _ IH | c s _ IH]; intros rest i d.
  - simpl. f_equal. lia.
  - change ((c :: s) ++ dquote :: rest) with (c :: (s ++ dquote :: rest)).
    cbn [scan]. rewrite Hb, Hq. cbn [andb negb].
    rewrite IH. f_equal. simpl. lia.
  - change ((backslash :: c :: s) ++ dquote :: rest)
      with (backslash :: c :: (s ++ dquote :: rest)).
    cbn [scan]. replace (Ascii.eqb backslash backslash) with true by reflexivity.
    rewrite IH. f_equal. simpl. lia.
Qed.

(** Balanced text met at a positive depth outside a string leaves the
    state of the scanner as it found it. *)
Lemma scan_balanced t :
  balanced t ->
  forall rest i d, (0 < d)%Z ->
    scan (t ++ rest) i d false false = scan rest (i + length t) d false false.
Proof.
  induction 1 as [| c t Hc _ IH | s t Hs _ IH | g t _ IHg _ IHt];
    intros rest i d Hd.
  - simpl. f_equal. lia.
  - change ((c :: t) ++ rest) with (c :: (t ++ rest)).
    rewrite neutral_step by assumption. rewrite IH by assumption.
    f_equal. simpl. lia.
  - change ((dquote :: s ++ dquote :: t) ++ rest)
      with (dquote :: ((s ++ dquote :: t) ++ rest)).
    rewrite <- app_assoc. change ((dquote :: t) ++ rest) with (dquote :: (t ++ rest)).
    cbn [scan]. replace (Ascii.eqb dquote backslash) with false by reflexivity.
    replace (Ascii.eqb dquote dquote) with true by reflexivity. cbn [andb negb].
    rewrite scan_quoted_body by assumption. rewrite IH by assumption.
    f_equal. simpl. rewrite length_app. simpl. lia.
  - change (("{"%char :: g ++ "}"%char :: t) ++ rest)
      with ("{"%char :: ((g ++ "}"%char :: t) ++ rest)).
    rewrite <- app_assoc. change (("}"%char :: t) ++ rest) with ("}"%char :: (t ++ rest)).
    cbn [scan]. replace (Ascii.eqb "{" backslash) with false by reflexivity.
    replace (Ascii.eqb "{" dquote) with false by reflexivity.
    replace (Ascii.eqb "{" "{") with true by reflexivity. cbn [andb negb].
    rewrite IHg by lia.
    cbn [scan]. replace (Ascii.eqb "}" backslash) with false by reflexivity.
    replace (Ascii.eqb "}" dquote) with false by reflexivity.
    replace (Ascii.eqb "}" "{") with false by reflexivity.
    replace (Ascii.eqb "}" "}") with true by reflexivity. cbn [andb negb].
    replace (d + 1 - 1 =? 0)%Z with false by (symmetry; apply Z.eqb_neq; lia).
    replace (d + 1 - 1)%Z with d by lia.
    rewrite IHt by assumption. f_equal. simpl. rewrite length_app. simpl. lia.
Qed.

(** A brace group met at depth 0 ends the scan right after its closing
    brace. *)
Lemma scan_group g rest i :
  balanced g ->
  scan ("{"%char :: g ++ "}"%char :: rest) i 0 false false
  = Some (i + length ("{"%char :: g ++ ["}"%char])).
Proof.
  intros Hg. cbn [scan].
  replace (Ascii.eqb "{" backslash) with false by reflexivity.
  replace (Ascii.eqb "{" dquote) with false by reflexivity.
  replace (Ascii.eqb "{" "{") with true by reflexivity. cbn [andb negb].
  rewrite scan_balanced by (assumption || lia).
  cbn [scan]. replace (Ascii.eqb "}" backslash) with false by reflexivity.
  replace (Ascii.eqb "}" dquote) with false by reflexivity.
  replace (Ascii.eqb "}" "{") with false by reflexivity.
  replace (Ascii.eqb "}" "}") with true by reflexivity. cbn [andb negb].
  simpl. f_equal. rewrite length_app. simpl. lia.
Qed.

Lemma balanced_app t u : balanced t -> balanced u -> balanced (t ++ u).
Proof.
  induction 1 as [| c t Hc _ IH | s t Hs _ IH | g t Hg _ _ IH]; intros Hu.
  - assumption.
  - simpl. apply bal_neutral; auto.
  - change ((dquote :: s ++ dquote :: t) ++ u)
      with (dquote :: ((s ++ dquote :: t) ++ u)).
    rewrite <- app_assoc. apply bal_quoted; auto.
  - change (("{"%char :: g ++ "}"%char :: t) ++ u)
      with ("{"%char :: ((g ++ "}"%char :: t) ++ u)).
    rewrite <- app_assoc. apply bal_group; auto.
Qed.

Lemma balanced_neutral t : forallb is_neutral t = true -> balanced t.
Proof.
  induction t as [| c t IH]; simpl; intros H.
  - constructor.
  - apply andb_prop in H. destruct H. apply bal_neutral; auto.
Qed.

Lemma ws_neutral c : is_ws c = true -> is_neutral c = true.
Proof.
  unfold is_ws. intros H.
  repeat (apply orb_prop in H; destruct H as [H | H]);
    apply Ascii.eqb_eq in H; subst c; reflexivity.
Qed.

Lemma digit_neutral c : is_digit c = true -> is_neutral c = true.
Proof.
  destruct c as [[] [] [] [] [] [] [] []]; vm_compute; congruence.
Qed.

Lemma balanced_ws w : json_ws w -> balanced w.
Proof.
  induction 1; [constructor | apply bal_neutral; auto using ws_neutral].
Qed.

Lemma balanced_digits ds : forallb is_digit ds = true -> balanced ds.
Proof.
  intros H. apply balanced_neutral. rewrite forallb_forall in *.
  intros c Hc. apply digit_neutral. auto.
Qed.

Lemma balanced_number t : json_number t -> balanced t.
Proof.
  intros (i & f & e & Hi & Hf & He & ->).
  repeat apply balanced_app.
  - destruct Hi as (sg & ds & -> & Hsg & [_ Hds] & _).
    apply balanced_app; [| now apply balanced_digits].
    destruct Hsg as [-> | ->]; [constructor |].
    apply bal_neutral; [reflexivity | constructor].
  - destruct Hf as [-> | (ds & [_ Hds] & ->)]; [constructor |].
    apply bal_neutral; [reflexivity | now apply balanced_digits].
  - destruct He as [-> | (c & sg & ds & Hc & Hsg & [_ Hds] & ->)]; [constructor |].
    apply bal_neutral; [destruct Hc as [-> | ->]; reflexivity |].
    apply balanced_app; [| now apply balanced_digits].
    destruct Hsg as [-> | [-> | ->]]; [constructor | |];
      (apply bal_neutral; [reflexivity | constructor]).
Qed.

Lemma chars_quoted_body s : json_chars s -> quoted_body s.
Proof.
  induction 1 as [| c s Hc _ IH | c s _ _ IH | h1 h2 h3 h4 s Hh _ IH].
  - constructor.
  - unfold is_unescaped in Hc.
    apply andb_prop in Hc. destruct Hc as [Hc Hb].
    apply andb_prop in Hc. destruct Hc as [_ Hq].
    apply negb_true_iff in Hb, Hq. now apply qb_plain.
  - now apply qb_escape.
  - apply qb_escape.
    simpl in Hh. repeat (apply andb_prop in Hh; destruct Hh as [? Hh]).
    assert (Hx : forall h, is_hex h = true ->
                 Ascii.eqb h dquote = false /\ Ascii.eqb h backslash = false).
    { intros h. destruct h as [[] [] [] [] [] [] [] []]; vm_compute;
        intros; split; congruence. }
    repeat match goal with
           | H' : is_hex ?h = true |- _ => apply Hx in H'; destruct H'
           end.
    repeat (apply qb_plain; [assumption | assumption |]). assumption.
Qed.

Lemma balanced_string t : json_string t -> balanced t.
Proof.
  intros (s & Hs & ->).
  change (dquote :: s ++ [dquote]) with (dquote :: s ++ dquote :: []).
  apply bal_quoted; [now apply chars_quoted_body | constructor].
Qed.

Lemma balanced_literal (s : string) :
  forallb is_neutral (list_ascii_of_string s) = true ->
  balanced (list_ascii_of_string s).
Proof. apply balanced_neutral. Qed.

(** Every JSON text is balanced; an object is one brace group. *)
Lemma json_balanced :
  (forall t, json_value t -> balanced t) /\
  (forall t, json_object t ->
     exists g, balanced g /\ t = "{"%char :: g ++ ["}"%char]) /\
  (forall t, json_members t -> balanced t) /\
  (forall t, json_member t -> balanced t) /\
  (forall t, json_array t -> balanced t) /\
  (forall t, json_elements t -> balanced t) /\
  (forall t, json_element t -> balanced t).
Proof.
  apply json_mutind.
  - intros t _ (g & Hg & ->).
    change ("{"%char :: g ++ ["}"%char]) with ("{"%char :: g ++ "}"%char :: []).
    apply bal_group; [assumption | constructor].
  - auto.
  - intros t Ht. now apply balanced_string.
  - intros t Ht. now apply balanced_number.
  - now apply balanced_literal.
  - now apply balanced_literal.
  - now apply balanced_literal.
  - intros w Hw. exists w. split; [now apply balanced_ws | reflexivity].
  - intros m _ Hm. exists m. split; [assumption | reflexivity].
  - auto.
  - intros m ms _ Hm _ Hms. apply balanced_app; [assumption |].
    apply bal_neutral; [reflexivity | assumption].
  - intros w1 k w2 e Hw1 Hk Hw2 _ He.
    apply balanced_app; [now apply balanced_ws |].
    apply balanced_app; [now apply balanced_string |].
    apply balanced_app; [now apply balanced_ws |].
    apply bal_neutral; [reflexivity | assumption].
  - intros w Hw. apply bal_neutral; [reflexivity |].
    apply balanced_app; [now apply balanced_ws |].
    apply bal_neutral; [reflexivity | constructor].
  - intros es _ Hes. apply bal_neutral; [reflexivity |].
    apply balanced_app; [assumption |].
    apply bal_neutral; [reflexivity | constructor].
  - auto.
  - intros e es _ He _ Hes. apply balanced_app; [assumption |].
    apply bal_neutral; [reflexivity | assumption].
  - intros w1 v w2 Hw1 _ Hv Hw2.
    apply balanced_app; [now apply balanced_ws |].
    apply balanced_app; [assumption | now apply balanced_ws].
Qed.

Lemma scan_json_object obj rest i :
  json_object obj ->
  scan (obj ++ rest) i 0 false false = Some (i + length obj).
Proof.
  intros Hobj.
  destruct (proj1 (proj2 json_balanced) obj Hobj) as (g & Hg & ->).
  change (("{"%char :: g ++ ["}"%char]) ++ rest)
    with ("{"%char :: ((g ++ ["}"%char]) ++ rest)).
  rewrite <- app_assoc. simpl app at 2. now apply scan_group.
Qed.

(** C5. When the first [const data=] of the text is followed by a
    well-formed JSON object, [extract_data_from_html] hands exactly that
    object to the JSON decoder, whatever follows it and whatever braces its
    string values hold. *)
Theorem extract_data_str_json_object (content obj rest : list ascii) (k : nat) :
  find start_marker content = Some k ->
  skipn (k + length start_marker) content = obj ++ rest ->
  json_object obj ->
  extract_data_str content = Ok obj.
Proof.
  intros Hfind Hskip Hobj. unfold extract_data_str. rewrite Hfind.
  cbv zeta. rewrite Hskip, scan_json_object by assumption.
  unfold slice. rewrite Hskip.
  replace (k + length start_marker + length obj - (k + length start_marker))
    with (length obj + 0) by lia.
  rewrite firstn_app_2. simpl. now rewrite app_nil_r.
Qed.

Lemma sample_object_json : json_object sample_object.
Proof.
  assert (Hstr : forall s, forallb is_unescaped (list_ascii_of_string s) = true ->
                 json_string (quote s)).
  { intros s Hs. exists (list_ascii_of_string s). split; [| reflexivity].
    induction (list_ascii_of_string s) as [| c l IH]; [constructor |].
    simpl in Hs. apply andb_prop in Hs. destruct Hs. now constructor; auto. }
  unfold sample_object.
  change ("{"%char :: quote "a" ++ ":"%char :: quote "{}" ++ ","%char :: quote "b"
          ++ list_ascii_of_string ":1}")
    with ("{"%char :: (([] ++ quote "a" ++ [] ++ ":"%char :: ([] ++ quote "{}" ++ []))
                       ++ ","%char :: ([] ++ quote "b" ++ [] ++ ":"%char :: ([] ++ ["1"%char] ++ [])))
          ++ ["}"%char]).
  apply object_members. apply members_more; [| apply members_one].
  - apply member_pair; [apply ws_nil | now apply Hstr | apply ws_nil |].
    apply element_value; [apply ws_nil | | apply ws_nil].
    apply value_string. now apply Hstr.
  - apply member_pair; [apply ws_nil | now apply Hstr | apply ws_nil |].
    apply element_value; [apply ws_nil | | apply ws_nil].
    apply value_number. exists ["1"%char], [], []. repeat split.
    + exists [], ["1"%char]. repeat split; auto; discriminate.
    + now left.
    + now left.
Qed.

(** The sample of the specification, through the theorem. *)
Lemma extract_data_str_json_object_witness :
  extract_data_str sample_html = Ok sample_object.
Proof.
  apply (extract_data_str_json_object sample_html sample_object
           (list_ascii_of_string ";</script></body></html>") 8).
  - reflexivity.
  - reflexivity.
  - exact sample_object_json.
Defined.

End ParseHtmlSpec.

Module AnalyzerSpec.
Import Analyzer.

(** ** Arithmetic and comparisons on numeric cells *)

Lemma Qltb_lt x y : Qltb x y = true <-> (x < y)%Q.
Proof.
  unfold Qltb. rewrite negb_true_iff. split.
  - intros Hle. apply Qnot_le_lt. intros Hc.
    apply Qle_bool_iff in Hc. congruence.
  - intros Hlt. destruct (Qle_bool y x) eqn:E; [| reflexivity].
    apply Qle_bool_iff in E. exfalso. exact (Qlt_not_le _ _ Hlt E).
Qed.

Lemma Qltb_ge x y : Qltb x y = false <-> (y <= x)%Q.
Proof.
  unfold Qltb. rewrite negb_false_iff. apply Qle_bool_iff.
Qed.

Lemma Qltb_proper x x' y y' : (x == x')%Q -> (y == y')%Q -> Qltb x y = Qltb x' y'.
Proof.
  intros Hx Hy. destruct (Qltb x' y') eqn:E.
  - apply Qltb_lt. apply Qltb_lt in E. now rewrite Hx, Hy.
  - apply Qltb_ge. apply Qltb_ge in E. now rewrite Hx, Hy.
Qed.

Lemma py_lt_numeric a b x y :
  as_Q a = Some x -> as_Q b = Some y -> py_lt a b = Ok (Qltb x y).
Proof.
  destruct a, b; simpl; intros Ha Hb; try discriminate;
    inversion Ha; inversion Hb; reflexivity.
Qed.

Lemma py_gt_numeric a b x y :
  as_Q a = Some x -> as_Q b = Some y -> py_gt a b = Ok (Qltb y x).
Proof. intros Ha Hb. unfold py_gt. now apply py_lt_numeric. Qed.

Lemma py_add_numeric a b x y :
  as_Q a = Some x -> as_Q b = Some y ->
  exists t z, py_add a b = Ok t /\ as_Q t = Some z /\ (z == x + y)%Q.
Proof.
  intros Ha Hb.
  destruct a as [za | qa | |], b as [zb | qb | |]; try discriminate;
    injection Ha as <-; injection Hb as <-.
  - exists (VInt (za + zb)), (inject_Z (za + zb)).
    repeat split. now rewrite inject_Z_plus.
  - exists (VFloat (inject_Z za + qb)), (inject_Z za + qb)%Q. now repeat split.
  - exists (VFloat (qa + inject_Z zb)), (qa + inject_Z zb)%Q. now repeat split.
  - exists (VFloat (qa + qb)), (qa + qb)%Q. now repeat split.
Qed.

Lemma py_div_numeric a b x y :
  as_Q a = Some x -> as_Q b = Some y -> ~ (y == 0)%Q ->
  py_div a b = Ok (VFloat (x / y)).
Proof.
  intros Ha Hb Hy.
  assert (Hz : Qeq_bool y 0 = false).
  { destruct (Qeq_bool y 0) eqn:E; [| reflexivity].
    apply Qeq_bool_iff in E. contradiction. }
  destruct a, b; simpl in *; try discriminate;
    inversion Ha; inversion Hb; subst; rewrite Hz; reflexivity.
Qed.

Lemma format_f_not_str d v : is_str v = false -> exists t, format_f d v = Ok t.
Proof. destruct v; simpl; intros; try discriminate; eauto. Qed.

Lemma py_lt_not_str v z : is_str v = false -> exists b, py_lt v (VInt z) = Ok b.
Proof. destruct v; simpl; intros; try discriminate; eauto. Qed.

Lemma py_gt_not_str v z : is_str v = false -> exists b, py_gt v (VInt z) = Ok b.
Proof. destruct v; simpl; intros; try discriminate; eauto. Qed.

(** Closes [~ In x l] for explicit [x] and [l] with distinct entries. *)
Ltac refute_in :=
  let Hin := fresh "Hin" in
  intros Hin;
  repeat (destruct Hin as [Hin | Hin]; [discriminate Hin |]);
  exact Hin.

(** ** Rows and columns *)

Lemma series_get_absent (cols : list string) (cells : list value) key default :
  existsb (String.eqb key) cols = false ->
  series_get (combine cols cells) key default = default.
Proof.
  revert cells. induction cols as [| c cols IH]; intros cells Hk; [reflexivity |].
  destruct cells as [| v cells]; [reflexivity |].
  simpl in *. apply orb_false_elim in Hk. destruct Hk as [Hc Hk].
  rewrite String.eqb_sym, Hc. now apply IH.
Qed.

Lemma iterrows_empty df : well_formed df -> df_empty df = true -> iterrows df = [].
Proof.
  intros [_ Hcols] He. unfold df_empty in He. unfold iterrows.
  destruct (columns df) eqn:Ec.
  - now rewrite Hcols.
  - destruct (data df); [reflexivity | discriminate].
Qed.

Lemma unused_indexes_loop_spec rows results :
  unused_indexes_loop rows results
  = results
    ++ map index_entry
         (List.filter (fun row => py_eq (series_get row "idx_scan" (VInt 0)) (VInt 0))
            rows).
Proof.
  revert results. induction rows as [| row rows IH]; intros results.
  - simpl. now rewrite app_nil_r.
  - cbn [unused_indexes_loop List.filter].
    destruct (py_eq (series_get row "idx_scan" (VInt 0)) (VInt 0)).
    + rewrite IH, <- app_assoc. reflexivity.
    + apply IH.
Qed.

(** [v == 0] holds for the numbers equal to zero and for nothing else. *)
Lemma py_eq_zero v :
  py_eq v (VInt 0) = true <-> exists q, as_Q v = Some q /\ (q == 0)%Q.
Proof.
  destruct v as [z | q | | s]; simpl.
  - rewrite Qeq_bool_iff. split; [eauto | now intros (q & [= <-] & Hq)].
  - rewrite Qeq_bool_iff. split; [eauto | now intros (q' & [= <-] & Hq)].
  - split; [discriminate | now intros (q & Hq & _)].
  - split; [discriminate | now intros (q & Hq & _)].
Qed.

Lemma keep_map {A B} (g : A -> B) xs mask :
  keep (map g xs) mask = map g (keep xs mask).
Proof.
  revert mask. induction xs as [| x xs IH]; intros [| b mask]; try reflexivity.
  simpl. destruct b; simpl; now rewrite IH.
Qed.

Lemma keep_filter {A} (f : A -> bool) xs :
  keep xs (map f xs) = List.filter f xs.
Proof.
  induction xs as [| x xs IH]; [reflexivity |].
  simpl. destruct (f x); now rewrite IH.
Qed.

Lemma iterrows_mask_rows df mask :
  iterrows (mask_rows df mask) = keep (iterrows df) mask.
Proof. unfold iterrows, mask_rows. simpl. now rewrite keep_map. Qed.

Lemma py_eq_nan v : py_eq VNaN v = false.
Proof. now destruct v. Qed.

(** ** Whitespace normalisation *)

Lemma join_space_cons w ws :
  join_space (w :: ws)
  = w ++ match ws with [] => [] | _ => " "%char :: join_space ws end.
Proof. destruct ws; simpl; [now rewrite app_nil_r | reflexivity]. Qed.

Lemma split_from_word word cs : word <> [] -> split_from word cs <> [].
Proof.
  revert word. induction cs as [| c cs IH]; intros word Hw; simpl.
  - destruct word; [contradiction | discriminate].
  - destruct (is_space c).
    + destruct word; [contradiction | discriminate].
    + apply IH. discriminate.
Qed.

(** [' '.join(s.split())] is the one-pass collapse of whitespace runs. *)
Lemma join_split_collapse cs :
  join_space (split_from [] cs) = collapse_from false false cs /\
  match split_from [] cs with
  | [] => []
  | ws => " "%char :: join_space ws
  end = collapse_from true true cs /\
  (forall word, word <> [] ->
     join_space (split_from word cs) = rev word ++ collapse_from true false cs).
Proof.
  induction cs as [| c cs (IH1 & IH2 & IH3)].
  - repeat split; try reflexivity.
    intros word Hw. simpl. destruct word; [contradiction |].
    now rewrite app_nil_r.
  - cbn [split_from collapse_from]. destruct (is_space c).
    + repeat split; try assumption.
      intros word Hw. destruct word as [| a word]; [contradiction |].
      rewrite join_space_cons. f_equal. rewrite <- IH2.
      now destruct (split_from [] cs).
    + assert (Hc : join_space (split_from [c] cs) = c :: collapse_from true false cs).
      { rewrite IH3 by discriminate. reflexivity. }
      repeat split.
      * exact Hc.
      * pose proof (split_from_word [c] cs) as Hne.
        destruct (split_from [c] cs); [exfalso; now apply Hne |].
        now rewrite Hc.
      * intros word Hw. rewrite IH3 by discriminate.
        simpl. now rewrite <- app_assoc.
Qed.

Lemma normalize_collapse s : normalize s = collapse_whitespace s.
Proof.
  unfold normalize, collapse_whitespace, split.
  now rewrite (proj1 (join_split_collapse _)).
Qed.

(** ** Query text resolution *)

Lemma preview_of_text t :
  t <> "" ->
  preview_of (Some t) = str_take 50 t /\
  (preview_suffix_of (Some t) = "..." <-> 50 < String.length t) /\
  (preview_suffix_of (Some t) = "" <-> String.length t <= 50).
Proof.
  intros Ht. unfold preview_of, preview_suffix_of.
  assert (Hne : String.eqb t "" = false) by now apply String.eqb_neq.
  rewrite Hne. cbn [negb andb]. split; [reflexivity |].
  destruct (50 <? String.length t)%nat eqn:E.
  - apply Nat.ltb_lt in E. split; split; intros; try reflexivity; try lia.
    discriminate.
  - apply Nat.ltb_ge in E. split; split; intros; try reflexivity; try lia.
    discriminate.
Qed.

(** The preview and the suffix of an entry of [analyze_top_queries] are
    those of the text [get_query_text] finds for its query id. *)
Lemma query_entry_preview {rt : Runtime} (wb : Workbook) (time_col mean_col : string)
    (row : Series) (e : query_stat) :
  query_entry wb time_col mean_col row = Ok e ->
  exists text,
    get_query_text wb (series_get row "hexqueryid" (VStr "N/A")) = Ok text /\
    q_query_preview e = preview_of text /\
    q_query_preview_suffix e = preview_suffix_of text.
Proof.
  unfold query_entry. intros Hrun.
  destruct (get_query_text wb (series_get row "hexqueryid" (VStr "N/A")))
    as [text |]; [| discriminate].
  exists text. split; [reflexivity |]. cbn [bind] in Hrun.
  repeat match type of Hrun with
         | bind ?m _ = Ok _ => destruct m; cbn [bind] in Hrun; [| discriminate Hrun]
         end.
  injection Hrun as <-. split; reflexivity.
Qed.

(** C9 (amended).  In a [queries] sheet that has its [hexqueryid] and
    [query_texts] columns, the text of a query id is looked up in the first
    row with that id.  When that row holds a [str] with at least one
    character that is not whitespace, the preview is the first 50 characters
    of the text with every whitespace run between words collapsed to one
    space and the whitespace at both ends dropped, and the suffix is the
    ellipsis exactly when that normalized text is longer than 50
    characters.  When the text is empty or whitespace only or no [str], or
    no row has the id, the preview is [N/A] with no suffix. *)
Theorem query_preview_resolution (wb : Workbook) (query_id : value) :
  (df_empty (sheet wb "queries") = false ->
   has_column (sheet wb "queries") "hexqueryid" = true /\
   has_column (sheet wb "queries") "query_texts" = true) ->
  exists text,
    get_query_text wb query_id = Ok text /\
    (forall row rest t,
       rows_with_id (sheet wb "queries") query_id = row :: rest ->
       series_get row "query_texts" VNaN = VStr t ->
       normalize t = collapse_whitespace t /\
       (normalize t <> "" ->
        preview_of text = str_take 50 (normalize t) /\
        (preview_suffix_of text = "..." <-> 50 < String.length (normalize t)) /\
        (preview_suffix_of text = "" <-> String.length (normalize t) <= 50)) /\
       (normalize t = "" -> preview_of text = "N/A" /\ preview_suffix_of text = "")) /\
    (forall row rest,
       rows_with_id (sheet wb "queries") query_id = row :: rest ->
       is_str (series_get row "query_texts" VNaN) = false ->
       preview_of text = "N/A" /\ preview_suffix_of text = "") /\
    (rows_with_id (sheet wb "queries") query_id = [] ->
     preview_of text = "N/A" /\ preview_suffix_of text = "").
Proof.
  set (queries := sheet wb "queries").
  set (matching := rows_with_id queries query_id).
  intros Hcols. unfold get_query_text. fold queries.
  destruct (df_empty queries) eqn:He.
  - assert (Hnone : matching = []).
    { subst matching. unfold rows_with_id. unfold df_empty in He. unfold iterrows.
      destruct (columns queries) eqn:Ec.
      - induction (data queries) as [| cells rest IH]; [reflexivity |].
        cbn [map List.filter combine series_get]. now rewrite py_eq_nan.
      - destruct (data queries); [reflexivity | discriminate]. }
    exists None. split; [reflexivity |]. rewrite Hnone.
    repeat split; intros; try discriminate; reflexivity.
  - destruct (Hcols eq_refl) as [Hid Htexts].
    unfold column at 1. rewrite Hid. cbn [bind].
    rewrite map_map.
    set (mask := map (fun row => py_eq (series_get row "hexqueryid" VNaN) query_id)
                   (iterrows queries)).
    assert (Hrows : iterrows (mask_rows queries mask) = matching).
    { rewrite iterrows_mask_rows. apply keep_filter. }
    assert (Hempty : df_empty (mask_rows queries mask)
                     = match matching with [] => true | _ => false end).
    { rewrite <- Hrows. unfold df_empty, iterrows, mask_rows. cbn [columns data].
      unfold df_empty in He. destruct (columns queries); [discriminate |].
      now destruct (keep (data queries) mask). }
    rewrite Hempty. unfold column. unfold has_column in *. cbn [mask_rows columns].
    change (existsb (String.eqb "query_texts") (columns queries))
      with (has_column queries "query_texts").
    unfold has_column. rewrite Htexts.
    fold (mask_rows queries mask). rewrite Hrows.
    destruct matching as [| row rest] eqn:Em.
    + exists None. split; [reflexivity |].
      repeat split; intros; try discriminate; reflexivity.
    + cbn [negb map bind iloc0].
      destruct (series_get row "query_texts" VNaN) as [z | q | | t] eqn:Et.
      * exists None. split; [reflexivity |].
        split; [intros ? ? ? [= <- <-]; congruence |].
        split; [intros; split; reflexivity | discriminate].
      * exists None. split; [reflexivity |].
        split; [intros ? ? ? [= <- <-]; congruence |].
        split; [intros; split; reflexivity | discriminate].
      * exists None. split; [reflexivity |].
        split; [intros ? ? ? [= <- <-]; congruence |].
        split; [intros; split; reflexivity | discriminate].
      * destruct (String.eqb t "") eqn:Eb.
        -- apply String.eqb_eq in Eb. subst t. exists None.
           split; [reflexivity |]. split.
           ++ intros row' rest' t' [= <- <-] Ht'. rewrite Et in Ht'.
              injection Ht' as <-.
              split; [apply normalize_collapse |].
              split; [intros Hn; now contradiction Hn | intros; split; reflexivity].
           ++ split; [intros row' rest' [= <- <-]; rewrite Et; discriminate |].
              discriminate.
        -- exists (Some (normalize t)). split; [reflexivity |]. split.
           ++ intros row' rest' t' [= <- <-] Ht'. rewrite Et in Ht'.
              injection Ht' as <-.
              split; [apply normalize_collapse |].
              split; [apply preview_of_text |].
              intros ->. split; reflexivity.
           ++ split; [intros row' rest' [= <- <-]; rewrite Et; discriminate |].
              discriminate.
Qed.

(** C10. [analyze_indexes] reports the rows of [top_indexes] whose
    [idx_scan] (0 when the column is absent) equals 0, in sheet order, and
    no other; for a sheet without an [idx_scan] column that is every row. *)
Theorem analyze_indexes_unused (wb : Workbook) (df : DataFrame) :
  wb !! "top_indexes" = Some df ->
  well_formed df ->
  analyze_indexes wb
  = map index_entry
      (List.filter (fun row => py_eq (series_get row "idx_scan" (VInt 0)) (VInt 0))
         (iterrows df)) /\
  (forall e, In e (analyze_indexes wb) <->
     exists row, In row (iterrows df) /\ e = index_entry row /\
                 py_eq (series_get row "idx_scan" (VInt 0)) (VInt 0) = true) /\
  (has_column df "idx_scan" = false ->
   analyze_indexes wb = map index_entry (iterrows df)).
Proof.
  intros Hsheet Hwf.
  assert (Heq : analyze_indexes wb
    = map index_entry
        (List.filter (fun row => py_eq (series_get row "idx_scan" (VInt 0)) (VInt 0))
           (iterrows df))).
  { unfold analyze_indexes, sheet. rewrite Hsheet. simpl default.
    destruct (df_empty df) eqn:He.
    - now rewrite (iterrows_empty df Hwf He).
    - now rewrite unused_indexes_loop_spec. }
  split; [exact Heq |]. split.
  - intros e. rewrite Heq, in_map_iff. split.
    + intros (row & <- & Hin). apply filter_In in Hin. destruct Hin as [Hin Hz].
      exists row. auto.
    + intros (row & Hin & -> & Hz). exists row. split; [reflexivity |].
      apply filter_In. auto.
  - intros Hcol. rewrite Heq. f_equal. unfold iterrows.
    induction (data df) as [| cells rest IH]; [reflexivity |].
    cbn [map List.filter]. unfold has_column in Hcol.
    rewrite (series_get_absent _ _ _ _ Hcol). cbn [py_eq as_Q Qeq_bool].
    replace (Qeq_bool (inject_Z 0) (inject_Z 0)) with true by reflexivity.
    now rewrite IH.
Qed.

Section WithRuntime.
Context {rt : Runtime}.

(** ** The loops over rows *)

Lemma for_each_Forall2 {A B} (f : A -> result B) xs ys :
  for_each f xs = Ok ys -> Forall2 (fun x y => f x = Ok y) xs ys.
Proof.
  revert ys. induction xs as [| x xs IH]; intros ys Hys; simpl in Hys.
  - injection Hys as <-. constructor.
  - destruct (f x) eqn:Ex; [| discriminate].
    destruct (for_each f xs) eqn:Exs; [| discriminate].
    injection Hys as <-. constructor; auto.
Qed.

(** [analyze_database_stats] holds one entry per row of [dbstat], computed
    by [database_entry]. *)
Lemma analyze_database_stats_entries (wb : Workbook) (stats : list db_stat) :
  df_empty (sheet wb "dbstat") = false ->
  analyze_database_stats wb = Ok stats ->
  Forall2 (fun row e => database_entry row = Ok e) (iterrows (sheet wb "dbstat")) stats.
Proof.
  intros He. unfold analyze_database_stats. rewrite He. apply for_each_Forall2.
Qed.

Lemma items_at_map {A B} (g : A -> B) (xs : list A) (order : list nat) :
  map g (items_at xs order) = items_at (map g xs) order.
Proof.
  induction order as [| i order IH]; [reflexivity |].
  cbn [items_at]. rewrite nth_error_map.
  destruct (nth_error xs i); simpl; now rewrite IH.
Qed.

Lemma iterrows_head_take_rows (df : DataFrame) (n : nat) (order : list nat) :
  iterrows (head n (take_rows df order)) = firstn n (items_at (iterrows df) order).
Proof.
  unfold iterrows, head, take_rows. cbn [columns data].
  now rewrite <- firstn_map, items_at_map.
Qed.

(** [analyze_top_queries] holds one entry per selected row, in the order
    [sort_values] put the rows in: whether rows with equal total time keep
    their order in the sheet is decided by that order alone. *)
Lemma analyze_top_queries_order (wb : Workbook) (top_n : nat)
    (keys : list value) (order : list nat) :
  df_empty (sheet wb "top_statements") = false ->
  column (sheet wb "top_statements")
    (if has_column (sheet wb "top_statements") "total_exec_time"
     then "total_exec_time" else "total_time") = Ok keys ->
  sort_order keys = Ok order ->
  analyze_top_queries wb top_n
  = for_each
      (query_entry wb
         (if has_column (sheet wb "top_statements") "total_exec_time"
          then "total_exec_time" else "total_time")
         (if has_column (sheet wb "top_statements") "mean_exec_time"
          then "mean_exec_time" else "mean_time"))
      (firstn top_n (items_at (iterrows (sheet wb "top_statements")) order)).
Proof.
  intros He Hkeys Horder. unfold analyze_top_queries, sort_values_desc.
  rewrite He, Hkeys. cbn [bind]. rewrite Horder. cbn [bind].
  now rewrite iterrows_head_take_rows.
Qed.

Lemma items_at_In {A} (xs : list A) (order : list nat) (x : A) :
  In x (items_at xs order) -> In x xs.
Proof.
  induction order as [| i order IH]; [contradiction |].
  cbn [items_at]. destruct (nth_error xs i) eqn:E; [| exact IH].
  intros [<- | Hin]; [now apply nth_error_In with i | now apply IH].
Qed.

(** Every entry of [analyze_top_queries] is [query_entry] of a row of
    [top_statements]. *)
Lemma analyze_top_queries_entries (wb : Workbook) (top_n : nat)
    (results : list query_stat) :
  analyze_top_queries wb top_n = Ok results ->
  Forall (fun e =>
            exists row,
              In row (iterrows (sheet wb "top_statements")) /\
              query_entry wb
                (if has_column (sheet wb "top_statements") "total_exec_time"
                 then "total_exec_time" else "total_time")
                (if has_column (sheet wb "top_statements") "mean_exec_time"
                 then "mean_exec_time" else "mean_time") row = Ok e)
         results.
Proof.
  unfold analyze_top_queries.
  destruct (df_empty (sheet wb "top_statements")) eqn:He.
  - intros [= <-]. constructor.
  - unfold sort_values_desc. intros Hrun.
    destruct (column _ _) as [keys |] eqn:Hkeys; [| discriminate].
    cbn [bind] in Hrun.
    destruct (sort_order keys) as [order |] eqn:Horder; [| discriminate].
    cbn [bind] in Hrun. apply for_each_Forall2 in Hrun.
    rewrite iterrows_head_take_rows in Hrun.
    assert (Hsub : forall row,
      In row (firstn top_n (items_at (iterrows (sheet wb "top_statements")) order)) ->
      In row (iterrows (sheet wb "top_statements"))).
    { intros row Hin. apply items_at_In with order.
      rewrite <- (firstn_skipn top_n). apply in_or_app. now left. }
    revert Hrun Hsub.
    generalize (firstn top_n (items_at (iterrows (sheet wb "top_statements")) order)).
    intros selected Hrun.
    induction Hrun as [| row e rows es Hrow _ IH]; intros Hsub.
    + apply List.Forall_nil.
    + apply List.Forall_cons.
      * exists row. split; [apply Hsub, in_eq | exact Hrow].
      * apply IH. intros row' Hin. now apply Hsub, in_cons.
Qed.

(** C1 (failing inputs).  A [top_statements] sheet that has neither
    [total_exec_time] nor [total_time] makes [analyze_top_queries] raise
    [KeyError], and a [queries] sheet without [hexqueryid] makes
    [get_query_text] raise [KeyError]; either way the run of the file
    fails. *)
Theorem missing_columns_raise :
  analyze_top_queries wb_no_time_column 10 = Raise (KeyError "total_time") /\
  process_excel_file wb_no_time_column = false /\
  get_query_text wb_no_query_id (VStr "A1") = Raise (KeyError "hexqueryid") /\
  analyze_top_queries (rt := sample_runtime) wb_no_query_id 10
  = Raise (KeyError "hexqueryid") /\
  process_excel_file (rt := sample_runtime) wb_no_query_id = false.
Proof. repeat split; vm_compute; reflexivity. Qed.

(** C4 (failing inputs).  An empty [blks_hit_pct] cell is printed as
    [nan%] in the Cache Hit Ratio cell of the database table, and empty
    time cells of a statement are printed as [nan] in the query table. *)
Theorem nan_rendered_in_cells :
  (exists chunks,
     generate_markdown_report wb_missing_hit_pct = Ok chunks /\
     In ("| **Cache Hit Ratio** | nan% |" +:+ nl) chunks) /\
  (exists chunks,
     generate_markdown_report (rt := sample_runtime) wb_missing_times = Ok chunks /\
     In ("| **Количество вызовов** | nan |" +:+ nl) chunks /\
     In ("| **Общее время выполнения** | nan мс |" +:+ nl) chunks /\
     In ("| **Среднее время** | nan мс |" +:+ nl) chunks).
Proof.
  split.
  - remember (generate_markdown_report wb_missing_hit_pct) as r eqn:Hr.
    vm_compute in Hr. subst r. eexists. split; [reflexivity |].
    vm_compute. tauto.
  - remember (generate_markdown_report (rt := sample_runtime) wb_missing_times)
      as r eqn:Hr.
    vm_compute in Hr. subst r. eexists. split; [reflexivity |].
    vm_compute. tauto.
Qed.

(** ** A workbook with only a [Properties] sheet *)

Lemma sheet_absent (props : DataFrame) (name : string) :
  name <> "Properties" -> sheet {[ "Properties" := props ]} name = empty_frame.
Proof.
  intros Hne. unfold sheet. rewrite lookup_singleton_ne by congruence. reflexivity.
Qed.

Lemma column_first df c :
  df_empty df = false -> has_column df c = true ->
  exists v, (let* xs := column df c in iloc0 xs) = Ok v.
Proof.
  intros He Hc. unfold column. rewrite Hc. cbn [bind].
  unfold df_empty in He. unfold iterrows.
  destruct (columns df); [discriminate |].
  destruct (data df); [discriminate |]. cbn [map iloc0]. eauto.
Qed.

(** [get_report_period] never raises. *)
Lemma get_report_period_total (wb : Workbook) :
  exists start end_ duration, get_report_period wb = Ok (start, end_, duration).
Proof.
  unfold get_report_period.
  destruct (df_empty (sheet wb "Properties")) eqn:He; [eauto |].
  assert (Hcol : forall c,
    exists v,
      (if has_column (sheet wb "Properties") c
       then let* xs := column (sheet wb "Properties") c in iloc0 xs
       else Ok not_given) = Ok v).
  { intros c. destruct (has_column (sheet wb "Properties") c) eqn:Hc; [| eauto].
    now apply column_first. }
  destruct (Hcol "report_start1") as (start & ->).
  destruct (Hcol "report_end1") as (end_ & ->).
  cbn [bind]. eauto.
Qed.

(** C3 (amended).  For a workbook whose only sheet is [Properties] the
    report is written, and it is the title, the period, the header of the
    database section with nothing under it, the WAL header with its
    "data unavailable" line, the header of the heaviest queries with its
    "data unavailable" line, the summary with its three subsections and the
    footer, in this order; the sections of the top WAL queries, of the
    problem tables and of the unused indexes are left out. *)
Theorem properties_only_report_sections (props : DataFrame) :
  exists start end_ duration chunks,
    get_report_period {[ "Properties" := props ]} = Ok (start, end_, duration) /\
    generate_markdown_report {[ "Properties" := props ]} = Ok chunks /\
    chunks = properties_only_report start end_ duration /\
    List.filter is_section_header chunks
    = [ h_title; h_period; h_databases; h_wal; h_queries; h_summary; h_good;
        h_critical; h_advice; h_footer ] /\
    In wal_unavailable chunks /\ In queries_unavailable chunks /\
    ~ In h_wal_queries chunks /\ ~ In h_tables chunks /\ ~ In h_indexes chunks.
Proof.
  destruct (get_report_period_total {[ "Properties" := props ]})
    as (start & end_ & duration & Hperiod).
  exists start, end_, duration, (properties_only_report start end_ duration).
  split; [exact Hperiod |].
  assert (Hfilter :
    List.filter is_section_header (properties_only_report start end_ duration)
    = [ h_title; h_period; h_databases; h_wal; h_queries; h_summary; h_good;
        h_critical; h_advice; h_footer ]).
  { cbv [properties_only_report render_footer app List.filter is_section_header
         section_headers existsb h_title h_period h_databases h_wal h_wal_queries
         h_queries h_tables h_indexes h_summary h_good h_critical h_advice h_footer
         rule wal_unavailable queries_unavailable nl nl2
         String.append String.eqb Ascii.eqb Bool.eqb orb].
    reflexivity. }
  assert (Hout : forall h, is_section_header h = true ->
    ~ In h [ h_title; h_period; h_databases; h_wal; h_queries; h_summary; h_good;
             h_critical; h_advice; h_footer ] ->
    ~ In h (properties_only_report start end_ duration)).
  { intros h Hh Hnot Hin. apply Hnot. rewrite <- Hfilter.
    apply filter_In. auto. }
  split.
  { unfold generate_markdown_report. rewrite Hperiod. cbn [bind].
    unfold analyze_database_stats, analyze_top_queries, analyze_wal_stats,
      analyze_top_wal_queries, analyze_tables, analyze_indexes.
    rewrite !sheet_absent by discriminate. reflexivity. }
  split; [reflexivity |]. split; [exact Hfilter |].
  split; [unfold properties_only_report; simpl; tauto |].
  split; [unfold properties_only_report; simpl; tauto |].
  repeat split; apply Hout; try reflexivity; vm_compute; refute_in.
Qed.

Lemma positive_not_str v :
  is_str v = false -> exists b, positive v = Ok b.
Proof.
  intros Hv. unfold positive. destruct (truthy v); [| eauto].
  now apply py_gt_not_str.
Qed.

(** The rollback ratio of numeric counts. *)
Lemma rollback_ratio_of_numeric commits rollbacks c r :
  as_Q commits = Some c -> as_Q rollbacks = Some r ->
  exists ratio,
    rollback_ratio_of commits rollbacks = Ok ratio /\ is_str ratio = false /\
    ((0 < c + r)%Q ->
       exists q, ratio = VFloat q /\ (q == r / (c + r) * 100)%Q) /\
    (~ (0 < c + r)%Q -> ratio = VInt 0).
Proof.
  intros Hc Hr. unfold rollback_ratio_of.
  destruct (py_add_numeric _ _ _ _ Hc Hr) as (t & z & Ht & Hz & Hsum).
  rewrite Ht. cbn [bind].
  rewrite (py_gt_numeric t (VInt 0) z 0 Hz eq_refl). cbn [bind].
  rewrite (Qltb_proper 0 0 z (c + r) (Qeq_refl 0) Hsum).
  destruct (Qltb 0 (c + r)) eqn:E.
  - apply Qltb_lt in E.
    assert (Hnz : ~ (z == 0)%Q).
    { rewrite Hsum. intros Hc0. rewrite Hc0 in E. now apply Qlt_irrefl in E. }
    rewrite (py_div_numeric _ _ _ _ Hr Hz Hnz). cbn [bind py_mul as_Q].
    eexists. split; [reflexivity |]. split; [reflexivity |]. split.
    + intros _. eexists. split; [reflexivity |].
      rewrite Hsum. reflexivity.
    + intros Hn. contradiction.
  - apply Qltb_ge in E. eexists. split; [reflexivity |]. split; [reflexivity |].
    split; [| reflexivity].
    intros Hpos. exfalso. exact (Qlt_not_le _ _ Hpos E).
Qed.


(** The per-query cache ratio of numeric block counts. *)
Lemma cache_ratio_of_numeric hit read h r :
  as_Q hit = Some h -> as_Q read = Some r ->
  exists ratio,
    cache_ratio_of hit read = Ok ratio /\ is_str ratio = false /\
    ((0 < h + r)%Q ->
       exists q, ratio = VFloat q /\ (q == h / (h + r) * 100)%Q) /\
    (~ (0 < h + r)%Q -> ratio = VInt 100).
Proof.
  intros Hh Hr. unfold cache_ratio_of.
  destruct (py_add_numeric _ _ _ _ Hh Hr) as (t & z & Ht & Hz & Hsum).
  rewrite Ht. cbn [bind].
  rewrite (py_gt_numeric t (VInt 0) z 0 Hz eq_refl). cbn [bind].
  rewrite (Qltb_proper 0 0 z (h + r) (Qeq_refl 0) Hsum).
  destruct (Qltb 0 (h + r)) eqn:E.
  - apply Qltb_lt in E.
    assert (Hnz : ~ (z == 0)%Q).
    { rewrite Hsum. intros Hc0. rewrite Hc0 in E. now apply Qlt_irrefl in E. }
    rewrite (py_div_numeric _ _ _ _ Hh Hz Hnz). cbn [bind py_mul as_Q].
    eexists. split; [reflexivity |]. split; [reflexivity |]. split.
    + intros _. eexists. split; [reflexivity |].
      rewrite Hsum. reflexivity.
    + intros Hn. contradiction.
  - apply Qltb_ge in E. eexists. split; [reflexivity |]. split; [reflexivity |].
    split; [| reflexivity].
    intros Hpos. exfalso. exact (Qlt_not_le _ _ Hpos E).
Qed.


Lemma format_comma_not_str v : is_str v = false -> exists t, format_comma v = Ok t.
Proof. destruct v; simpl; intros; try discriminate; eauto. Qed.

(** The WAL rate is a number or NaN whenever the size is. *)
Lemma wal_per_min_of_not_str size_mb duration :
  is_str size_mb = false ->
  exists rate,
    wal_per_min_of size_mb duration = Ok rate /\ is_str rate = false /\
    (forall s, as_Q size_mb = Some s -> (0 < duration)%Z ->
       exists q, rate = VFloat q /\ (q == s / inject_Z duration)%Q) /\
    ((duration <= 0)%Z -> rate = VInt 0).
Proof.
  intros Hsize. unfold wal_per_min_of.
  destruct (0 <? duration)%Z eqn:E.
  - apply Z.ltb_lt in E.
    assert (Hnz : Qeq_bool (inject_Z duration) 0 = false).
    { destruct (Qeq_bool (inject_Z duration) 0) eqn:Eq; [| reflexivity].
      apply Qeq_bool_iff in Eq. unfold Qeq in Eq. simpl in Eq. lia. }
    destruct size_mb as [z | q | | s]; try discriminate; simpl; rewrite Hnz;
      (eexists; split; [reflexivity |]; split; [reflexivity |]; split;
       [| intros; lia]); intros s Hs _; try discriminate;
      injection Hs as <-; eexists; split; reflexivity.
  - apply Z.ltb_ge in E. eexists. split; [reflexivity |]. split; [reflexivity |].
    split; [intros; lia | reflexivity].
Qed.

(** The line picked for a rate that is a number or NaN. *)
Lemma wal_rate_line_not_str rate :
  is_str rate = false ->
  exists line,
    wal_rate_line rate = Ok line /\ is_rate_line line = true /\
    (forall q, as_Q rate = Some q -> (100 < q)%Q -> line = wal_high) /\
    (forall q, as_Q rate = Some q -> (50 < q)%Q -> (q <= 100)%Q -> line = wal_moderate) /\
    (forall q, as_Q rate = Some q -> (q <= 50)%Q -> line = wal_normal) /\
    (rate = VNaN -> line = wal_normal).
Proof.
  intros Hrate. unfold wal_rate_line.
  destruct (as_Q rate) as [q |] eqn:Eq.
  - rewrite (py_gt_numeric rate (VInt 100) q 100 Eq eq_refl). cbn [bind].
    destruct (Qltb 100 q) eqn:E1.
    + apply Qltb_lt in E1. exists wal_high.
      refine (conj eq_refl (conj eq_refl (conj _ (conj _ (conj _ _))))).
      * reflexivity.
      * intros q' [= <-] _ Hle. exfalso. exact (Qlt_not_le _ _ E1 Hle).
      * intros q' [= <-] Hle. exfalso. apply (Qlt_not_le _ _ E1).
        apply Qle_trans with 50%Q; [assumption | discriminate].
      * intros ->. discriminate.
    + apply Qltb_ge in E1.
      rewrite (py_gt_numeric rate (VInt 50) q 50 Eq eq_refl). cbn [bind].
      destruct (Qltb 50 q) eqn:E2.
      * apply Qltb_lt in E2. exists wal_moderate.
        refine (conj eq_refl (conj eq_refl (conj _ (conj _ (conj _ _))))).
        -- intros q' [= <-] Hlt. exfalso. exact (Qlt_not_le _ _ Hlt E1).
        -- reflexivity.
        -- intros q' [= <-] Hle. exfalso. exact (Qlt_not_le _ _ E2 Hle).
        -- intros ->. discriminate.
      * apply Qltb_ge in E2. exists wal_normal.
        refine (conj eq_refl (conj eq_refl (conj _ (conj _ (conj _ _))))).
        -- intros q' [= <-] Hlt. exfalso. exact (Qlt_not_le _ _ Hlt E1).
        -- intros q' [= <-] Hlt _. exfalso. exact (Qlt_not_le _ _ Hlt E2).
        -- reflexivity.
        -- reflexivity.
  - destruct rate; try discriminate. exists wal_normal.
    refine (conj eq_refl (conj eq_refl (conj _ (conj _ (conj _ _)))));
      intros; try discriminate; reflexivity.
Qed.

(** The WAL section for statistics whose printed fields hold no [str]:
    it is rendered, the rate is size_mb / duration when duration > 0 and the
    integer 0 when it is not, and the section holds exactly one
    classification line, picked by the thresholds 100 and 50. *)
Lemma render_wal_classification (w : wal_stat) (duration : Z) :
  wal_printable w = true ->
  exists rate chunks,
    wal_per_min_of (wal_size_mb w) duration = Ok rate /\
    render_wal (Some w) duration = Ok chunks /\
    (forall s, as_Q (wal_size_mb w) = Some s -> (0 < duration)%Z ->
       exists q, rate = VFloat q /\ (q == s / inject_Z duration)%Q) /\
    ((duration <= 0)%Z -> rate = VInt 0) /\
    (exists line, List.filter is_rate_line chunks = [line]) /\
    (forall q, as_Q rate = Some q -> (100 < q)%Q ->
       List.filter is_rate_line chunks = [wal_high]) /\
    (forall q, as_Q rate = Some q -> (50 < q)%Q -> (q <= 100)%Q ->
       List.filter is_rate_line chunks = [wal_moderate]) /\
    (forall q, as_Q rate = Some q -> (q <= 50)%Q ->
       List.filter is_rate_line chunks = [wal_normal]) /\
    (rate = VNaN -> List.filter is_rate_line chunks = [wal_normal]).
Proof.
  unfold wal_printable. cbn [forallb]. intros Hw.
  repeat (apply andb_prop in Hw; destruct Hw as [?Hf Hw]).
  repeat match goal with
         | Hn : negb _ = true |- _ => apply negb_true_iff in Hn
         end.
  destruct (wal_per_min_of_not_str (wal_size_mb w) duration)
    as (rate & Hrate & Hns & Hpos & Hzero); [assumption |].
  destruct (wal_rate_line_not_str rate Hns)
    as (line & Hline & Hkind & Hhigh & Hmod & Hnorm & Hnan).
  destruct (format_comma_not_str (wal_records w)) as (records & Hrecords); [assumption |].
  destruct (format_comma_not_str (wal_fpi w)) as (fpi & Hfpi); [assumption |].
  destruct (format_f_not_str 2 (wal_size_mb w)) as (mb & Hmb); [assumption |].
  destruct (format_f_not_str 3 (wal_size_gb w)) as (gb & Hgb); [assumption |].
  destruct (format_f_not_str 2 (wal_write_time w)) as (wt & Hwt); [assumption |].
  destruct (format_f_not_str 2 (wal_sync_time w)) as (st & Hst); [assumption |].
  destruct (format_f_not_str 2 rate Hns) as (per_min & Hper_min).
  exists rate. eexists. split; [exact Hrate |]. split.
  { unfold render_wal. rewrite Hrecords, Hfpi, Hmb, Hgb, Hwt, Hst. cbn [bind].
    rewrite Hrate. cbn [bind]. rewrite Hper_min, Hline. cbn [bind]. reflexivity. }
  split; [exact Hpos |]. split; [exact Hzero |].
  assert (Hfilter : forall l, is_rate_line l = true ->
    List.filter is_rate_line
      [ h_wal;
        "| Метрика | Значение |" +:+ nl;
        "|---------|----------|" +:+ nl;
        "| **Количество записей** | " +:+ records +:+ " |" +:+ nl;
        "| **Full Page Images** | " +:+ fpi +:+ " |" +:+ nl;
        "| **Объем WAL** | " +:+ mb +:+ " MB (" +:+ gb +:+ " GB) |" +:+ nl;
        "| **Время записи** | " +:+ wt +:+ " мс |" +:+ nl;
        "| **Время синхронизации** | " +:+ st +:+ " мс |" +:+ nl2;
        "**Скорость генерации WAL**: " +:+ per_min +:+ " MB/мин" +:+ nl2;
        l ] = [l]).
  { intros l Hl. cbn [List.filter]. rewrite Hl.
    cbv [is_rate_line h_wal wal_high wal_moderate wal_normal nl nl2
         String.append String.eqb Ascii.eqb Bool.eqb orb].
    reflexivity. }
  split; [exists line; now apply Hfilter |].
  split; [intros q Hq Hlt; rewrite <- (Hhigh q Hq Hlt); now apply Hfilter |].
  split; [intros q Hq Hlt Hle; rewrite <- (Hmod q Hq Hlt Hle); now apply Hfilter |].
  split; [intros q Hq Hle; rewrite <- (Hnorm q Hq Hle); now apply Hfilter |].
  intros Hr. rewrite <- (Hnan Hr). now apply Hfilter.
Qed.

(** ** No other part of the report holds a classification line *)

Lemma no_rate_line_app (l1 l2 : list string) :
  List.filter is_rate_line l1 = [] -> List.filter is_rate_line l2 = [] ->
  List.filter is_rate_line (l1 ++ l2) = [].
Proof. intros H1 H2. now rewrite List.filter_app, H1, H2. Qed.

Lemma no_rate_line_map {A} (f : A -> string) (xs : list A) :
  (forall x, is_rate_line (f x) = false) ->
  List.filter is_rate_line (map f xs) = [].
Proof.
  intros Hf. induction xs as [| x xs IH]; [reflexivity |].
  simpl. now rewrite Hf.
Qed.

Lemma no_rate_line_concat (blocks : list (list string)) :
  Forall (fun b => List.filter is_rate_line b = []) blocks ->
  List.filter is_rate_line (concat blocks) = [].
Proof.
  induction 1 as [| b blocks Hb _ IH]; [reflexivity |].
  simpl. now apply no_rate_line_app.
Qed.

Lemma no_rate_line_write_each {A} (f : A -> result (list string)) xs chunks :
  (forall x b, f x = Ok b -> List.filter is_rate_line b = []) ->
  write_each f xs = Ok chunks ->
  List.filter is_rate_line chunks = [].
Proof.
  intros Hf. unfold write_each.
  destruct (for_each f xs) as [blocks |] eqn:E; [| discriminate].
  cbn [bind]. intros [= <-]. apply no_rate_line_concat.
  apply for_each_Forall2 in E. induction E; constructor; eauto.
Qed.

Lemma str_of_nat_no_rate_line n rest : is_rate_line (str_of_nat n +:+ rest) = false.
Proof.
  unfold str_of_nat, str_of_Z.
  destruct (Z.of_nat n) as [| p | p] eqn:E; [reflexivity | | lia].
  cbn [Z.to_int NilZero.string_of_int NilZero.string_of_uint].
  now destruct (Pos.to_uint p).
Qed.

(** Reads an equation [let* x := m in ... = Ok chunks] step by step. *)
Ltac read_binds Hrun :=
  repeat match type of Hrun with
         | bind ?m _ = Ok _ =>
             let E := fresh "E" in
             destruct m eqn:E; cbn [bind] in Hrun; [| discriminate Hrun]
         | (let (_, _) := ?p in _) = Ok _ => destruct p
         end.

Lemma no_rate_line_cons (x : string) (l : list string) :
  is_rate_line x = false -> List.filter is_rate_line l = [] ->
  List.filter is_rate_line (x :: l) = [].
Proof. intros Hx Hl. simpl. now rewrite Hx. Qed.

Lemma rate_line_skip (x : string) (l : list string) :
  is_rate_line x = false ->
  List.filter is_rate_line (x :: l) = List.filter is_rate_line l.
Proof. intros Hx. simpl. now rewrite Hx. Qed.

(** A text that starts with a literal other than the three lines, or with
    a number. *)
Ltac plain_text :=
  first
    [ apply str_of_nat_no_rate_line
    | cbv [is_rate_line h_title h_period h_databases h_wal h_wal_queries
           h_queries h_tables h_indexes h_summary h_good h_critical h_advice
           h_footer rule wal_unavailable queries_unavailable wal_high
           wal_moderate wal_normal bullet nl nl2
           String.append String.eqb Ascii.eqb Bool.eqb orb];
      reflexivity ].

Ltac no_rate_line :=
  repeat match goal with
         | |- List.filter is_rate_line [] = [] => reflexivity
         | |- List.filter is_rate_line (_ :: _) = [] =>
             apply no_rate_line_cons; [plain_text |]
         | |- List.filter is_rate_line (_ ++ _) = [] => apply no_rate_line_app
         | |- List.filter is_rate_line (map _ _) = [] =>
             apply no_rate_line_map; intros; cbv beta; plain_text
         | |- List.filter is_rate_line (match ?d with _ => _ end) = [] => destruct d
         end.

(** Lines that are written under a condition. *)
Ltac optional_lines :=
  repeat match goal with
         | E : (if ?c then _ else Ok []) = Ok ?l |- _ =>
             let Hl := fresh "Hl" in
             assert (Hl : List.filter is_rate_line l = [])
               by (destruct c; [read_binds E |]; injection E as <-; no_rate_line);
             clear E
         end.

Lemma render_database_no_rate_line db chunks :
  render_database db = Ok chunks -> List.filter is_rate_line chunks = [].
Proof.
  unfold render_database. intros Hrun. read_binds Hrun.
  injection Hrun as <-. no_rate_line.
Qed.

Lemma render_wal_query_no_rate_line item chunks :
  render_wal_query item = Ok chunks -> List.filter is_rate_line chunks = [].
Proof.
  unfold render_wal_query. intros Hrun. destruct item as [i query].
  read_binds Hrun. injection Hrun as <-. optional_lines.
  no_rate_line; assumption.
Qed.

Lemma render_wal_queries_no_rate_line qs chunks :
  render_wal_queries qs = Ok chunks -> List.filter is_rate_line chunks = [].
Proof.
  unfold render_wal_queries. destruct qs as [| q qs]; intros Hrun.
  - now injection Hrun as <-.
  - read_binds Hrun. injection Hrun as <-.
    match goal with
    | E : write_each _ _ = Ok _ |- _ =>
        apply no_rate_line_write_each in E;
        [| intros; eapply render_wal_query_no_rate_line; eassumption]
    end.
    no_rate_line; assumption.
Qed.

Lemma render_query_no_rate_line item chunks :
  render_query item = Ok chunks -> List.filter is_rate_line chunks = [].
Proof.
  unfold render_query. intros Hrun. destruct item as [i query].
  read_binds Hrun. injection Hrun as <-. optional_lines.
  no_rate_line; assumption.
Qed.

Lemma render_queries_no_rate_line qs chunks :
  render_queries qs = Ok chunks -> List.filter is_rate_line chunks = [].
Proof.
  unfold render_queries. destruct qs as [| q qs]; intros Hrun.
  - now injection Hrun as <-.
  - read_binds Hrun. injection Hrun as <-.
    match goal with
    | E : write_each _ _ = Ok _ |- _ =>
        apply no_rate_line_write_each in E;
        [| intros; eapply render_query_no_rate_line; eassumption]
    end.
    no_rate_line; assumption.
Qed.

Lemma render_table_no_rate_line item chunks :
  render_table item = Ok chunks -> List.filter is_rate_line chunks = [].
Proof.
  unfold render_table. intros Hrun. destruct item as [i table].
  read_binds Hrun. injection Hrun as <-. no_rate_line.
Qed.

Lemma render_tables_no_rate_line ts chunks :
  render_tables ts = Ok chunks -> List.filter is_rate_line chunks = [].
Proof.
  unfold render_tables. destruct ts as [| t ts]; intros Hrun.
  - now injection Hrun as <-.
  - read_binds Hrun. injection Hrun as <-.
    match goal with
    | E : write_each _ _ = Ok _ |- _ =>
        apply no_rate_line_write_each in E;
        [| intros; eapply render_table_no_rate_line; eassumption]
    end.
    no_rate_line; assumption.
Qed.

Lemma render_indexes_no_rate_line idxs :
  List.filter is_rate_line (render_indexes idxs) = [].
Proof. unfold render_indexes. no_rate_line. Qed.

Lemma render_summary_no_rate_line dbs qs ts idxs chunks :
  render_summary dbs qs ts idxs = Ok chunks -> List.filter is_rate_line chunks = [].
Proof.
  unfold render_summary. intros Hrun. read_binds Hrun.
  injection Hrun as <-. no_rate_line.
Qed.

Lemma render_footer_no_rate_line : List.filter is_rate_line render_footer = [].
Proof. unfold render_footer. no_rate_line. Qed.

(** The classification lines of a report are those of its WAL section. *)
Lemma report_rate_lines (wb : Workbook) (start end_ : value) (duration : Z)
    (wal_stats : option wal_stat) (chunks : list string) :
  get_report_period wb = Ok (start, end_, duration) ->
  analyze_wal_stats wb = Ok wal_stats ->
  generate_markdown_report wb = Ok chunks ->
  exists section,
    render_wal wal_stats duration = Ok section /\
    List.filter is_rate_line chunks = List.filter is_rate_line section.
Proof.
  intros Hperiod Hwal. unfold generate_markdown_report.
  rewrite Hperiod. cbn [bind]. intros Hrun. read_binds Hrun.
  injection Hrun as <-. injection Hwal as <-.
  repeat match goal with
         | E : write_each render_database _ = Ok _ |- _ =>
             apply no_rate_line_write_each in E;
             [| intros; eapply render_database_no_rate_line; eassumption]
         | E : render_wal_queries _ = Ok _ |- _ =>
             apply render_wal_queries_no_rate_line in E
         | E : render_queries _ = Ok _ |- _ => apply render_queries_no_rate_line in E
         | E : render_tables _ = Ok _ |- _ => apply render_tables_no_rate_line in E
         | E : render_summary _ _ _ _ = Ok _ |- _ =>
             apply render_summary_no_rate_line in E
         end.
  match goal with
  | E : render_wal _ duration = Ok ?section |- _ =>
      exists section; split; [exact E |]
  end.
  pose proof (render_indexes_no_rate_line (analyze_indexes wb)) as Hidx.
  pose proof render_footer_no_rate_line as Hfoot.
  repeat first [ rewrite List.filter_app
               | rewrite rate_line_skip by plain_text ].
  repeat match goal with
         | E : List.filter is_rate_line _ = [] |- _ => rewrite E; clear E
         end.
  cbn [app]. now rewrite ?app_nil_r.
Qed.

(** C8. For WAL statistics whose printed fields hold no [str], the WAL
    section of the report is rendered; the rate is size_mb / duration when
    duration > 0 and the integer 0 when it is not; the section holds exactly
    one classification line: the high one for a rate above 100, the
    moderate one for a rate above 50 and at most 100, the normal one
    otherwise; and a report written for these statistics and this duration
    holds that line and no other classification line. *)
Theorem wal_rate_classification (w : wal_stat) (duration : Z) :
  wal_printable w = true ->
  exists rate section,
    wal_per_min_of (wal_size_mb w) duration = Ok rate /\
    render_wal (Some w) duration = Ok section /\
    (forall s, as_Q (wal_size_mb w) = Some s -> (0 < duration)%Z ->
       exists q, rate = VFloat q /\ (q == s / inject_Z duration)%Q) /\
    ((duration <= 0)%Z -> rate = VInt 0) /\
    (exists line, List.filter is_rate_line section = [line]) /\
    (forall q, as_Q rate = Some q -> (100 < q)%Q ->
       List.filter is_rate_line section = [wal_high]) /\
    (forall q, as_Q rate = Some q -> (50 < q)%Q -> (q <= 100)%Q ->
       List.filter is_rate_line section = [wal_moderate]) /\
    (forall q, as_Q rate = Some q -> (q <= 50)%Q ->
       List.filter is_rate_line section = [wal_normal]) /\
    (rate = VNaN -> List.filter is_rate_line section = [wal_normal]) /\
    (forall (wb : Workbook) start end_ chunks,
       get_report_period wb = Ok (start, end_, duration) ->
       analyze_wal_stats wb = Ok (Some w) ->
       generate_markdown_report wb = Ok chunks ->
       List.filter is_rate_line chunks = List.filter is_rate_line section).
Proof.
  intros Hw.
  destruct (render_wal_classification w duration Hw)
    as (rate & section & Hrate & Hsection & Hpos & Hzero & Hone & Hhigh & Hmod
        & Hnorm & Hnan).
  exists rate, section.
  repeat (split; [assumption |]).
  intros wb start end_ chunks Hperiod Hwal Hrun.
  destruct (report_rate_lines wb start end_ duration (Some w) chunks Hperiod Hwal Hrun)
    as (section' & Hsection' & Hlines).
  rewrite Hsection in Hsection'. injection Hsection' as <-. exact Hlines.
Qed.

End WithRuntime.


(** A database without transactions: the ratio is 0 and nothing is
    divided. *)
Example idle_database_rollback_ratio :
  exists e,
    database_entry (rt := sample_runtime) sample_idle_db_row = Ok e /\
    db_rollback_ratio e = VInt 0 /\ db_issues e = ["⚠️ Низкий cache hit ratio: 0.00%"].
Proof. eexists. repeat split. Qed.

Example rollback_ratio_sample :
  rollback_ratio_of (VInt 90) (VInt 10) = Ok (VFloat (1000 # 100)) /\
  rollback_ratio_of (VInt 0) (VInt 0) = Ok (VInt 0).
Proof. split; reflexivity. Qed.


(** 7200 MB of WAL in a period of 60 minutes: the report holds the line of
    the high rate and no other. *)
Lemma wal_rate_classification_witness :
  exists chunks,
    generate_markdown_report (rt := sample_runtime) wb_sample_wal = Ok chunks /\
    List.filter is_rate_line chunks = [wal_high].
Proof.
  destruct (wal_rate_classification (rt := sample_runtime) sample_wal_stat 60 eq_refl)
    as (rate & section & Hrate & _ & _ & _ & _ & Hhigh & _ & _ & _ & Hreport).
  destruct (generate_markdown_report (rt := sample_runtime) wb_sample_wal)
    as [chunks |] eqn:Hrun; [| vm_compute in Hrun; discriminate Hrun].
  exists chunks. split; [reflexivity |].
  rewrite (Hreport wb_sample_wal (VStr "2024-01-01 10:00:00")
             (VStr "2024-01-01 11:00:00") chunks eq_refl eq_refl Hrun).
  vm_compute in Hrate. injection Hrate as <-.
  apply (Hhigh _ eq_refl). reflexivity.
Defined.

(** The four cases of the specification: 120, 60 and 30 MB in one minute,
    and a period of zero minutes. *)
Example wal_rate_samples :
  (let* rate := wal_per_min_of (VInt 120) 1 in wal_rate_line rate) = Ok wal_high /\
  (let* rate := wal_per_min_of (VInt 60) 1 in wal_rate_line rate) = Ok wal_moderate /\
  (let* rate := wal_per_min_of (VInt 30) 1 in wal_rate_line rate) = Ok wal_normal /\
  (let* rate := wal_per_min_of (VInt 120) 0 in wal_rate_line rate) = Ok wal_normal /\
  wal_per_min_of (VInt 120) 0 = Ok (VInt 0).
Proof. repeat split. Qed.

(** A [top_indexes] sheet without the [idx_scan] column: both of its
    rows are reported. *)
Lemma analyze_indexes_unused_witness :
  analyze_indexes {[ "top_indexes" := sample_indexes ]}
  = map index_entry
      (List.filter (fun row => py_eq (series_get row "idx_scan" (VInt 0)) (VInt 0))
         (iterrows sample_indexes)) /\
  (forall e, In e (analyze_indexes {[ "top_indexes" := sample_indexes ]}) <->
     exists row, In row (iterrows sample_indexes) /\ e = index_entry row /\
                 py_eq (series_get row "idx_scan" (VInt 0)) (VInt 0) = true) /\
  (has_column sample_indexes "idx_scan" = false ->
   analyze_indexes {[ "top_indexes" := sample_indexes ]}
   = map index_entry (iterrows sample_indexes)).
Proof.
  apply (analyze_indexes_unused {[ "top_indexes" := sample_indexes ]} sample_indexes).
  - reflexivity.
  - split; [repeat constructor | discriminate].
Defined.

Example analyze_indexes_sample :
  length (analyze_indexes {[ "top_indexes" := sample_indexes ]}) = 2.
Proof. reflexivity. Qed.

(** C3 (counterexample).  The report of a workbook with only a
    [Properties] sheet lacks three of the section headers. *)
Lemma properties_only_report_omits_sections :
  exists chunks,
    generate_markdown_report (rt := sample_runtime) {[ "Properties" := sample_properties ]}
    = Ok chunks /\
    ~ In h_wal_queries chunks /\ ~ In h_tables chunks /\ ~ In h_indexes chunks /\
    List.filter is_section_header chunks <> section_headers.
Proof.
  remember (generate_markdown_report (rt := sample_runtime)
              {[ "Properties" := sample_properties ]}) as r eqn:Hr.
  vm_compute in Hr. subst r. eexists. split; [reflexivity |].
  repeat split; vm_compute; try refute_in. discriminate.
Qed.

(** C9 (counterexample).  The query [B2] is in the [queries] sheet with
    the text of one space, a non-empty string; its normalized text is empty
    and so are its first 50 characters, yet the preview is [N/A]. *)
Lemma blank_query_text_preview :
  get_query_text wb_sample_queries (VStr "B2") = Ok (Some "") /\
  str_take 50 (normalize " ") = "" /\
  preview_of (Some "") = "N/A" /\
  (exists e,
     query_entry (rt := sample_runtime) wb_sample_queries "total_exec_time"
       "mean_exec_time" [("hexqueryid", VStr "B2")] = Ok e /\
     q_query_preview e = "N/A" /\
     q_query_preview e <> str_take 50 (normalize " ")).
Proof.
  repeat split. eexists. split; [reflexivity |]. split; [reflexivity | discriminate].
Qed.

(** The example of the specification, looked up by its id. *)
Lemma query_preview_resolution_witness :
  exists text,
    get_query_text wb_sample_queries (VStr "A1") = Ok text /\
    preview_of text = "SELECT * FROM t" /\ preview_suffix_of text = "".
Proof.
  destruct (query_preview_resolution wb_sample_queries (VStr "A1"))
    as (text & Htext & Hfound & _).
  - intros _. split; reflexivity.
  - exists text. split; [exact Htext |].
    destruct (Hfound [("hexqueryid", VStr "A1"); ("query_texts", VStr sample_sql)]
                [] sample_sql eq_refl eq_refl) as (_ & Hsome & _).
    destruct Hsome as (Hp & _ & Hs); [discriminate |].
    split; [exact Hp | apply Hs; vm_compute; lia].
Defined.

Example normalize_sample : normalize sample_sql = "SELECT * FROM t".
Proof. reflexivity. Qed.

(** Two statements with equal total time come out in sheet order under a
    stable sort and in the opposite order under another descending sort. *)
Example tie_order_follows_sort_order :
  query_ids (analyze_top_queries (rt := sample_runtime) wb_tied_statements 10)
  = Ok [VStr "C3"; VStr "A1"; VStr "B2"] /\
  query_ids (analyze_top_queries (rt := unstable_runtime) wb_tied_statements 10)
  = Ok [VStr "C3"; VStr "B2"; VStr "A1"].
Proof. split; reflexivity. Qed.

Example cache_ratio_sample :
  cache_ratio_of (VInt 30) (VInt 10) = Ok (VFloat (3000 # 40)) /\
  cache_ratio_of (VInt 0) (VInt 0) = Ok (VInt 100).
Proof. split; reflexivity. Qed.

End AnalyzerSpec.

(* ================================================================== *)
(** * Further properties of the analyzer *)
(* ================================================================== *)

Module AnalyzerExtra.
Import Analyzer AnalyzerSpec.

(** ** Whitespace normalisation *)

Lemma no_space_rev w : no_space (rev w) = no_space w.
Proof.
  unfold no_space. induction w as [| c w IH]; [reflexivity |].
  simpl. rewrite forallb_app, IH. simpl. rewrite andb_true_r. apply andb_comm.
Qed.

Lemma split_from_no_space w word cs :
  no_space w = true ->
  split_from word (w ++ cs) = split_from (rev w ++ word) cs.
Proof.
  revert word. induction w as [| c w IH]; intros word Hw; [reflexivity |].
  simpl in Hw. apply andb_prop in Hw. destruct Hw as [Hc Hw].
  apply negb_true_iff in Hc. simpl. rewrite Hc, IH by assumption.
  now rewrite <- app_assoc.
Qed.

Lemma split_from_words word cs :
  no_space word = true -> Forall is_word (split_from word cs).
Proof.
  revert word. induction cs as [| c cs IH]; intros word Hword.
  - simpl. destruct word as [| a word]; constructor; [| constructor].
    split; [| now rewrite no_space_rev].
    intros Hrev. apply (f_equal (@length ascii)) in Hrev.
    rewrite length_rev in Hrev. discriminate.
  - simpl. destruct (is_space c) eqn:Ec.
    + destruct word as [| a word]; [now apply IH |].
      constructor; [| now apply IH].
      split; [| now rewrite no_space_rev].
      intros Hrev. apply (f_equal (@length ascii)) in Hrev.
      rewrite length_rev in Hrev. discriminate.
    + apply IH. simpl. now rewrite Ec.
Qed.

(** Splitting undoes joining. *)
Lemma split_join_space ws :
  Forall is_word ws -> split_from [] (join_space ws) = ws.
Proof.
  induction 1 as [| w ws [Hne Hw] Hws IH]; [reflexivity |].
  rewrite join_space_cons. destruct ws as [| w2 ws].
  - rewrite split_from_no_space by assumption. simpl.
    rewrite app_nil_r. destruct (rev w) eqn:Er.
    + apply (f_equal (@length ascii)) in Er. rewrite length_rev in Er.
      destruct w; [contradiction | discriminate].
    + now rewrite <- Er, rev_involutive.
  - rewrite split_from_no_space by assumption. rewrite app_nil_r.
    cbn [split_from].
    replace (is_space " ") with true by reflexivity.
    destruct (rev w) eqn:Er.
    + apply (f_equal (@length ascii)) in Er. rewrite length_rev in Er.
      destruct w; [contradiction | discriminate].
    + rewrite <- Er, rev_involutive. f_equal. exact IH.
Qed.

(** X1. [' '.join(s.split())] keeps the words of the text and their order,
    and applying it twice changes nothing more. *)
Theorem normalize_keeps_words (s : string) :
  split (normalize s) = split s /\ normalize (normalize s) = normalize s.
Proof.
  assert (Hsplit : split (normalize s) = split s).
  { unfold normalize, split. rewrite list_ascii_of_string_of_list_ascii.
    apply split_join_space, split_from_words. reflexivity. }
  split; [exact Hsplit |].
  unfold normalize at 1. now rewrite Hsplit.
Qed.

Lemma join_space_length ws :
  length (join_space ws) <= length (concat ws) + length ws - 1.
Proof.
  induction ws as [| w ws IH]; [simpl; lia |].
  rewrite join_space_cons. simpl. rewrite !length_app.
  destruct ws; simpl in *; lia.
Qed.

Lemma split_from_length word cs :
  length (concat (split_from word cs)) + length (split_from word cs)
  <= length word + length cs + 1.
Proof.
  revert word. induction cs as [| c cs IH]; intros word.
  - simpl. destruct word; simpl; [lia |].
    rewrite app_nil_r, length_app, length_rev. simpl. lia.
  - simpl. destruct (is_space c).
    + destruct word as [| a word].
      * specialize (IH []). simpl in IH. lia.
      * specialize (IH []). simpl in *.
        rewrite !length_app, length_rev. simpl. lia.
    + specialize (IH (c :: word)). simpl in IH. lia.
Qed.

Lemma join_space_spaces ws :
  Forall is_word ws ->
  Forall (fun c => is_space c = true -> c = " "%char) (join_space ws).
Proof.
  induction 1 as [| w ws [_ Hw] _ IH]; [constructor |].
  rewrite join_space_cons. apply Forall_app. split.
  - apply List.Forall_forall. intros c Hc Hs.
    unfold no_space in Hw. rewrite forallb_forall in Hw.
    specialize (Hw c Hc). rewrite Hs in Hw. discriminate.
  - destruct ws; [constructor |]. constructor; [reflexivity | exact IH].
Qed.

Lemma string_of_list_ascii_length (l : list ascii) :
  String.length (string_of_list_ascii l) = length l.
Proof. induction l as [| c l IH]; simpl; [reflexivity | now rewrite IH]. Qed.

(** X2. The normalized text is never longer than the stored one, the only
    whitespace left in it is the space character, and a text without any
    whitespace is returned as it is. *)
Theorem normalize_shape (s : string) :
  String.length (normalize s) <= String.length s /\
  Forall (fun c => is_space c = true -> c = " "%char)
    (list_ascii_of_string (normalize s)) /\
  (no_space (list_ascii_of_string s) = true -> normalize s = s).
Proof.
  assert (Hlen : String.length s = length (list_ascii_of_string s)).
  { now rewrite <- string_of_list_ascii_length, string_of_list_ascii_of_string. }
  unfold normalize, split.
  rewrite list_ascii_of_string_of_list_ascii, string_of_list_ascii_length, Hlen.
  split; [| split].
  - pose proof (join_space_length (split_from [] (list_ascii_of_string s))).
    pose proof (split_from_length [] (list_ascii_of_string s)).
    simpl in *. lia.
  - apply join_space_spaces, split_from_words. reflexivity.
  - intros Hs.
    rewrite <- (app_nil_r (list_ascii_of_string s)) at 1.
    rewrite split_from_no_space by assumption. simpl. rewrite app_nil_r.
    rewrite rev_involutive.
    destruct (rev (list_ascii_of_string s)) eqn:Er.
    + apply (f_equal (@rev ascii)) in Er. rewrite rev_involutive in Er.
      simpl in Er. rewrite <- (string_of_list_ascii_of_string s), Er. reflexivity.
    + simpl. apply string_of_list_ascii_of_string.
Qed.

(** ** Previews *)

Lemma str_take_length n s : String.length (str_take n s) = Nat.min n (String.length s).
Proof.
  revert s. induction n as [| n IH]; intros [| c s]; simpl; try reflexivity.
  now rewrite IH.
Qed.

(** X3. The preview of an entry of [analyze_top_queries] never has more
    than 50 characters, its suffix is empty or the ellipsis, and the
    ellipsis follows only a preview of exactly 50 characters. *)
Theorem query_preview_bounded {rt : Runtime} (wb : Workbook)
    (time_col mean_col : string) (row : Series) (e : query_stat) :
  query_entry wb time_col mean_col row = Ok e ->
  String.length (q_query_preview e) <= 50 /\
  (q_query_preview_suffix e = "" \/ q_query_preview_suffix e = "...") /\
  (q_query_preview_suffix e = "..." -> String.length (q_query_preview e) = 50).
Proof.
  intros Hrun.
  destruct (query_entry_preview wb time_col mean_col row e Hrun)
    as (text & _ & -> & ->).
  unfold preview_of, preview_suffix_of.
  destruct text as [t |]; [| simpl; split; [lia | split; [now left | discriminate]]].
  destruct (String.eqb t ""); cbn [negb andb];
    [simpl; split; [lia | split; [now left | discriminate]] |].
  rewrite str_take_length.
  destruct (50 <? String.length t)%nat eqn:E.
  - apply Nat.ltb_lt in E. split; [lia | split; [now right | lia]].
  - split; [lia | split; [now left | discriminate]].
Qed.

Lemma query_preview_bounded_witness :
  String.length "SELECT * FROM t" <= 50 /\
  ("" = "" \/ "" = "...") /\
  ("" = "..." -> String.length "SELECT * FROM t" = 50).
Proof.
  destruct (query_entry (rt := sample_runtime) wb_sample_queries "total_exec_time"
              "mean_exec_time" sample_query_row) as [e |] eqn:He;
    [| vm_compute in He; discriminate He].
  pose proof (query_preview_bounded (rt := sample_runtime) wb_sample_queries
                "total_exec_time" "mean_exec_time" sample_query_row e He) as Hb.
  vm_compute in He. injection He as <-. exact Hb.
Defined.

(** ** Ratios stay within 0 and 100 *)

Lemma share_bounded (part total q : Q) :
  (0 <= part)%Q -> (part <= total)%Q -> (0 < total)%Q ->
  (q == part / total * 100)%Q -> (0 <= q)%Q /\ (q <= 100)%Q.
Proof.
  intros Hp Hle Ht Hq. rewrite Hq.
  assert (H0 : (0 <= part / total)%Q).
  { apply Qle_shift_div_l; [assumption |]. now rewrite Qmult_0_l. }
  assert (H1 : (part / total <= 1)%Q).
  { apply Qle_shift_div_r; [assumption |]. now rewrite Qmult_1_l. }
  split.
  - apply Qmult_le_0_compat; [assumption | discriminate].
  - apply Qle_trans with (1 * 100)%Q; [| discriminate].
    apply Qmult_le_compat_r; [assumption | discriminate].
Qed.

Section WithRuntime.
Context {rt : Runtime}.

(** What [database_entry] computed on the way to an entry. *)
Lemma database_entry_inv (row : Series) (e : db_stat) :
  database_entry row = Ok e ->
  exists low locked spilled high,
    py_lt (series_get row "blks_hit_pct" (VInt 0)) (VInt 95) = Ok low /\
    positive (series_get row "deadlocks" (VInt 0)) = Ok locked /\
    positive (series_get row "temp_files" (VInt 0)) = Ok spilled /\
    rollback_ratio_of (series_get row "xact_commit" (VInt 0))
      (series_get row "xact_rollback" (VInt 0)) = Ok (db_rollback_ratio e) /\
    py_gt (db_rollback_ratio e) (VInt 5) = Ok high /\
    length (db_issues e)
    = Nat.b2n low + Nat.b2n locked + Nat.b2n spilled + Nat.b2n high.
Proof.
  unfold database_entry. intros Hrun.
  destruct (py_lt (series_get row "blks_hit_pct" (VInt 0)) (VInt 95))
    as [low |] eqn:Elow; [| discriminate]. cbn [bind] in Hrun.
  match type of Hrun with
  | bind ?m _ = _ => destruct m as [issues1 |] eqn:E1; [| discriminate]
  end. cbn [bind] in Hrun.
  destruct (positive (series_get row "deadlocks" (VInt 0)))
    as [locked |] eqn:Elocked; [| discriminate]. cbn [bind] in Hrun.
  destruct (positive (series_get row "temp_files" (VInt 0)))
    as [spilled |] eqn:Espilled; [| discriminate]. cbn [bind] in Hrun.
  destruct (rollback_ratio_of _ _) as [ratio |] eqn:Eratio; [| discriminate].
  cbn [bind] in Hrun.
  destruct (py_gt ratio (VInt 5)) as [high |] eqn:Ehigh; [| discriminate].
  cbn [bind] in Hrun.
  match type of Hrun with
  | bind ?m _ = _ => destruct m as [issues4 |] eqn:E4; [| discriminate]
  end. cbn [bind] in Hrun. injection Hrun as <-. cbn [db_rollback_ratio db_issues].
  exists low, locked, spilled, high. repeat (split; [assumption || reflexivity |]).
  assert (H1 : length issues1 = Nat.b2n low).
  { destruct low; [| now injection E1 as <-].
    destruct (format_f 2 _); [| discriminate]. now injection E1 as <-. }
  destruct high.
  - destruct (format_f 2 ratio); [| discriminate]. injection E4 as <-.
    destruct locked, spilled; rewrite ?length_app, H1; simpl; lia.
  - injection E4 as <-.
    destruct locked, spilled; rewrite ?length_app, H1; simpl; lia.
Qed.

(** X4. For non-negative commit and rollback counts the rollback ratio of
    a database entry is a number between 0 and 100. *)
Theorem rollback_ratio_bounded (row : Series) (e : db_stat) (c r : Q) :
  database_entry row = Ok e ->
  as_Q (series_get row "xact_commit" (VInt 0)) = Some c ->
  as_Q (series_get row "xact_rollback" (VInt 0)) = Some r ->
  (0 <= c)%Q -> (0 <= r)%Q ->
  exists q, as_Q (db_rollback_ratio e) = Some q /\ (0 <= q)%Q /\ (q <= 100)%Q.
Proof.
  intros Hrun Hc Hr Hc0 Hr0.
  destruct (database_entry_inv row e Hrun) as (_ & _ & _ & _ & _ & _ & _ & Hratio & _).
  destruct (rollback_ratio_of_numeric _ _ c r Hc Hr)
    as (ratio & Hratio' & _ & Hpos & Hzero).
  rewrite Hratio in Hratio'. injection Hratio' as <-.
  destruct (Qlt_le_dec 0 (c + r)) as [Hlt | Hle].
  - destruct (Hpos Hlt) as (q & -> & Hq). exists q. split; [reflexivity |].
    apply (share_bounded r (c + r)); try assumption.
    rewrite <- (Qplus_0_l r) at 1. now apply Qplus_le_l.
  - rewrite Hzero by (now apply Qle_not_lt). exists 0%Q.
    split; [reflexivity |]. split; [apply Qle_refl | discriminate].
Qed.

(** X5. A database entry has at most four issues, and none exactly when
    the cache hit percentage is not below 95, there are no deadlocks and
    temporary files, and the rollback ratio is not above 5. *)
Theorem database_issues_exact (row : Series) (e : db_stat) (cache locks temps ratio : Q) :
  database_entry row = Ok e ->
  as_Q (series_get row "blks_hit_pct" (VInt 0)) = Some cache ->
  as_Q (series_get row "deadlocks" (VInt 0)) = Some locks ->
  as_Q (series_get row "temp_files" (VInt 0)) = Some temps ->
  as_Q (db_rollback_ratio e) = Some ratio ->
  length (db_issues e) <= 4 /\
  (db_issues e = [] <->
   (95 <= cache)%Q /\ (locks <= 0)%Q /\ (temps <= 0)%Q /\ (ratio <= 5)%Q).
Proof.
  intros Hrun Hcache Hlocks Htemps Hratio.
  destruct (database_entry_inv row e Hrun)
    as (low & locked & spilled & high & Hlow & Hlocked & Hspilled & _ & Hhigh & Hlen).
  rewrite (py_lt_numeric _ (VInt 95) cache 95 Hcache eq_refl) in Hlow.
  rewrite (py_gt_numeric _ (VInt 5) ratio 5 Hratio eq_refl) in Hhigh.
  assert (Hpositive : forall v q b, as_Q v = Some q -> positive v = Ok b -> b = Qltb 0 q).
  { intros v q b Hv Hb. unfold positive in Hb.
    rewrite (py_gt_numeric v (VInt 0) q 0 Hv eq_refl) in Hb.
    destruct (truthy v) eqn:Et; [congruence |].
    injection Hb as <-. symmetry. apply Qltb_ge.
    destruct v as [z | x | |]; try discriminate; injection Hv as <-; simpl in Et;
      apply negb_false_iff in Et.
    - apply Z.eqb_eq in Et. subst z. apply Qle_refl.
    - apply Qeq_bool_iff in Et. rewrite Et. apply Qle_refl. }
  apply (Hpositive _ locks) in Hlocked; [| assumption].
  apply (Hpositive _ temps) in Hspilled; [| assumption].
  injection Hlow as Hlow. injection Hhigh as Hhigh.
  split; [rewrite Hlen; destruct low, locked, spilled, high; simpl; lia |].
  rewrite <- length_zero_iff_nil, Hlen.
  rewrite <- (Qltb_ge cache 95), <- (Qltb_ge 0 locks), <- (Qltb_ge 0 temps),
    <- (Qltb_ge 5 ratio), Hlow, <- Hlocked, <- Hspilled, Hhigh.
  destruct low, locked, spilled, high; simpl; intuition (discriminate || lia).
Qed.

(** ** Queries: ratio, issues and recommendations *)

(** What [query_entry] computed on the way to an entry. *)
Lemma query_entry_inv (wb : Workbook) (time_col mean_col : string) (row : Series)
    (e : query_stat) :
  query_entry wb time_col mean_col row = Ok e ->
  exists slow spilled cold,
    cache_ratio_of (series_get row "shared_blks_hit" (VInt 0))
      (series_get row "shared_blks_read" (VInt 0)) = Ok (q_cache_ratio e) /\
    py_gt (q_mean_time e) (VInt 1000) = Ok slow /\
    py_gt (q_temp_blks e) (VInt 0) = Ok spilled /\
    py_lt (q_cache_ratio e) (VInt 90) = Ok cold /\
    length (q_issues e) = Nat.b2n slow + Nat.b2n spilled + Nat.b2n cold.
Proof.
  unfold query_entry. intros Hrun.
  destruct (get_query_text wb _) as [text |]; [| discriminate]. cbn [bind] in Hrun.
  destruct (cache_ratio_of _ _) as [ratio |] eqn:Eratio; [| discriminate].
  cbn [bind] in Hrun.
  destruct (py_gt (series_get row mean_col (VInt 0)) (VInt 1000))
    as [slow |] eqn:Eslow; [| discriminate]. cbn [bind] in Hrun.
  match type of Hrun with
  | bind ?m _ = _ => destruct m as [issues1 |] eqn:E1; [| discriminate]
  end. cbn [bind] in Hrun.
  destruct (py_gt (series_get row "temp_blks_written" (VInt 0)) (VInt 0))
    as [spilled |] eqn:Espilled; [| discriminate]. cbn [bind] in Hrun.
  destruct (py_lt ratio (VInt 90)) as [cold |] eqn:Ecold; [| discriminate].
  cbn [bind] in Hrun.
  match type of Hrun with
  | bind ?m _ = _ => destruct m as [issues3 |] eqn:E3; [| discriminate]
  end. cbn [bind] in Hrun. injection Hrun as <-.
  cbn [q_cache_ratio q_mean_time q_temp_blks q_issues].
  exists slow, spilled, cold. repeat (split; [assumption || reflexivity |]).
  assert (H1 : length issues1 = Nat.b2n slow).
  { destruct slow; [| now injection E1 as <-].
    destruct (format_f 2 _); [| discriminate]. now injection E1 as <-. }
  destruct cold.
  - destruct (format_f 1 ratio); [| discriminate]. injection E3 as <-.
    destruct spilled; rewrite ?length_app, H1; simpl; lia.
  - injection E3 as <-. destruct spilled; rewrite ?length_app, H1; simpl; lia.
Qed.

(** X8. For non-negative block counts the cache ratio of a query entry is
    a number between 0 and 100. *)
Theorem cache_ratio_bounded (wb : Workbook) (time_col mean_col : string)
    (row : Series) (e : query_stat) (h r : Q) :
  query_entry wb time_col mean_col row = Ok e ->
  as_Q (series_get row "shared_blks_hit" (VInt 0)) = Some h ->
  as_Q (series_get row "shared_blks_read" (VInt 0)) = Some r ->
  (0 <= h)%Q -> (0 <= r)%Q ->
  exists q, as_Q (q_cache_ratio e) = Some q /\ (0 <= q)%Q /\ (q <= 100)%Q.
Proof.
  intros Hrun Hh Hr Hh0 Hr0.
  destruct (query_entry_inv wb time_col mean_col row e Hrun)
    as (_ & _ & _ & Hratio & _).
  destruct (cache_ratio_of_numeric _ _ h r Hh Hr)
    as (ratio & Hratio' & _ & Hpos & Hzero).
  rewrite Hratio in Hratio'. injection Hratio' as <-.
  destruct (Qlt_le_dec 0 (h + r)) as [Hlt | Hle].
  - destruct (Hpos Hlt) as (q & -> & Hq). exists q. split; [reflexivity |].
    apply (share_bounded h (h + r)); try assumption.
    rewrite <- (Qplus_0_r h) at 1. now apply Qplus_le_r.
  - rewrite Hzero by (now apply Qle_not_lt). exists 100%Q.
    split; [reflexivity |]. split; [discriminate | apply Qle_refl].
Qed.

(** Reads the steps of a run that returned, one result at a time. *)
Ltac read_binds Hrun :=
  repeat match type of Hrun with
         | bind ?m _ = Ok _ =>
             let E := fresh "E" in
             destruct m eqn:E; cbn [bind] in Hrun; [| discriminate Hrun]
         | (let (_, _) := ?p in _) = Ok _ => destruct p
         end.

Lemma filter_skip {A} (P : A -> bool) (x : A) (l : list A) :
  P x = false -> List.filter P (x :: l) = List.filter P l.
Proof. intros Hx. simpl. now rewrite Hx. Qed.

Lemma filter_hit {A} (P : A -> bool) (x : A) (l : list A) :
  P x = true -> List.filter P (x :: l) = x :: List.filter P l.
Proof. intros Hx. simpl. now rewrite Hx. Qed.

Lemma str_starts_with_append (prefix s : string) :
  str_starts_with prefix (prefix +:+ s) = true.
Proof.
  induction prefix as [| c prefix IH]; [reflexivity |].
  simpl. now rewrite Ascii.eqb_refl.
Qed.

Lemma filter_bullets (target : string) (items : list string) :
  str_starts_with "- " target = false ->
  List.filter (fun s => String.eqb s target) (map bullet items) = [].
Proof.
  intros Ht. induction items as [| x items IH]; [reflexivity |].
  cbn [map]. rewrite filter_skip; [exact IH |].
  apply String.eqb_neq. intros <-. unfold bullet in Ht.
  now rewrite str_starts_with_append in Ht.
Qed.

(** Evaluates a filter over written texts as far as their literal parts
    decide it. *)
Ltac filter_lines :=
  repeat first
    [ rewrite List.filter_app
    | rewrite filter_bullets by reflexivity
    | rewrite filter_skip by (vm_compute; reflexivity)
    | rewrite filter_hit by (vm_compute; reflexivity) ].

(** The lines written under a condition hold none of the three block
    lines. *)
Ltac optional_block_lines :=
  repeat match goal with
         | E : (if ?c then _ else Ok []) = Ok ?l |- _ =>
             let Hl := fresh "Hl" in
             assert (Hl : forall target,
                        In target [query_fine_line; issues_line; advice_line] ->
                        List.filter (fun s => String.eqb s target) l = [])
               by (intros target [<- | [<- | [<- | []]]];
                   (destruct c; [read_binds E |]; injection E as <-;
                    filter_lines; reflexivity));
             clear E
         end.

Ltac block_lines :=
  filter_lines;
  repeat match goal with
         | Hl : forall target, _ -> List.filter _ ?l = [] |- _ =>
             rewrite Hl by (simpl; tauto); clear Hl
         end;
  reflexivity.

(** X9. In the section of a query the line "works normally" is written
    exactly when the entry has no issue, and the issues block and the
    recommendations block are each written once exactly when it has one: a
    query is never flagged without advice. *)
Theorem query_advice_matches_issues (wb : Workbook) (time_col mean_col : string)
    (row : Series) (e : query_stat) (i : nat) (chunks : list string) :
  query_entry wb time_col mean_col row = Ok e ->
  render_query (i, e) = Ok chunks ->
  count_line query_fine_line chunks = (match q_issues e with [] => 1 | _ => 0 end) /\
  count_line issues_line chunks = (match q_issues e with [] => 0 | _ => 1 end) /\
  count_line advice_line chunks = (match q_issues e with [] => 0 | _ => 1 end).
Proof.
  intros Hentry Hrun.
  destruct (query_entry_inv wb time_col mean_col row e Hentry)
    as (slow & spilled & cold & _ & Hslow & Hspilled & Hcold & Hlen).
  unfold render_query in Hrun. read_binds Hrun. injection Hrun as <-.
  repeat match goal with
         | Hb : Ok _ = Ok _ |- _ => injection Hb as ->
         end.
  unfold count_line.
  optional_block_lines.
  destruct (q_issues e) as [| issue issues] eqn:Hissues.
  - destruct slow, spilled, cold; try discriminate Hlen.
    repeat split; block_lines.
  - assert (Hany : orb slow (orb spilled cold) = true).
    { destruct slow, spilled, cold; try reflexivity. discriminate Hlen. }
    repeat split; destruct slow, spilled, cold; try discriminate Hany;
      block_lines.
Qed.

(** ** Tables that need attention *)

(** What [table_entry] computed on the way to its answer. *)
Lemma table_entry_inv (row : Series) (ts : list table_stat) :
  table_entry row = Ok ts ->
  exists alive bloated stale scanned big issues bloat_text mods_text,
    py_gt (series_get row "n_live_tup" (VInt 0)) (VInt 0) = Ok alive /\
    (if alive
     then exists share ratio,
         py_div (series_get row "n_dead_tup" (VInt 0))
           (series_get row "n_live_tup" (VInt 0)) = Ok share /\
         py_mul share (VInt 100) = Ok ratio /\
         py_gt ratio (VInt 20) = Ok bloated
     else bloated = false) /\
    (if alive
     then exists fifth,
         py_mul (series_get row "n_live_tup" (VInt 0)) (VFloat (2 # 10)) = Ok fifth /\
         py_gt (series_get row "n_mod_since_analyze" (VInt 0)) fifth = Ok stale
     else stale = false) /\
    py_gt (series_get row "seq_scan" (VInt 0)) (VInt 100) = Ok scanned /\
    (if scanned
     then py_gt (series_get row "n_live_tup" (VInt 0)) (VInt 10000) = Ok big
     else big = false) /\
    issues =
      (if bloated then [ "⚠️ Много мертвых строк: " +:+ bloat_text ] else [])
      ++ (if stale then [ "⚠️ Нужен ANALYZE: " +:+ mods_text ] else [])
      ++ (if big
          then [ "⚠️ Много seq_scan: " +:+ py_str (series_get row "seq_scan" (VInt 0))
                 +:+ " (возможно нужен индекс)" ]
          else []) /\
    length issues = Nat.b2n bloated + Nat.b2n stale + Nat.b2n big /\
    ts = match issues with
         | [] => []
         | _ =>
             [ {| t_dbname := series_get row "dbname" (VStr "N/A");
                  t_schema := series_get row "schemaname" (VStr "N/A");
                  t_table := series_get row "relname" (VStr "N/A");
                  t_size := series_get row "relsize" (VStr "N/A");
                  t_live_tuples := series_get row "n_live_tup" (VInt 0);
                  t_dead_tuples := series_get row "n_dead_tup" (VInt 0);
                  t_seq_scan := series_get row "seq_scan" (VInt 0);
                  t_idx_scan := series_get row "idx_scan" (VInt 0);
                  t_mod_since_analyze := series_get row "n_mod_since_analyze" (VInt 0);
                  t_issues := issues |} ]
         end.
Proof.
  unfold table_entry. intros Hrun.
  destruct (py_gt (series_get row "n_live_tup" (VInt 0)) (VInt 0))
    as [alive |] eqn:Ealive; [| discriminate]. cbn [bind] in Hrun.
  match type of Hrun with
  | bind ?m _ = _ => destruct m as [issues1 |] eqn:E1; [| discriminate]
  end. cbn [bind] in Hrun.
  match type of Hrun with
  | bind ?m _ = _ => destruct m as [stale |] eqn:Estale; [| discriminate]
  end. cbn [bind] in Hrun.
  match type of Hrun with
  | bind ?m _ = _ => destruct m as [issues2 |] eqn:E2; [| discriminate]
  end. cbn [bind] in Hrun.
  destruct (py_gt (series_get row "seq_scan" (VInt 0)) (VInt 100))
    as [scanned |] eqn:Escanned; [| discriminate]. cbn [bind] in Hrun.
  match type of Hrun with
  | bind ?m _ = _ => destruct m as [big |] eqn:Ebig; [| discriminate]
  end. cbn [bind] in Hrun.
  assert (H1 : exists (bloated : bool) (bloat_text : string),
             issues1 = (if bloated
                        then [ "⚠️ Много мертвых строк: " +:+ bloat_text ] else []) /\
             (if alive
              then exists share ratio,
                  py_div (series_get row "n_dead_tup" (VInt 0))
                    (series_get row "n_live_tup" (VInt 0)) = Ok share /\
                  py_mul share (VInt 100) = Ok ratio /\
                  py_gt ratio (VInt 20) = Ok bloated
              else bloated = false)).
  { destruct alive; [| exists false, EmptyString; now injection E1 as <-].
    destruct (py_div _ _) as [share |] eqn:Eshare; [| discriminate].
    cbn [bind] in E1.
    destruct (py_mul share _) as [ratio |] eqn:Eratio; [| discriminate].
    cbn [bind] in E1.
    destruct (py_gt ratio _) as [bloated |] eqn:Ebloated; [| discriminate].
    cbn [bind] in E1. exists bloated.
    destruct bloated;
      [| exists EmptyString; split; [now injection E1 as <- | now exists share, ratio]].
    destruct (format_f 1 ratio) as [pct |]; [| discriminate]. cbn [bind] in E1.
    destruct (format_comma _) as [dead |]; [| discriminate]. cbn [bind] in E1.
    exists (pct +:+ "% (" +:+ dead +:+ ")").
    split; [now injection E1 as <- | now exists share, ratio]. }
  destruct H1 as (bloated & bloat_text & -> & Hbloated).
  assert (H2 : exists mods_text,
             issues2 = (if bloated
                        then [ "⚠️ Много мертвых строк: " +:+ bloat_text ] else [])
                       ++ (if stale then [ "⚠️ Нужен ANALYZE: " +:+ mods_text ] else [])).
  { destruct stale.
    - destruct (format_comma (series_get row "n_mod_since_analyze" _)) as [mods |];
        [| discriminate]. cbn [bind] in E2.
      exists (mods +:+ " изменений"). now injection E2 as <-.
    - exists EmptyString. injection E2 as <-. now rewrite app_nil_r. }
  destruct H2 as (mods_text & ->).
  match type of Hrun with
  | match ?l with _ => _ end = _ => set (issues := l) in Hrun
  end.
  assert (Hshape : issues =
            (if bloated then [ "⚠️ Много мертвых строк: " +:+ bloat_text ] else [])
            ++ (if stale then [ "⚠️ Нужен ANALYZE: " +:+ mods_text ] else [])
            ++ (if big
                then [ "⚠️ Много seq_scan: "
                       +:+ py_str (series_get row "seq_scan" (VInt 0))
                       +:+ " (возможно нужен индекс)" ]
                else [])).
  { subst issues. destruct big; [now rewrite <- app_assoc | now rewrite app_nil_r]. }
  exists alive, bloated, stale, scanned, big, issues, bloat_text, mods_text.
  split; [reflexivity |]. split; [exact Hbloated |].
  split.
  { destruct alive; [| now injection Estale as <-].
    destruct (py_mul _ _) as [fifth |] eqn:Efifth; [| discriminate].
    cbn [bind] in Estale. now exists fifth. }
  split; [reflexivity |].
  split.
  { destruct scanned; [exact Ebig | now injection Ebig as <-]. }
  split; [exact Hshape |].
  split; [| destruct issues; now injection Hrun as <-].
  rewrite Hshape. now destruct bloated, stale, big.
Qed.

Lemma insert_desc_length {A} (lt : A -> A -> bool) (x : A) (xs : list A) :
  length (insert_desc lt x xs) = S (length xs).
Proof.
  induction xs as [| y xs IH]; [reflexivity |].
  simpl. destruct (lt x y); simpl; [now rewrite IH | reflexivity].
Qed.

Lemma sort_desc_length {A} (lt : A -> A -> bool) (xs : list A) :
  length (sort_desc lt xs) = length xs.
Proof.
  induction xs as [| x xs IH]; [reflexivity |].
  cbn [sort_desc fold_right]. fold (sort_desc lt xs).
  now rewrite insert_desc_length, IH.
Qed.

Lemma insert_desc_pass {A} (lt : A -> A -> bool) (x : A) (front back : list A) :
  Forall (fun y => lt x y = true) front ->
  insert_desc lt x (front ++ back) = front ++ insert_desc lt x back.
Proof.
  induction 1 as [| y front Hy _ IH]; [reflexivity |].
  cbn [app insert_desc]. now rewrite Hy, IH.
Qed.

Lemma insert_desc_stop {A} (lt : A -> A -> bool) (x : A) (xs : list A) :
  Forall (fun y => lt x y = false) xs -> insert_desc lt x xs = x :: xs.
Proof.
  destruct 1 as [| y xs Hy _]; [reflexivity |].
  cbn [insert_desc]. now rewrite Hy.
Qed.

Lemma with_issues_count (k : nat) (tables : list table_stat) :
  Forall (fun t => length (t_issues t) = k) (with_issues k tables).
Proof.
  apply List.Forall_forall. intros t Ht.
  apply List.filter_In in Ht. now apply Nat.eqb_eq.
Qed.

(** Sorting tables that have one to three issues each by their number of
    issues, most first, puts those with three first, then those with two,
    then those with one, each group in its former order. *)
Lemma sorted_desc_by_issues (tables : list table_stat) :
  Forall (fun t => 1 <= length (t_issues t) <= 3) tables ->
  sorted_desc (fun t => length (t_issues t)) tables =
  with_issues 3 tables ++ with_issues 2 tables ++ with_issues 1 tables.
Proof.
  induction 1 as [| t tables Ht _ IH]; [reflexivity |].
  unfold sorted_desc in *. cbn [sort_desc fold_right].
  fold (sort_desc (fun x y => (length (t_issues x) <? length (t_issues y))%nat) tables).
  rewrite IH. clear IH.
  pose proof (with_issues_count 3 tables) as H3.
  pose proof (with_issues_count 2 tables) as H2.
  pose proof (with_issues_count 1 tables) as H1.
  assert (Hcases : length (t_issues t) = 1 \/ length (t_issues t) = 2
                   \/ length (t_issues t) = 3) by lia.
  unfold with_issues at 4 5 6. cbn [List.filter].
  fold (with_issues 3 tables) (with_issues 2 tables) (with_issues 1 tables).
  destruct Hcases as [Hk | [Hk | Hk]]; rewrite Hk; cbn [Nat.eqb].
  - rewrite app_assoc, insert_desc_pass.
    + rewrite insert_desc_stop; [now rewrite <- app_assoc |].
      eapply List.Forall_impl; [| exact H1]. cbv beta. intros y Hy.
      apply Nat.ltb_ge. lia.
    + apply List.Forall_app. split; (eapply List.Forall_impl; [| eassumption]);
        cbv beta; intros y Hy; apply Nat.ltb_lt; lia.
  - rewrite insert_desc_pass.
    + rewrite insert_desc_stop; [reflexivity |].
      apply List.Forall_app. split; (eapply List.Forall_impl; [| eassumption]);
        cbv beta; intros y Hy; apply Nat.ltb_ge; lia.
    + eapply List.Forall_impl; [| exact H3]. cbv beta. intros y Hy.
      apply Nat.ltb_lt. lia.
  - rewrite insert_desc_stop; [reflexivity |].
    apply List.Forall_app. split; [| apply List.Forall_app; split];
      (eapply List.Forall_impl; [| eassumption]);
      cbv beta; intros y Hy; apply Nat.ltb_ge; lia.
Qed.

Lemma py_gt_above (v : value) (b : bool) :
  py_gt v (VInt 0) = Ok false -> py_gt v (VInt 10000) = Ok b -> b = false.
Proof.
  destruct v as [z | q | | t]; cbn; try discriminate; try congruence.
  - intros [= H0] [= <-]. apply Qltb_ge in H0. apply Qltb_ge.
    eapply Qle_trans; [exact H0 | discriminate].
  - intros [= H0] [= <-]. apply Qltb_ge in H0. apply Qltb_ge.
    eapply Qle_trans; [exact H0 | discriminate].
Qed.

Lemma table_entry_flagged (row : Series) (ts : list table_stat) :
  table_entry row = Ok ts -> length ts <= 1 /\ Forall flagged ts.
Proof.
  intros Hrun.
  destruct (table_entry_inv row ts Hrun)
    as (alive & bloated & stale & scanned & big & issues & bloat_text & mods_text
        & Halive & Hbloated & Hstale & _ & Hbig & _ & Hlen & ->).
  destruct issues as [| issue issues]; [split; [simpl; lia | constructor] |].
  split; [apply le_n |]. constructor; [| constructor].
  split; cbn [t_issues t_live_tuples].
  - rewrite Hlen. destruct bloated, stale, big; simpl in *; lia.
  - destruct alive; [exact Halive | exfalso].
    subst bloated stale.
    assert (big = false) as ->.
    { destruct scanned; [| assumption]. eapply py_gt_above; eassumption. }
    discriminate Hlen.
Qed.

Lemma table_entries_flagged (rows : list Series) (entries : list (list table_stat)) :
  Forall2 (fun row found => table_entry row = Ok found) rows entries ->
  length (concat entries) <= length rows /\ Forall flagged (concat entries).
Proof.
  induction 1 as [| row found rows entries Hrow _ IH]; [split; [reflexivity | constructor] |].
  destruct (table_entry_flagged row found Hrow) as [Hone Hfound].
  destruct IH as [Hlen Hall]. cbn [concat]. split.
  - rewrite length_app. simpl. lia.
  - apply List.Forall_app. now split.
Qed.

Lemma analyze_tables_inv (wb : Workbook) (top_n : nat) (ts : list table_stat) :
  analyze_tables wb top_n = Ok ts ->
  exists entries,
    Forall2 (fun row found => table_entry row = Ok found)
      (if df_empty (sheet wb "top_tables") then []
       else iterrows (sheet wb "top_tables")) entries /\
    ts = firstn top_n (sorted_desc (fun t => length (t_issues t)) (concat entries)).
Proof.
  unfold analyze_tables. destruct (df_empty (sheet wb "top_tables")).
  - intros [= <-]. exists []. split; [constructor | now destruct top_n].
  - destruct (for_each table_entry _) as [entries |] eqn:E; [| discriminate].
    cbn [bind]. intros [= <-]. exists entries. split; [| reflexivity].
    now apply for_each_Forall2.
Qed.

(** X10. [analyze_tables] answers at most [top_n] tables and no more than
    the sheet has rows; each of them has one, two or three issues and a
    positive number of live rows. *)
Theorem analyze_tables_bounds (wb : Workbook) (top_n : nat) (ts : list table_stat) :
  analyze_tables wb top_n = Ok ts ->
  length ts <= top_n /\
  length ts <= length (data (sheet wb "top_tables")) /\
  Forall (fun t => 1 <= length (t_issues t) <= 3 /\
                   py_gt (t_live_tuples t) (VInt 0) = Ok true) ts.
Proof.
  intros Hrun.
  destruct (analyze_tables_inv wb top_n ts Hrun) as (entries & Hentries & ->).
  destruct (table_entries_flagged _ _ Hentries) as [Hlen Hall].
  assert (Hrows : length (concat entries) <= length (data (sheet wb "top_tables"))).
  { etransitivity; [exact Hlen |].
    destruct (df_empty _); [simpl; lia |].
    unfold iterrows. now rewrite length_map. }
  split; [apply firstn_le_length |].
  split.
  - rewrite length_firstn. unfold sorted_desc. rewrite sort_desc_length. lia.
  - rewrite sorted_desc_by_issues
      by (eapply List.Forall_impl; [| exact Hall]; now intros t [Ht _]).
    apply List.Forall_forall. intros t Ht.
    assert (Hin : In t (concat entries)).
    { pose proof (firstn_skipn top_n
        (with_issues 3 (concat entries) ++ with_issues 2 (concat entries)
         ++ with_issues 1 (concat entries))) as Hsplit.
      assert (Hsome : In t (with_issues 3 (concat entries)
                            ++ with_issues 2 (concat entries)
                            ++ with_issues 1 (concat entries))).
      { rewrite <- Hsplit. apply in_or_app. now left. }
      unfold with_issues in Hsome.
      rewrite !in_app_iff in Hsome.
      destruct Hsome as [Hs | [Hs | Hs]]; now apply List.filter_In in Hs. }
    exact (proj1 (List.Forall_forall _ _) Hall t Hin).
Qed.

(** X11. The tables [analyze_tables] answers are the first [top_n] of: the
    tables with three issues, then those with two, then those with one,
    each group in the order of the rows of the sheet. *)
Theorem analyze_tables_order (wb : Workbook) (top_n : nat) (ts : list table_stat) :
  analyze_tables wb top_n = Ok ts ->
  exists entries,
    Forall2 (fun row found => table_entry row = Ok found)
      (if df_empty (sheet wb "top_tables") then []
       else iterrows (sheet wb "top_tables")) entries /\
    ts = firstn top_n (with_issues 3 (concat entries)
                       ++ with_issues 2 (concat entries)
                       ++ with_issues 1 (concat entries)).
Proof.
  intros Hrun.
  destruct (analyze_tables_inv wb top_n ts Hrun) as (entries & Hentries & ->).
  exists entries. split; [exact Hentries |].
  destruct (table_entries_flagged _ _ Hentries) as [_ Hall].
  rewrite sorted_desc_by_issues; [reflexivity |].
  eapply List.Forall_impl; [| exact Hall]. now intros t [Ht _].
Qed.




(** ** Statements by WAL volume *)

Lemma series_get_default (row : Series) (key : string) (d d' : value) :
  series_get row key d = series_get row key d'
  \/ (series_get row key d = d /\ series_get row key d' = d').
Proof.
  induction row as [| [k v] row IH]; [now right |].
  cbn [series_get]. destruct (String.eqb k key); [now left | exact IH].
Qed.

Lemma keep_selected {A} (f : A -> value) (rows : list A) (above : list bool) (row : A) :
  Forall2 (fun v b => py_gt v (VInt 0) = Ok b) (map f rows) above ->
  In row (keep rows (map (fun p => andb (fst p) (snd p))
                       (combine (map notna (map f rows)) above))) ->
  py_gt (f row) (VInt 0) = Ok true.
Proof.
  revert above. induction rows as [| r rows IH]; intros above Habove Hin.
  - destruct Hin.
  - cbn [map] in Habove. inversion Habove as [| v b vs bs Hb Hrest]; subst.
    cbn [map combine keep fst snd] in Hin.
    destruct (notna (f r) && b) eqn:Hsel.
    + destruct Hin as [<- | Hin]; [| now apply (IH bs)].
      apply andb_true_iff in Hsel. destruct Hsel as [_ ->]. exact Hb.
    + now apply (IH bs).
Qed.

Lemma Forall2_In_r {A B} (R : A -> B -> Prop) (xs : list A) (ys : list B) (y : B) :
  Forall2 R xs ys -> In y ys -> exists x, In x xs /\ R x y.
Proof.
  induction 1 as [| x y' xs ys Hxy _ IH]; [contradiction |].
  intros [<- | Hin].
  - exists x. split; [apply in_eq | exact Hxy].
  - destruct (IH Hin) as (x' & Hx' & Hr). exists x'. split; [now apply in_cons | exact Hr].
Qed.

Lemma Forall2_In_length {A B} (R : A -> B -> Prop) (xs : list A) (ys : list B) :
  Forall2 R xs ys -> length xs = length ys.
Proof. induction 1; simpl; congruence. Qed.

Lemma wal_query_entry_bytes (wb : Workbook) (row : Series) (e : wal_query_stat) :
  wal_query_entry wb row = Ok e ->
  wq_wal_bytes e = series_get row "wal_bytes" (VInt 0).
Proof.
  unfold wal_query_entry. intros Hrun. read_binds Hrun. now injection Hrun as <-.
Qed.

(** X13. [analyze_top_wal_queries] answers at most [top_n] entries, every
    one of them for a statement whose [wal_bytes] is above zero; without a
    [wal_bytes] column it answers none. *)
Theorem wal_queries_positive (wb : Workbook) (top_n : nat) (es : list wal_query_stat) :
  analyze_top_wal_queries wb top_n = Ok es ->
  length es <= top_n /\
  Forall (fun e => py_gt (wq_wal_bytes e) (VInt 0) = Ok true) es /\
  (has_column (sheet wb "top_statements") "wal_bytes" = false -> es = []).
Proof.
  unfold analyze_top_wal_queries.
  destruct (df_empty (sheet wb "top_statements"));
    [intros [= <-]; split; [simpl; lia | now split] |].
  destruct (has_column (sheet wb "top_statements") "wal_bytes") eqn:Hcol;
    cbn [negb]; [| intros [= <-]; split; [simpl; lia | now split]].
  unfold column. rewrite Hcol. cbn [bind]. intros Hrun.
  destruct (for_each _ _) as [above |] eqn:Habove; [| discriminate].
  cbn [bind] in Hrun. apply for_each_Forall2 in Habove.
  destruct (df_empty (mask_rows _ _));
    [injection Hrun as <-; split; [simpl; lia | now split] |].
  unfold sort_values_desc in Hrun.
  destruct (column _ _) as [keys |]; [| discriminate]. cbn [bind] in Hrun.
  destruct (sort_order keys) as [order |]; [| discriminate]. cbn [bind] in Hrun.
  rewrite iterrows_head_take_rows, iterrows_mask_rows in Hrun.
  apply for_each_Forall2 in Hrun.
  split; [| split; [| discriminate]].
  - rewrite <- (Forall2_In_length _ _ _ Hrun). apply firstn_le_length.
  - apply List.Forall_forall. intros e He.
    destruct (Forall2_In_r _ _ _ e Hrun He) as (row & Hin & Hentry).
    rewrite (wal_query_entry_bytes wb row e Hentry).
    assert (Hsel : In row (items_at
                     (keep (iterrows (sheet wb "top_statements"))
                        (map (fun p => andb (fst p) (snd p))
                           (combine
                              (map notna
                                 (map (fun row => series_get row "wal_bytes" VNaN)
                                    (iterrows (sheet wb "top_statements"))))
                              above))) order)).
    { rewrite <- (firstn_skipn top_n). apply in_or_app. now left. }
    apply items_at_In in Hsel.
    pose proof (keep_selected (fun row => series_get row "wal_bytes" VNaN)
                  _ above row Habove Hsel) as Hpos.
    cbv beta in Hpos.
    destruct (series_get_default row "wal_bytes" VNaN (VInt 0)) as [Heq | [Hnan _]].
    + now rewrite <- Heq.
    + rewrite Hnan in Hpos. discriminate Hpos.
Qed.

(** X14. When [analyze_wal_stats] answers statistics whose [bytes] is a
    number, [size_mb] is bytes / 1048576 and [size_gb] is bytes /
    1073741824, also for 0 bytes, where the code takes its [else 0]
    branch. *)
Theorem wal_stats_units (wb : Workbook) (w : wal_stat) (b : Q) :
  analyze_wal_stats wb = Ok (Some w) ->
  as_Q (wal_bytes w) = Some b ->
  exists mb gb,
    as_Q (wal_size_mb w) = Some mb /\ as_Q (wal_size_gb w) = Some gb /\
    (mb == b / 1048576)%Q /\ (gb == b / 1073741824)%Q.
Proof.
  unfold analyze_wal_stats.
  destruct (df_empty (sheet wb "wal_stats")); [discriminate |].
  destruct (iloc0 _) as [row |]; [| discriminate]. cbn [bind].
  intros Hrun Hb.
  destruct (truthy (series_get row "wal_bytes" (VInt 0))) eqn:Htruthy.
  - destruct (py_div (series_get row "wal_bytes" (VInt 0)) _) as [mb |] eqn:Hmb;
      [| discriminate]. cbn [bind] in Hrun.
    destruct (py_div mb _) as [gb |] eqn:Hgb; [| discriminate]. cbn [bind] in Hrun.
    injection Hrun as <-. cbn [wal_bytes wal_size_mb wal_size_gb] in *.
    rewrite (py_div_numeric _ (VInt (1024 * 1024)) b (inject_Z (1024 * 1024)) Hb eq_refl)
      in Hmb by discriminate.
    injection Hmb as <-.
    rewrite (py_div_numeric (VFloat (b / inject_Z (1024 * 1024))) (VInt 1024)
               (b / inject_Z (1024 * 1024)) (inject_Z 1024) eq_refl eq_refl)
      in Hgb by discriminate.
    injection Hgb as <-.
    eexists _, _. split; [reflexivity |]. split; [reflexivity |].
    split; [reflexivity |].
    change (inject_Z (1024 * 1024)) with 1048576%Q.
    change (inject_Z 1024) with 1024%Q. field.
  - cbn [bind] in Hrun. injection Hrun as <-.
    cbn [wal_bytes wal_size_mb wal_size_gb] in *.
    assert (Hzero : (b == 0)%Q).
    { destruct (series_get row "wal_bytes" (VInt 0)) as [z | q | | t];
        try discriminate Hb; injection Hb as <-; cbn in Htruthy;
        apply negb_false_iff in Htruthy.
      - apply Z.eqb_eq in Htruthy. now subst z.
      - now apply Qeq_bool_iff in Htruthy. }
    exists 0%Q, (0 / 1024)%Q. split; [reflexivity |]. split; [reflexivity |].
    rewrite Hzero. split; reflexivity.
Qed.

(** ** The section headers of a report *)

Lemma filter_none_map {A} (P : string -> bool) (f : A -> string) (xs : list A) :
  (forall x, P (f x) = false) -> List.filter P (map f xs) = [].
Proof.
  intros Hf. induction xs as [| x xs IH]; [reflexivity |].
  cbn [map]. now rewrite filter_skip.
Qed.

Lemma filter_none_write_each {A} (P : string -> bool) (f : A -> result (list string))
    (xs : list A) (chunks : list string) :
  (forall x b, f x = Ok b -> List.filter P b = []) ->
  write_each f xs = Ok chunks -> List.filter P chunks = [].
Proof.
  intros Hf. unfold write_each.
  destruct (for_each f xs) as [blocks |] eqn:E; [| discriminate].
  cbn [bind]. intros [= <-]. apply for_each_Forall2 in E.
  induction E as [| x b xs blocks Hb _ IH]; [reflexivity |].
  cbn [concat]. now rewrite List.filter_app, (Hf x b Hb), IH.
Qed.

Lemma str_of_nat_not_header (n : nat) (rest : string) :
  is_section_header (str_of_nat n +:+ rest) = false.
Proof.
  unfold str_of_nat, str_of_Z.
  destruct (Z.of_nat n) as [| p | p] eqn:E; [reflexivity | | lia].
  cbn [Z.to_int NilZero.string_of_int NilZero.string_of_uint].
  now destruct (Pos.to_uint p).
Qed.

Lemma numbered_not_header (n : nat) (rest : string) :
  is_section_header ("### " +:+ str_of_nat n +:+ rest) = false.
Proof.
  unfold str_of_nat, str_of_Z.
  destruct (Z.of_nat n) as [| p | p] eqn:E; [reflexivity | | lia].
  cbn [Z.to_int NilZero.string_of_int NilZero.string_of_uint].
  now destruct (Pos.to_uint p).
Qed.

(** A text that is no header: it starts with a number, or its literal
    start differs from every header. *)
Ltac plain_header :=
  lazymatch goal with
  | H : is_section_header ?x = false |- is_section_header ?x = false => exact H
  | |- is_section_header (str_of_nat _ +:+ _) = false => apply str_of_nat_not_header
  | |- is_section_header ("### " +:+ str_of_nat _ +:+ _) = false =>
      apply numbered_not_header
  | |- _ => vm_compute; reflexivity
  end.

Ltac headers :=
  repeat first
    [ rewrite List.filter_app
    | rewrite filter_none_map by (intros; cbv beta; plain_header)
    | rewrite filter_skip by plain_header
    | rewrite filter_hit by (vm_compute; reflexivity)
    | match goal with
      | |- context [List.filter _ (match ?d with _ => _ end)] => destruct d
      end ];
  repeat match goal with
         | Hl : List.filter is_section_header _ = _ |- _ => rewrite Hl; clear Hl
         end;
  cbn [List.filter app]; try reflexivity.

(** Lines written under a condition hold no header. *)
Ltac optional_headers :=
  repeat match goal with
         | E : (if ?c then _ else Ok []) = Ok ?l |- _ =>
             let Hl := fresh "Hl" in
             assert (Hl : List.filter is_section_header l = [])
               by (destruct c; [read_binds E |]; injection E as <-; headers);
             clear E
         end.

Lemma render_database_headers db chunks :
  render_database db = Ok chunks -> List.filter is_section_header chunks = [].
Proof.
  unfold render_database. intros Hrun. read_binds Hrun. injection Hrun as <-.
  destruct (db_issues db); headers.
Qed.

Lemma wal_rate_line_not_header v line :
  wal_rate_line v = Ok line -> is_section_header line = false.
Proof.
  unfold wal_rate_line. intros E.
  destruct (py_gt v (VInt 100)) as [[] |]; cbn [bind] in E; try discriminate E.
  - now injection E as <-.
  - destruct (py_gt v (VInt 50)) as [[] |]; cbn [bind] in E; try discriminate E;
      now injection E as <-.
Qed.

Lemma render_wal_headers wal_stats duration chunks :
  render_wal wal_stats duration = Ok chunks ->
  List.filter is_section_header chunks = [h_wal].
Proof.
  unfold render_wal. destruct wal_stats as [w |]; intros Hrun.
  - read_binds Hrun. injection Hrun as <-.
    match goal with
    | E : wal_rate_line _ = Ok _ |- _ => apply wal_rate_line_not_header in E
    end.
    headers.
  - injection Hrun as <-. headers.
Qed.

Lemma render_wal_query_headers item chunks :
  render_wal_query item = Ok chunks -> List.filter is_section_header chunks = [].
Proof.
  unfold render_wal_query. intros Hrun. destruct item as [i query].
  read_binds Hrun. injection Hrun as <-. optional_headers. headers.
Qed.

Lemma render_wal_queries_headers qs chunks :
  render_wal_queries qs = Ok chunks ->
  List.filter is_section_header chunks
  = match qs with [] => [] | _ => [h_wal_queries] end.
Proof.
  unfold render_wal_queries. destruct qs as [| q qs]; intros Hrun.
  - now injection Hrun as <-.
  - read_binds Hrun. injection Hrun as <-.
    match goal with
    | E : write_each _ _ = Ok _ |- _ =>
        apply (filter_none_write_each is_section_header) in E;
        [| intros; eapply render_wal_query_headers; eassumption]
    end.
    headers.
Qed.

Lemma render_query_headers item chunks :
  render_query item = Ok chunks -> List.filter is_section_header chunks = [].
Proof.
  unfold render_query. intros Hrun. destruct item as [i query].
  read_binds Hrun. injection Hrun as <-. optional_headers.
  repeat match goal with
         | |- context [match ?d with _ => _ end] => destruct d
         end; headers.
Qed.

Lemma render_queries_headers qs chunks :
  render_queries qs = Ok chunks -> List.filter is_section_header chunks = [h_queries].
Proof.
  unfold render_queries. destruct qs as [| q qs]; intros Hrun.
  - injection Hrun as <-. headers.
  - read_binds Hrun. injection Hrun as <-.
    match goal with
    | E : write_each _ _ = Ok _ |- _ =>
        apply (filter_none_write_each is_section_header) in E;
        [| intros; eapply render_query_headers; eassumption]
    end.
    headers.
Qed.

Lemma render_table_headers item chunks :
  render_table item = Ok chunks -> List.filter is_section_header chunks = [].
Proof.
  unfold render_table. intros Hrun. destruct item as [i table].
  read_binds Hrun. injection Hrun as <-.
  repeat match goal with
         | |- context [if ?c then _ else _] => destruct c
         end; headers.
Qed.

Lemma render_tables_headers ts chunks :
  render_tables ts = Ok chunks ->
  List.filter is_section_header chunks = match ts with [] => [] | _ => [h_tables] end.
Proof.
  unfold render_tables. destruct ts as [| t ts]; intros Hrun.
  - now injection Hrun as <-.
  - read_binds Hrun. injection Hrun as <-.
    match goal with
    | E : write_each _ _ = Ok _ |- _ =>
        apply (filter_none_write_each is_section_header) in E;
        [| intros; eapply render_table_headers; eassumption]
    end.
    headers.
Qed.

Lemma render_indexes_headers idxs :
  List.filter is_section_header (render_indexes idxs)
  = match idxs with [] => [] | _ => [h_indexes] end.
Proof. unfold render_indexes. destruct idxs; [reflexivity |]. headers. Qed.

Lemma render_summary_headers dbs qs ts idxs chunks :
  render_summary dbs qs ts idxs = Ok chunks ->
  List.filter is_section_header chunks = [h_summary; h_good; h_critical; h_advice].
Proof.
  unfold render_summary. intros Hrun. read_binds Hrun. injection Hrun as <-.
  repeat match goal with
         | |- context [List.filter _ (match ?d with _ => _ end)] => destruct d
         end; headers.
Qed.

Lemma render_footer_headers : List.filter is_section_header render_footer = [h_footer].
Proof. unfold render_footer. headers. Qed.

(** X15. Whatever the workbook holds, a report that is written has its
    section headers in one fixed order: title, period, databases and WAL
    always; the top-5 WAL header exactly when there are WAL statements; the
    queries header always; the tables header exactly when tables were
    flagged; the indexes header exactly when unused indexes were found;
    then the summary with its three parts, and the footer. *)
Theorem report_section_order (wb : Workbook) (top_wal_queries : list wal_query_stat)
    (problem_tables : list table_stat) (chunks : list string) :
  analyze_top_wal_queries wb 5 = Ok top_wal_queries ->
  analyze_tables wb 10 = Ok problem_tables ->
  generate_markdown_report wb = Ok chunks ->
  List.filter is_section_header chunks
  = [ h_title; h_period; h_databases; h_wal ]
    ++ match top_wal_queries with [] => [] | _ => [ h_wal_queries ] end
    ++ [ h_queries ]
    ++ match problem_tables with [] => [] | _ => [ h_tables ] end
    ++ match analyze_indexes wb with [] => [] | _ => [ h_indexes ] end
    ++ [ h_summary; h_good; h_critical; h_advice; h_footer ].
Proof.
  intros Hwal Htables. unfold generate_markdown_report. intros Hrun.
  destruct (get_report_period wb) as [[[start end_] duration] |]; [| discriminate].
  cbn [bind] in Hrun.
  destruct (analyze_database_stats wb) as [db_stats |]; [| discriminate].
  cbn [bind] in Hrun.
  destruct (analyze_top_queries wb 10) as [top_queries |]; [| discriminate].
  cbn [bind] in Hrun.
  destruct (analyze_wal_stats wb) as [wal_stats |]; [| discriminate].
  cbn [bind] in Hrun. rewrite Hwal, Htables in Hrun. cbn [bind] in Hrun.
  destruct (write_each render_database db_stats) as [databases |] eqn:Hdatabases;
    [| discriminate]. cbn [bind] in Hrun.
  destruct (render_wal wal_stats duration) as [wal |] eqn:Hwal_section;
    [| discriminate]. cbn [bind] in Hrun.
  destruct (render_wal_queries top_wal_queries) as [wal_queries |] eqn:Hwal_queries;
    [| discriminate]. cbn [bind] in Hrun.
  destruct (render_queries top_queries) as [queries |] eqn:Hqueries;
    [| discriminate]. cbn [bind] in Hrun.
  destruct (render_tables problem_tables) as [tables |] eqn:Htables_section;
    [| discriminate]. cbn [bind] in Hrun.
  destruct (render_summary db_stats top_queries problem_tables (analyze_indexes wb))
    as [summary |] eqn:Hsummary; [| discriminate]. cbn [bind] in Hrun.
  injection Hrun as <-.
  apply (filter_none_write_each is_section_header) in Hdatabases;
    [| intros; eapply render_database_headers; eassumption].
  apply render_wal_headers in Hwal_section.
  apply render_wal_queries_headers in Hwal_queries.
  apply render_queries_headers in Hqueries.
  apply render_tables_headers in Htables_section.
  apply render_summary_headers in Hsummary.
  pose proof (render_indexes_headers (analyze_indexes wb)) as Hindexes.
  pose proof render_footer_headers as Hfooter.
  headers.
Qed.

(** ** The heaviest statements *)

(** X18. [analyze_top_queries] answers at most [top_n] entries, whatever
    order the sort puts the rows in, and each entry has at most three
    issues. *)
Theorem analyze_top_queries_bounds (wb : Workbook) (top_n : nat) (es : list query_stat) :
  analyze_top_queries wb top_n = Ok es ->
  length es <= top_n /\ Forall (fun e => length (q_issues e) <= 3) es.
Proof.
  intros Hrun. split.
  - unfold analyze_top_queries in Hrun.
    destruct (df_empty (sheet wb "top_statements"));
      [injection Hrun as <-; simpl; lia |].
    destruct (sort_values_desc _ _) as [sorted |]; [| discriminate].
    cbn [bind] in Hrun. apply for_each_Forall2 in Hrun.
    rewrite <- (Forall2_In_length _ _ _ Hrun).
    unfold iterrows, head. cbn [columns data].
    rewrite length_map. apply firstn_le_length.
  - eapply List.Forall_impl; [| exact (analyze_top_queries_entries wb top_n es Hrun)].
    cbv beta. intros e (row & _ & Hentry).
    destruct (query_entry_inv _ _ _ _ _ Hentry)
      as (slow & spilled & cold & _ & _ & _ & _ & ->).
    destruct slow, spilled, cold; simpl; lia.
Qed.

(** ** The unused indexes section *)



(** ** The summary *)



(** ** When a query and a table are flagged *)

(** X24. For a selected statement with numeric mean time, temporary
    blocks and cache ratio, the entry has at most three issues, and none
    exactly when the mean time is at most 1000 ms, no temporary block was
    written and the cache ratio is at least 90. *)
Theorem query_issues_exact (wb : Workbook) (time_col mean_col : string) (row : Series)
    (e : query_stat) (mean temp cache : Q) :
  query_entry wb time_col mean_col row = Ok e ->
  as_Q (q_mean_time e) = Some mean ->
  as_Q (q_temp_blks e) = Some temp ->
  as_Q (q_cache_ratio e) = Some cache ->
  length (q_issues e) <= 3 /\
  (q_issues e = [] <-> (mean <= 1000)%Q /\ (temp <= 0)%Q /\ (90 <= cache)%Q).
Proof.
  intros Hentry Hmean Htemp Hcache.
  destruct (query_entry_inv wb time_col mean_col row e Hentry)
    as (slow & spilled & cold & _ & Hslow & Hspilled & Hcold & Hlen).
  rewrite (py_gt_numeric _ (VInt 1000) mean 1000 Hmean eq_refl) in Hslow.
  rewrite (py_gt_numeric _ (VInt 0) temp 0 Htemp eq_refl) in Hspilled.
  rewrite (py_lt_numeric _ (VInt 90) cache 90 Hcache eq_refl) in Hcold.
  injection Hslow as <-. injection Hspilled as <-. injection Hcold as <-.
  split; [rewrite Hlen; destruct (Qltb _ _), (Qltb _ _), (Qltb _ _); simpl; lia |].
  rewrite <- !Qltb_ge. rewrite <- length_zero_iff_nil, Hlen.
  destruct (Qltb 1000 mean), (Qltb 0 temp), (Qltb cache 90); simpl; split; intros H;
    try discriminate H; try (now repeat split);
    destruct H as (H1 & H2 & H3); discriminate.
Qed.

(** X25. For a [top_tables] row with numeric counts, [analyze_tables]
    keeps the table exactly when one of its three conditions holds: live
    rows and a dead ratio above 20 percent, live rows and more
    modifications since ANALYZE than a fifth of the live rows, or more than
    100 sequential scans on more than 10000 live rows. *)
Theorem table_flagged_exact (row : Series) (ts : list table_stat) (l d m s : Q) :
  table_entry row = Ok ts ->
  as_Q (series_get row "n_live_tup" (VInt 0)) = Some l ->
  as_Q (series_get row "n_dead_tup" (VInt 0)) = Some d ->
  as_Q (series_get row "n_mod_since_analyze" (VInt 0)) = Some m ->
  as_Q (series_get row "seq_scan" (VInt 0)) = Some s ->
  (ts <> [] <->
   ((0 < l)%Q /\ (20 < d / l * 100)%Q) \/
   ((0 < l)%Q /\ (l * (2 # 10) < m)%Q) \/
   ((100 < s)%Q /\ (10000 < l)%Q)).
Proof.
  intros Hentry Hl Hd Hm Hs.
  destruct (table_entry_inv row ts Hentry)
    as (alive & bloated & stale & scanned & big & issues & bloat_text & mods_text
        & Halive & Hbloated & Hstale & Hscanned & Hbig & _ & Hlen & ->).
  rewrite (py_gt_numeric _ (VInt 0) l 0 Hl eq_refl) in Halive.
  rewrite (py_gt_numeric _ (VInt 100) s 100 Hs eq_refl) in Hscanned.
  injection Halive as <-. injection Hscanned as <-.
  assert (Hkept : match issues with [] => [] | _ => [ {|
              t_dbname := series_get row "dbname" (VStr "N/A");
              t_schema := series_get row "schemaname" (VStr "N/A");
              t_table := series_get row "relname" (VStr "N/A");
              t_size := series_get row "relsize" (VStr "N/A");
              t_live_tuples := series_get row "n_live_tup" (VInt 0);
              t_dead_tuples := series_get row "n_dead_tup" (VInt 0);
              t_seq_scan := series_get row "seq_scan" (VInt 0);
              t_idx_scan := series_get row "idx_scan" (VInt 0);
              t_mod_since_analyze := series_get row "n_mod_since_analyze" (VInt 0);
              t_issues := issues |} ] end <> []
            <-> bloated = true \/ stale = true \/ big = true).
  { destruct issues as [| issue issues].
    - destruct bloated, stale, big; try discriminate Hlen.
      split; [contradiction | intros [H | [H | H]]; discriminate H].
    - split; [intros _ | discriminate].
      destruct bloated; [now left |]. destruct stale; [now right; left |].
      destruct big; [now right; right | discriminate Hlen]. }
  rewrite Hkept. clear Hkept Hlen.
  assert (Hb : bloated = true <-> (0 < l)%Q /\ (20 < d / l * 100)%Q).
  { destruct (Qltb 0 l) eqn:Hpos.
    - apply Qltb_lt in Hpos.
      assert (Hnz : ~ (l == 0)%Q) by (intros Hz; rewrite Hz in Hpos; discriminate Hpos).
      destruct Hbloated as (share & ratio & Hshare & Hratio & Hgt).
      rewrite (py_div_numeric _ _ d l Hd Hl Hnz) in Hshare. injection Hshare as <-.
      cbn in Hratio. injection Hratio as <-.
      rewrite (py_gt_numeric (VFloat (d / l * inject_Z 100)) (VInt 20) _ _
                 eq_refl eq_refl) in Hgt.
      injection Hgt as <-. rewrite Qltb_lt. tauto.
    - subst bloated. apply Qltb_ge in Hpos. split; [discriminate |].
      intros [Hc _]. exfalso. exact (Qlt_not_le _ _ Hc Hpos). }
  assert (Hst : stale = true <-> (0 < l)%Q /\ (l * (2 # 10) < m)%Q).
  { destruct (Qltb 0 l) eqn:Hpos.
    - apply Qltb_lt in Hpos.
      destruct Hstale as (fifth & Hfifth & Hgt).
      assert (Hf : fifth = VFloat (l * (2 # 10))).
      { destruct (series_get row "n_live_tup" (VInt 0)); try discriminate Hl;
          injection Hl as <-; cbn in Hfifth; now injection Hfifth as <-. }
      subst fifth.
      rewrite (py_gt_numeric _ (VFloat (l * (2 # 10))) m _ Hm eq_refl) in Hgt.
      injection Hgt as <-. rewrite Qltb_lt. tauto.
    - subst stale. apply Qltb_ge in Hpos. split; [discriminate |].
      intros [Hc _]. exfalso. exact (Qlt_not_le _ _ Hc Hpos). }
  assert (Hbg : big = true <-> (100 < s)%Q /\ (10000 < l)%Q).
  { destruct (Qltb 100 s) eqn:Hsc.
    - apply Qltb_lt in Hsc.
      rewrite (py_gt_numeric _ (VInt 10000) l 10000 Hl eq_refl) in Hbig.
      injection Hbig as <-. rewrite Qltb_lt. tauto.
    - subst big. apply Qltb_ge in Hsc. split; [discriminate |].
      intros [Hc _]. exfalso. exact (Qlt_not_le _ _ Hc Hsc). }
  rewrite Hb, Hst, Hbg. reflexivity.
Qed.

(** ** Slow queries in the summary *)




(** ** Databases *)

Lemma rollback_ratio_of_not_str (commits rollbacks : value) :
  is_str commits = false -> is_str rollbacks = false ->
  exists ratio, rollback_ratio_of commits rollbacks = Ok ratio /\ is_str ratio = false.
Proof.
  intros Hc Hr.
  destruct (as_Q commits) as [c |] eqn:Ec, (as_Q rollbacks) as [r |] eqn:Er.
  - destruct (rollback_ratio_of_numeric commits rollbacks c r Ec Er)
      as (ratio & Hratio & Hstr & _). eauto.
  - destruct commits, rollbacks; try discriminate; exists (VInt 0); now split.
  - destruct commits, rollbacks; try discriminate; exists (VInt 0); now split.
  - destruct commits, rollbacks; try discriminate; exists (VInt 0); now split.
Qed.

Lemma database_entry_total (row : Series) :
  db_row_numeric row = true ->
  exists e, database_entry row = Ok e
            /\ db_dbname e = series_get row "dbname" (VStr "Unknown").
Proof.
  unfold db_row_numeric. cbn [forallb]. rewrite !andb_true_iff, !negb_true_iff.
  intros (Hcache & Hcommits & Hrollbacks & Hlocks & Htemps & _).
  unfold database_entry.
  destruct (py_lt_not_str _ 95 Hcache) as [low Hlow].
  destruct (format_f_not_str 2 _ Hcache) as [pct Hpct].
  destruct (positive_not_str _ Hlocks) as [locked Hlocked].
  destruct (positive_not_str _ Htemps) as [spilled Hspilled].
  destruct (rollback_ratio_of_not_str _ _ Hcommits Hrollbacks)
    as (ratio & Hratio & Hnum).
  destruct (py_gt_not_str _ 5 Hnum) as [high Hhigh].
  destruct (format_f_not_str 2 _ Hnum) as [pct' Hpct'].
  rewrite Hlow. cbn [bind].
  destruct low; rewrite ?Hpct; cbn [bind];
    rewrite Hlocked; cbn [bind]; rewrite Hspilled; cbn [bind];
    rewrite Hratio; cbn [bind]; rewrite Hhigh; cbn [bind];
    destruct high; rewrite ?Hpct'; cbn [bind]; eexists; split; reflexivity.
Qed.

(** X27. When no analysed cell of the [dbstat] sheet holds text,
    [analyze_database_stats] does not raise: it answers one entry per row,
    in the order of the sheet, under the name of the row or [Unknown]. *)
Theorem analyze_database_stats_total (wb : Workbook) :
  Forall (fun row => db_row_numeric row = true) (iterrows (sheet wb "dbstat")) ->
  exists stats,
    analyze_database_stats wb = Ok stats /\
    map db_dbname stats
    = map (fun row => series_get row "dbname" (VStr "Unknown"))
        (if df_empty (sheet wb "dbstat") then [] else iterrows (sheet wb "dbstat")).
Proof.
  intros Hrows. unfold analyze_database_stats.
  destruct (df_empty (sheet wb "dbstat")); [now exists [] |].
  induction Hrows as [| row rows Hrow _ IH]; [now exists [] |].
  destruct (database_entry_total row Hrow) as (e & He & Hname).
  destruct IH as (stats & Hstats & Hnames).
  exists (e :: stats). cbn [for_each map]. rewrite He. cbn [bind].
  rewrite Hstats. cbn [bind]. split; [reflexivity |]. now rewrite Hname, Hnames.
Qed.

(** ** The monitoring period *)


(** X6. [get_report_period] never raises.  Without a usable [Properties]
    sheet it answers the two placeholders and 0 minutes; a missing start or
    end column gives its placeholder and a missing duration column gives 0
    minutes. *)
Theorem get_report_period_defaults (wb : Workbook) :
  exists start end_ duration,
    get_report_period wb = Ok (start, end_, duration) /\
    (df_empty (sheet wb "Properties") = true ->
     start = not_given /\ end_ = not_given /\ duration = 0%Z) /\
    (has_column (sheet wb "Properties") "report_start1" = false -> start = not_given) /\
    (has_column (sheet wb "Properties") "report_end1" = false -> end_ = not_given) /\
    (has_column (sheet wb "Properties") "interval_duration_sec" = false ->
     duration = 0%Z).
Proof.
  unfold get_report_period.
  destruct (df_empty (sheet wb "Properties")) eqn:He.
  - exists not_given, not_given, 0%Z. repeat split; reflexivity.
  - assert (Hcol : forall c,
      exists v,
        (if has_column (sheet wb "Properties") c
         then let* xs := column (sheet wb "Properties") c in iloc0 xs
         else Ok not_given) = Ok v /\
        (has_column (sheet wb "Properties") c = false -> v = not_given)).
    { intros c. destruct (has_column (sheet wb "Properties") c) eqn:Hc.
      - destruct (column_first _ c He Hc) as (v & Hv). exists v.
        split; [exact Hv | discriminate].
      - exists not_given. split; reflexivity. }
    destruct (Hcol "report_start1") as (start & -> & Hstart).
    destruct (Hcol "report_end1") as (end_ & -> & Hend).
    cbn [bind]. eexists start, end_, _. split; [reflexivity |].
    split; [discriminate |]. split; [exact Hstart |]. split; [exact Hend |].
    intros Hc. unfold column. rewrite Hc. reflexivity.
Qed.


End WithRuntime.


Lemma cache_ratio_bounded_witness :
  exists q, as_Q (VFloat (3000 # 40)) = Some q /\ (0 <= q)%Q /\ (q <= 100)%Q.
Proof.
  destruct (query_entry (rt := sample_runtime) ∅ "total_exec_time" "mean_exec_time"
              sample_query_row) as [e |] eqn:He;
    [| vm_compute in He; discriminate He].
  pose proof (cache_ratio_bounded (rt := sample_runtime) ∅ "total_exec_time"
                "mean_exec_time" sample_query_row e 30 10 He eq_refl eq_refl) as Hb.
  vm_compute in He. injection He as <-.
  apply Hb; discriminate.
Defined.

Lemma query_advice_matches_issues_witness :
  match query_entry (rt := sample_runtime) wb_sample_queries "total_exec_time"
          "mean_exec_time" sample_query_row with
  | Ok e =>
      match render_query (rt := sample_runtime) (1, e) with
      | Ok chunks =>
          count_line query_fine_line chunks = (match q_issues e with [] => 1 | _ => 0 end) /\
          count_line issues_line chunks = (match q_issues e with [] => 0 | _ => 1 end) /\
          count_line advice_line chunks = (match q_issues e with [] => 0 | _ => 1 end)
      | Raise _ => False
      end
  | Raise _ => False
  end.
Proof.
  destruct (query_entry (rt := sample_runtime) wb_sample_queries "total_exec_time"
              "mean_exec_time" sample_query_row) as [e |] eqn:He;
    [| vm_compute in He; discriminate He].
  pose proof (fun chunks =>
                query_advice_matches_issues (rt := sample_runtime) wb_sample_queries
                  "total_exec_time" "mean_exec_time" sample_query_row e 1 chunks He)
    as Hb.
  vm_compute in He. injection He as <-.
  match goal with
  | |- match ?r with _ => _ end => destruct r as [chunks |] eqn:Hr
  end; [exact (Hb _ eq_refl) | vm_compute in Hr; discriminate Hr].
Defined.

Lemma analyze_tables_bounds_witness :
  match analyze_tables (rt := sample_runtime) wb_sample_tables 3 with
  | Ok ts =>
      length ts <= 3 /\
      length ts <= length (data (sheet wb_sample_tables "top_tables")) /\
      Forall (fun t => 1 <= length (t_issues t) <= 3 /\
                       py_gt (t_live_tuples t) (VInt 0) = Ok true) ts
  | Raise _ => False
  end.
Proof.
  destruct (analyze_tables (rt := sample_runtime) wb_sample_tables 3) as [ts |] eqn:He;
    [| vm_compute in He; discriminate He].
  exact (analyze_tables_bounds (rt := sample_runtime) wb_sample_tables 3 ts He).
Defined.

Lemma analyze_tables_order_witness :
  match analyze_tables (rt := sample_runtime) wb_sample_tables 3 with
  | Ok ts =>
      exists entries,
        Forall2 (fun row found => table_entry (rt := sample_runtime) row = Ok found)
          (if df_empty (sheet wb_sample_tables "top_tables") then []
           else iterrows (sheet wb_sample_tables "top_tables")) entries /\
        ts = firstn 3 (with_issues 3 (concat entries)
                       ++ with_issues 2 (concat entries)
                       ++ with_issues 1 (concat entries))
  | Raise _ => False
  end.
Proof.
  destruct (analyze_tables (rt := sample_runtime) wb_sample_tables 3) as [ts |] eqn:He;
    [| vm_compute in He; discriminate He].
  exact (analyze_tables_order (rt := sample_runtime) wb_sample_tables 3 ts He).
Defined.

(** The three most flagged tables of the sample sheet. *)
Example analyze_tables_sample :
  match analyze_tables (rt := sample_runtime) wb_sample_tables 3 with
  | Ok ts => map t_table ts = [VStr "worst"; VStr "stale"; VStr "bloated"]
  | Raise _ => False
  end.
Proof. vm_compute. reflexivity. Qed.


Lemma wal_queries_positive_witness :
  match analyze_top_wal_queries (rt := sample_runtime) wb_sample_wal_queries 5 with
  | Ok es =>
      length es <= 5 /\
      Forall (fun e => py_gt (wq_wal_bytes e) (VInt 0) = Ok true) es /\
      (has_column (sheet wb_sample_wal_queries "top_statements") "wal_bytes" = false ->
       es = [])
  | Raise _ => False
  end.
Proof.
  destruct (analyze_top_wal_queries (rt := sample_runtime) wb_sample_wal_queries 5)
    as [es |] eqn:He; [| vm_compute in He; discriminate He].
  exact (wal_queries_positive (rt := sample_runtime) wb_sample_wal_queries 5 es He).
Defined.

(** The statements of the sample sheet that wrote WAL, largest first. *)
Example analyze_top_wal_queries_sample :
  match analyze_top_wal_queries (rt := sample_runtime) wb_sample_wal_queries 5 with
  | Ok es => map wq_query_id es = [VStr "D4"; VStr "A1"]
  | Raise _ => False
  end.
Proof. vm_compute. reflexivity. Qed.

Lemma wal_stats_units_witness :
  match analyze_wal_stats wb_sample_wal with
  | Ok (Some w) =>
      exists mb gb,
        as_Q (wal_size_mb w) = Some mb /\ as_Q (wal_size_gb w) = Some gb /\
        (mb == inject_Z (7200 * 1024 * 1024) / 1048576)%Q /\
        (gb == inject_Z (7200 * 1024 * 1024) / 1073741824)%Q
  | _ => False
  end.
Proof.
  destruct (analyze_wal_stats wb_sample_wal) as [[w |] |] eqn:He;
    [| vm_compute in He; discriminate He | vm_compute in He; discriminate He].
  pose proof (wal_stats_units wb_sample_wal w (inject_Z (7200 * 1024 * 1024)) He) as Hb.
  vm_compute in He. injection He as <-. apply Hb. reflexivity.
Defined.

Lemma report_section_order_witness :
  match analyze_top_wal_queries (rt := sample_runtime) wb_sample_tables 5,
        analyze_tables (rt := sample_runtime) wb_sample_tables 10,
        generate_markdown_report (rt := sample_runtime) wb_sample_tables with
  | Ok top_wal_queries, Ok problem_tables, Ok chunks =>
      List.filter is_section_header chunks
      = [ h_title; h_period; h_databases; h_wal ]
        ++ match top_wal_queries with [] => [] | _ => [ h_wal_queries ] end
        ++ [ h_queries ]
        ++ match problem_tables with [] => [] | _ => [ h_tables ] end
        ++ match analyze_indexes wb_sample_tables with [] => [] | _ => [ h_indexes ] end
        ++ [ h_summary; h_good; h_critical; h_advice; h_footer ]
  | _, _, _ => False
  end.
Proof.
  destruct (analyze_top_wal_queries (rt := sample_runtime) wb_sample_tables 5)
    as [top_wal_queries |] eqn:Hwal; [| vm_compute in Hwal; discriminate Hwal].
  destruct (analyze_tables (rt := sample_runtime) wb_sample_tables 10)
    as [problem_tables |] eqn:Htables; [| vm_compute in Htables; discriminate Htables].
  destruct (generate_markdown_report (rt := sample_runtime) wb_sample_tables)
    as [chunks |] eqn:Hrun; [| vm_compute in Hrun; discriminate Hrun].
  exact (report_section_order (rt := sample_runtime) wb_sample_tables top_wal_queries
           problem_tables chunks Hwal Htables Hrun).
Defined.


Lemma analyze_top_queries_bounds_witness :
  match analyze_top_queries (rt := sample_runtime) wb_tied_statements 1 with
  | Ok es => length es <= 1 /\ Forall (fun e => length (q_issues e) <= 3) es
  | Raise _ => False
  end.
Proof.
  destruct (analyze_top_queries (rt := sample_runtime) wb_tied_statements 1)
    as [es |] eqn:He; [| vm_compute in He; discriminate He].
  exact (analyze_top_queries_bounds (rt := sample_runtime) wb_tied_statements 1 es He).
Defined.

Lemma query_issues_exact_witness :
  match query_entry (rt := sample_runtime) wb_sample_queries "total_exec_time"
          "mean_exec_time" sample_query_row with
  | Ok e =>
      length (q_issues e) <= 3 /\
      (q_issues e = [] <->
       (1 # 2 <= 1000)%Q /\ (inject_Z 0 <= 0)%Q /\ (90 <= 3000 # 40)%Q)
  | Raise _ => False
  end.
Proof.
  destruct (query_entry (rt := sample_runtime) wb_sample_queries "total_exec_time"
              "mean_exec_time" sample_query_row) as [e |] eqn:He;
    [| vm_compute in He; discriminate He].
  pose proof (query_issues_exact (rt := sample_runtime) wb_sample_queries
                "total_exec_time" "mean_exec_time" sample_query_row e
                (1 # 2) (inject_Z 0) (3000 # 40) He) as Hb.
  vm_compute in He. injection He as <-. apply Hb; reflexivity.
Defined.

Lemma table_flagged_exact_witness :
  match table_entry (rt := sample_runtime) sample_table_row with
  | Ok ts =>
      ts <> [] <->
      ((0 < inject_Z 20000)%Q /\ (20 < inject_Z 9000 / inject_Z 20000 * 100)%Q) \/
      ((0 < inject_Z 20000)%Q /\ (inject_Z 20000 * (2 # 10) < inject_Z 8000)%Q) \/
      ((100 < inject_Z 250)%Q /\ (10000 < inject_Z 20000)%Q)
  | Raise _ => False
  end.
Proof.
  destruct (table_entry (rt := sample_runtime) sample_table_row) as [ts |] eqn:He;
    [| vm_compute in He; discriminate He].
  exact (table_flagged_exact (rt := sample_runtime) sample_table_row ts
           (inject_Z 20000) (inject_Z 9000) (inject_Z 8000) (inject_Z 250) He
           eq_refl eq_refl eq_refl eq_refl).
Defined.


(** One of the two sample statements is slow. *)
Example slow_queries_sample :
  match analyze_top_queries (rt := sample_runtime) wb_sample_slow 10 with
  | Ok es => map q_query_id (List.filter has_slow_issue es) = [VStr "B2"]
  | Raise _ => False
  end.
Proof. vm_compute. reflexivity. Qed.

Lemma analyze_database_stats_total_witness :
  exists stats,
    analyze_database_stats (rt := sample_runtime) wb_sample_databases = Ok stats /\
    map db_dbname stats
    = map (fun row => series_get row "dbname" (VStr "Unknown"))
        (if df_empty (sheet wb_sample_databases "dbstat") then []
         else iterrows (sheet wb_sample_databases "dbstat")).
Proof.
  apply (analyze_database_stats_total (rt := sample_runtime) wb_sample_databases).
  vm_compute. repeat constructor.
Defined.

Lemma rollback_ratio_bounded_witness :
  exists q, as_Q (VFloat (1000 # 100)) = Some q /\ (0 <= q)%Q /\ (q <= 100)%Q.
Proof.
  destruct (database_entry (rt := sample_runtime) sample_db_row) as [e |] eqn:He;
    [| vm_compute in He; discriminate He].
  pose proof (rollback_ratio_bounded (rt := sample_runtime) sample_db_row e 90 10 He
                eq_refl eq_refl) as Hb.
  vm_compute in He. injection He as <-.
  apply Hb; discriminate.
Defined.

Lemma database_issues_exact_witness :
  1 <= 4 /\
  (["⚠️ Высокий процент rollback: 10.00%"] = [] <->
   (95 <= 995 # 10)%Q /\ (0 <= 0)%Q /\ (0 <= 0)%Q /\ (1000 # 100 <= 5)%Q).
Proof.
  destruct (database_entry (rt := sample_runtime) sample_db_row) as [e |] eqn:He;
    [| vm_compute in He; discriminate He].
  pose proof (fun H => database_issues_exact (rt := sample_runtime) sample_db_row e
                (995 # 10) 0 0 (1000 # 100) He eq_refl eq_refl eq_refl H) as Hb.
  vm_compute in He. injection He as <-. apply Hb. reflexivity.
Defined.

End AnalyzerExtra.

(* ================================================================== *)
(** * More about the HTML data extractor *)
(* ================================================================== *)

Module ParseHtmlExtra.
Import ParseHtml.

(** ** [content.find] *)

Lemma starts_with_app (p post : list ascii) : starts_with p (p ++ post) = true.
Proof.
  induction p as [| a p IH]; [reflexivity |].
  cbn [app starts_with]. now rewrite Ascii.eqb_refl.
Qed.

Lemma starts_with_inv (p s : list ascii) :
  starts_with p s = true -> exists post, s = p ++ post.
Proof.
  revert s. induction p as [| a p IH]; intros s Hs; [now exists s |].
  destruct s as [| b s]; [discriminate |].
  cbn [starts_with] in Hs. apply andb_prop in Hs. destruct Hs as [Hab Hs].
  apply Ascii.eqb_eq in Hab. subst b.
  destruct (IH s Hs) as [post ->]. now exists post.
Qed.

(** [find_from] answers the start of the first occurrence, counted from
    [i], and [None] when there is no occurrence. *)
Lemma find_from_spec (p s : list ascii) (i : nat) :
  match find_from p s i with
  | Some k =>
      exists pre post,
        s = pre ++ p ++ post /\ k = i + length pre /\
        (forall pre' post', s = pre' ++ p ++ post' -> length pre <= length pre')
  | None => forall pre post, s <> pre ++ p ++ post
  end.
Proof.
  revert i. induction s as [| c s IH]; intros i.
  - cbn [find_from]. destruct (starts_with p []) eqn:Hp.
    + destruct (starts_with_inv p [] Hp) as [post Hpost].
      exists [], post. split; [exact Hpost |]. split; [simpl; lia |].
      intros; simpl; lia.
    + intros pre post Heq.
      destruct pre; [| discriminate]. simpl in Heq.
      rewrite Heq, starts_with_app in Hp. discriminate.
  - cbn [find_from]. destruct (starts_with p (c :: s)) eqn:Hp.
    + destruct (starts_with_inv p (c :: s) Hp) as [post Hpost].
      exists [], post. split; [exact Hpost |]. split; [simpl; lia |].
      intros; simpl; lia.
    + specialize (IH (S i)). destruct (find_from p s (S i)) as [k |].
      * destruct IH as (pre & post & -> & -> & Hfirst).
        exists (c :: pre), post. split; [reflexivity |]. split; [simpl; lia |].
        intros pre' post' Heq. destruct pre' as [| c' pre'].
        -- simpl in Heq. rewrite Heq, starts_with_app in Hp. discriminate.
        -- injection Heq as _ Heq. simpl. apply le_n_S. exact (Hfirst _ _ Heq).
      * intros pre post Heq. destruct pre as [| c' pre].
        -- simpl in Heq. rewrite Heq, starts_with_app in Hp. discriminate.
        -- injection Heq as _ Heq. exact (IH _ _ Heq).
Qed.

(** ** The scanning loop *)

(** The loop stops only on a closing brace. *)
Lemma scan_stops_on_brace (cs : list ascii) (i : nat) (d : Z) (in_string esc : bool)
    (n : nat) :
  scan cs i d in_string esc = Some n ->
  exists k, n = i + k + 1 /\ nth_error cs k = Some "}"%char.
Proof.
  revert i d in_string esc.
  induction cs as [| c cs IH]; intros i d in_string esc Hscan; [discriminate |].
  assert (Hnext : forall d' s' e', scan cs (S i) d' s' e' = Some n ->
                  exists k, n = i + k + 1 /\ nth_error (c :: cs) k = Some "}"%char).
  { intros d' s' e' Hrec. destruct (IH _ _ _ _ Hrec) as (k & -> & Hk).
    exists (S k). split; [lia | exact Hk]. }
  cbn [scan] in Hscan.
  destruct esc; [exact (Hnext _ _ _ Hscan) |].
  destruct (Ascii.eqb c backslash); [exact (Hnext _ _ _ Hscan) |].
  destruct (Ascii.eqb c dquote && negb false); [exact (Hnext _ _ _ Hscan) |].
  destruct (negb in_string); [| exact (Hnext _ _ _ Hscan)].
  destruct (Ascii.eqb c "{"); [exact (Hnext _ _ _ Hscan) |].
  destruct (Ascii.eqb c "}") eqn:Hclose; [| exact (Hnext _ _ _ Hscan)].
  destruct (d - 1 =? 0)%Z; [| exact (Hnext _ _ _ Hscan)].
  injection Hscan as <-. apply Ascii.eqb_eq in Hclose. subst c.
  exists 0. split; [lia | reflexivity].
Qed.

Lemma firstn_last {A} (l : list A) (k : nat) (x : A) :
  nth_error l k = Some x -> firstn (S k) l = firstn k l ++ [x].
Proof.
  revert k. induction l as [| y l IH]; intros k Hk; [now destruct k |].
  destruct k as [| k]; [now injection Hk as -> |].
  cbn [firstn app]. f_equal. now apply IH.
Qed.

(** X19. When [extract_data_from_html] finds its marker, the text it hands
    to the JSON decoder starts right after the first [const data=] of the
    content, and it is either empty (the braces never closed) or ends with
    a closing brace. *)
Theorem extract_data_str_span (content span : list ascii) :
  extract_data_str content = Ok span ->
  exists pre rest,
    content = pre ++ start_marker ++ span ++ rest /\
    (forall pre' post', content = pre' ++ start_marker ++ post' ->
       length pre <= length pre') /\
    (span = [] \/ exists body, span = body ++ ["}"%char]).
Proof.
  unfold extract_data_str, find.
  pose proof (find_from_spec start_marker content 0) as Hfind.
  destruct (find_from start_marker content 0) as [k |]; [| discriminate].
  destruct Hfind as (pre & post & Hcontent & -> & Hfirst).
  cbv zeta. intros [= <-].
  assert (Hskip : skipn (length pre + 11) content = post).
  { rewrite Hcontent, app_assoc, List.skipn_app.
    assert (Hlen : length (pre ++ start_marker) = length pre + 11)
      by now rewrite length_app.
    rewrite skipn_all2 by lia. rewrite Hlen, Nat.sub_diag. reflexivity. }
  unfold slice. rewrite Hskip.
  destruct (scan post _ 0 false false) as [n |] eqn:Hscan.
  - destruct (scan_stops_on_brace _ _ _ _ _ _ Hscan) as (j & -> & Hj).
    replace (length pre + 11 + j + 1 - (length pre + 11)) with (S j) by lia.
    exists pre, (skipn (S j) post).
    split; [now rewrite firstn_skipn |]. split; [exact Hfirst |].
    right. exists (firstn j post). now apply firstn_last.
  - rewrite Nat.sub_diag. exists pre, post.
    split; [exact Hcontent |]. split; [exact Hfirst | now left].
Qed.

(** X20. [extract_data_from_html] raises on the way to its JSON text
    exactly when [const data=] does not occur in the content, and then it
    raises [ValueError]. *)
Theorem extract_data_str_missing_marker (content : list ascii) :
  (extract_data_str content = Raise ValueError <->
   forall pre post, content <> pre ++ start_marker ++ post) /\
  (forall e, extract_data_str content = Raise e -> e = ValueError).
Proof.
  unfold extract_data_str, find.
  pose proof (find_from_spec start_marker content 0) as Hfind.
  destruct (find_from start_marker content 0) as [k |].
  - destruct Hfind as (pre & post & Hcontent & _ & _). split; [| discriminate].
    split; [discriminate |]. intros Hnone. exfalso. exact (Hnone _ _ Hcontent).
  - split; [now split | now intros e [= <-]].
Qed.

(** The sample page: the text after its marker up to the closing brace. *)
Lemma extract_data_str_span_witness :
  exists pre rest,
    sample_html = pre ++ start_marker ++ sample_object ++ rest /\
    (forall pre' post', sample_html = pre' ++ start_marker ++ post' ->
       length pre <= length pre') /\
    (sample_object = [] \/ exists body, sample_object = body ++ ["}"%char]).
Proof.
  apply (extract_data_str_span sample_html sample_object). reflexivity.
Defined.

(** ** The formatting of a sheet *)

Section Formatting.
Import SheetFormat.
Context {rt : Runtime}.
Variable get_column_letter : nat -> string.

Lemma cell_at_set_cell (ws : Worksheet) (r c : nat) (f : Cell -> Cell) (r' c' : nat) :
  cell_at (set_cell ws r c f) r' c'
  = if ((r' =? r) && (c' =? c))%nat then f (cell_at ws r c) else cell_at ws r' c'.
Proof.
  unfold cell_at, set_cell. cbn [cells].
  destruct ((r' =? r) && (c' =? c))%nat eqn:Hrc.
  - apply andb_prop in Hrc. destruct Hrc as [Hr Hc].
    apply Nat.eqb_eq in Hr, Hc. subst. now rewrite lookup_insert_eq.
  - rewrite lookup_insert_ne; [reflexivity |].
    intros [= -> ->]. now rewrite !Nat.eqb_refl in Hrc.
Qed.

(** One pass over the columns of a row. *)
Lemma cell_at_row_pass (f : Cell -> Cell) (row : nat) (cols : list nat)
    (ws : Worksheet) (r c : nat) :
  (forall cell, f (f cell) = f cell) ->
  cell_at (fold_left (fun ws col => set_cell ws row col f) cols ws) r c
  = if ((r =? row) && existsb (Nat.eqb c) cols)%nat
    then f (cell_at ws r c) else cell_at ws r c.
Proof.
  intros Hf. revert ws. induction cols as [| col cols IH]; intros ws.
  - cbn [fold_left existsb]. now rewrite andb_false_r.
  - cbn [fold_left existsb]. rewrite IH, cell_at_set_cell.
    destruct (r =? row)%nat eqn:Hr; cbn [andb]; [| reflexivity].
    apply Nat.eqb_eq in Hr. subst r.
    destruct (c =? col)%nat eqn:Hc; cbn [orb].
    + apply Nat.eqb_eq in Hc. subst c.
      destruct (existsb _ cols); [apply Hf | reflexivity].
    + reflexivity.
Qed.

(** The passes over several rows. *)
Lemma cell_at_rows_pass (f : Cell -> Cell) (rows cols : list nat)
    (ws : Worksheet) (r c : nat) :
  (forall cell, f (f cell) = f cell) ->
  cell_at (fold_left
             (fun ws row => fold_left (fun ws col => set_cell ws row col f) cols ws)
             rows ws) r c
  = if (existsb (Nat.eqb r) rows && existsb (Nat.eqb c) cols)%nat
    then f (cell_at ws r c) else cell_at ws r c.
Proof.
  intros Hf. revert ws. induction rows as [| row rows IH]; intros ws.
  - reflexivity.
  - cbn [fold_left existsb]. rewrite IH, cell_at_row_pass by exact Hf.
    destruct (r =? row)%nat; cbn [orb andb]; [| reflexivity].
    destruct (existsb (Nat.eqb c) cols); [| now rewrite andb_false_r].
    rewrite andb_true_r. destruct (existsb _ rows); [apply Hf | reflexivity].
Qed.

Lemma in_py_range (x lo hi : nat) :
  existsb (Nat.eqb x) (py_range lo hi) = ((lo <=? x) && (x <? hi))%nat.
Proof.
  unfold py_range.
  destruct (existsb (Nat.eqb x) (seq lo (hi - lo))) eqn:Hex.
  - apply existsb_exists in Hex. destruct Hex as (y & Hin & Hxy).
    apply Nat.eqb_eq in Hxy. subst y. apply in_seq in Hin.
    symmetry. apply andb_true_iff. split; [apply Nat.leb_le | apply Nat.ltb_lt]; lia.
  - symmetry. apply andb_false_iff.
    destruct (lo <=? x)%nat eqn:Hlo; [right | now left].
    destruct (x <? hi)%nat eqn:Hhi; [exfalso | reflexivity].
    apply Nat.leb_le in Hlo. apply Nat.ltb_lt in Hhi.
    assert (Hin : In x (seq lo (hi - lo))) by (apply in_seq; lia).
    assert (Htrue : existsb (Nat.eqb x) (seq lo (hi - lo)) = true).
    { apply existsb_exists. exists x. split; [exact Hin | apply Nat.eqb_refl]. }
    congruence.
Qed.




Lemma cell_at_styled (ws : Worksheet) (num_rows num_cols r c : nat) :
  cell_at (styled get_column_letter ws num_rows num_cols) r c
  = if ((2 <=? r) && (r <? num_rows + 2) && ((1 <=? c) && (c <? num_cols + 1)))%nat
    then as_data
           (if ((r =? 1) && ((1 <=? c) && (c <? num_cols + 1)))%nat
            then as_header (cell_at ws r c) else cell_at ws r c)
    else if ((r =? 1) && ((1 <=? c) && (c <? num_cols + 1)))%nat
         then as_header (cell_at ws r c) else cell_at ws r c.
Proof.
  unfold styled.
  assert (Hcells : forall w o, cell_at {| cells := cells w; auto_filter_ref := o;
                                          column_widths := column_widths w |} r c
                               = cell_at w r c) by reflexivity.
  destruct (ENABLE_AUTOFILTER && (0 <? num_rows)%nat); rewrite ?Hcells;
    rewrite cell_at_rows_pass, cell_at_row_pass, !in_py_range by reflexivity;
    reflexivity.
Qed.

Lemma apply_sheet_formatting_styled (ws : Worksheet) (num_rows num_cols : nat) :
  apply_sheet_formatting get_column_letter ws num_rows num_cols
  = fold_left (fun ws col => set_width get_column_letter ws num_rows col)
      (py_range 1 (num_cols + 1)) (styled get_column_letter ws num_rows num_cols).
Proof. reflexivity. Qed.


(** ** The widths *)

(** The longest text found is at least as long as every truthy cell of
    the rows, and it is the length of one of them unless it is the
    starting value. *)
Lemma longest_spec (ws : Worksheet) (col : nat) (rows : list nat) (start : nat) :
  let longest :=
    fold_left
      (fun max_length row =>
         let cell := cell_at ws row col in
         if truthy_value (cell_value cell) then
           let cell_length := value_length (cell_value cell) in
           if (max_length <? cell_length)%nat then cell_length else max_length
         else max_length)
      rows start in
  start <= longest /\
  (forall r, In r rows -> truthy_value (cell_value (cell_at ws r col)) = true ->
     value_length (cell_value (cell_at ws r col)) <= longest) /\
  (longest = start \/
   exists r, In r rows /\ truthy_value (cell_value (cell_at ws r col)) = true /\
             longest = value_length (cell_value (cell_at ws r col))).
Proof.
  cbv zeta. revert start. induction rows as [| row rows IH]; intros start.
  - cbn [fold_left]. split; [lia |]. split; [intros r [] | now left].
  - cbn [fold_left].
    destruct (truthy_value (cell_value (cell_at ws row col))) eqn:Htruthy.
    + destruct (Nat.ltb_spec start (value_length (cell_value (cell_at ws row col))))
        as [Hlt | Hge].
      * destruct (IH (value_length (cell_value (cell_at ws row col))))
          as (Hstart & Hall & Hsome).
        split; [lia |]. split.
        -- intros r [<- | Hr] Hr'; [exact Hstart | now apply Hall].
        -- right. destruct Hsome as [-> | (r & Hr & Hr' & ->)].
           ++ exists row. split; [apply in_eq | now split].
           ++ exists r. split; [now apply in_cons | now split].
      * destruct (IH start) as (Hstart & Hall & Hsome).
        split; [exact Hstart |]. split.
        -- intros r [<- | Hr] Hr'; [lia | now apply Hall].
        -- destruct Hsome as [-> | (r & Hr & Hr' & ->)]; [now left |].
           right. exists r. split; [now apply in_cons | now split].
    + destruct (IH start) as (Hstart & Hall & Hsome).
      split; [exact Hstart |]. split.
      -- intros r [<- | Hr] Hr'; [congruence | now apply Hall].
      -- destruct Hsome as [-> | (r & Hr & Hr' & ->)]; [now left |].
         right. exists r. split; [now apply in_cons | now split].
Qed.

Lemma max_length_spec (ws : Worksheet) (num_rows col : nat) :
  (forall r, In r (py_range 1 (num_rows + 2)) ->
     truthy_value (cell_value (cell_at ws r col)) = true ->
     value_length (cell_value (cell_at ws r col)) <= max_length ws num_rows col) /\
  (max_length ws num_rows col = 0 \/
   exists r, In r (py_range 1 (num_rows + 2)) /\
             truthy_value (cell_value (cell_at ws r col)) = true /\
             max_length ws num_rows col = value_length (cell_value (cell_at ws r col))).
Proof.
  destruct (longest_spec ws col (py_range 1 (num_rows + 2)) 0) as (_ & Hall & Hsome).
  split; assumption.
Qed.

(** The longest text depends on the values of the cells alone. *)
Lemma max_length_values (ws ws0 : Worksheet) (num_rows col : nat) :
  (forall r, cell_value (cell_at ws r col) = cell_value (cell_at ws0 r col)) ->
  max_length ws num_rows col = max_length ws0 num_rows col.
Proof.
  intros Hvalues. unfold max_length.
  generalize (py_range 1 (num_rows + 2)) as rows. intros rows.
  generalize 0 as start. induction rows as [| row rows IH];
    intros start; [reflexivity |].
  cbn [fold_left]. rewrite Hvalues. apply IH.
Qed.

Lemma widths_pass_other (num_rows : nat) (cols : list nat) (ws : Worksheet)
    (key : string) :
  (forall col, In col cols -> get_column_letter col <> key) ->
  column_widths
    (fold_left (fun ws col => set_width get_column_letter ws num_rows col) cols ws)
  !! key = column_widths ws !! key.
Proof.
  revert ws. induction cols as [| col cols IH]; intros ws Hother; [reflexivity |].
  cbn [fold_left]. rewrite IH by (intros; apply Hother; now apply in_cons).
  unfold set_width. cbn [column_widths].
  apply lookup_insert_ne. apply Hother, in_eq.
Qed.

Lemma widths_pass_set (num_rows : nat) (cols : list nat) (ws : Worksheet) (c : nat) :
  (forall a b, In a cols -> In b cols ->
     get_column_letter a = get_column_letter b -> a = b) ->
  In c cols ->
  column_widths
    (fold_left (fun ws col => set_width get_column_letter ws num_rows col) cols ws)
  !! get_column_letter c = Some (Nat.min (max_length ws num_rows c + 2) 50).
Proof.
  revert ws. induction cols as [| col cols IH]; intros ws Hinj Hc; [destruct Hc |].
  cbn [fold_left].
  destruct (in_dec Nat.eq_dec c cols) as [Hin | Hout].
  - rewrite IH; [| intros a b Ha Hb; apply Hinj; now apply in_cons | exact Hin].
    now rewrite (max_length_values (set_width get_column_letter ws num_rows col) ws
                   num_rows c (fun r => eq_refl)).
  - destruct Hc as [-> | Hc]; [| contradiction].
    rewrite widths_pass_other.
    + unfold set_width. cbn [column_widths]. apply lookup_insert_eq.
    + intros col Hcol Heq. apply Hout.
      rewrite <- (Hinj col c); [exact Hcol | now apply in_cons | apply in_eq | exact Heq].
Qed.

(** X22. When the letters of columns 1 to [num_cols] are distinct,
    [apply_sheet_formatting] sets the width of each of these columns to a
    value from 2 to 50 that leaves room for every truthy cell of rows 1 to
    [num_rows + 1] with two characters to spare, up to the limit of 50; the
    width is 2 for a column without such a cell and is otherwise reached by
    its longest cell. *)
Theorem formatting_widths (ws : Worksheet) (num_rows num_cols c : nat) :
  (forall a b, 1 <= a <= num_cols -> 1 <= b <= num_cols ->
     get_column_letter a = get_column_letter b -> a = b) ->
  1 <= c <= num_cols ->
  exists w,
    column_widths (apply_sheet_formatting get_column_letter ws num_rows num_cols)
    !! get_column_letter c = Some w /\
    2 <= w <= 50 /\
    (forall r, 1 <= r <= num_rows + 1 ->
       truthy_value (cell_value (cell_at ws r c)) = true ->
       Nat.min (value_length (cell_value (cell_at ws r c)) + 2) 50 <= w) /\
    (w = 2 \/
     exists r, 1 <= r <= num_rows + 1 /\
               truthy_value (cell_value (cell_at ws r c)) = true /\
               w = Nat.min (value_length (cell_value (cell_at ws r c)) + 2) 50).
Proof.
  intros Hinj Hc. rewrite apply_sheet_formatting_styled.
  assert (Hrange : forall x lo hi, In x (py_range lo hi) <-> lo <= x < hi).
  { intros x lo hi. unfold py_range. rewrite in_seq. lia. }
  rewrite widths_pass_set;
    [| intros a b Ha Hb; apply Hrange in Ha, Hb; apply Hinj; lia
     | apply Hrange; lia].
  assert (Hvalues : forall r,
             cell_value (cell_at (styled get_column_letter ws num_rows num_cols) r c)
             = cell_value (cell_at ws r c)).
  { intros r. rewrite cell_at_styled.
    destruct (_ && _ && _)%nat, ((r =? 1)%nat && _); reflexivity. }
  rewrite (max_length_values _ ws num_rows c Hvalues).
  destruct (max_length_spec ws num_rows c) as (Hall & Hsome).
  eexists. split; [reflexivity |]. split; [lia |]. split.
  - intros r Hr Htruthy.
    assert (Hle := Hall r (proj2 (Hrange r 1 (num_rows + 2)) ltac:(lia)) Htruthy).
    lia.
  - destruct Hsome as [-> | (r & Hr & Htruthy & ->)]; [now left |].
    right. exists r. apply Hrange in Hr. split; [lia | now split].
Qed.

End Formatting.

(** The first column of the sample sheet, under the sample letters. *)
Lemma formatting_widths_witness :
  exists w,
    SheetFormat.column_widths
      (SheetFormat.apply_sheet_formatting (rt := Analyzer.sample_runtime)
         SheetFormat.sample_letter SheetFormat.sample_sheet 2 2)
    !! SheetFormat.sample_letter 1 = Some w /\
    2 <= w <= 50 /\
    (forall r, 1 <= r <= 2 + 1 ->
       SheetFormat.truthy_value
         (SheetFormat.cell_value (SheetFormat.cell_at SheetFormat.sample_sheet r 1))
       = true ->
       Nat.min (SheetFormat.value_length (rt := Analyzer.sample_runtime)
                  (SheetFormat.cell_value
                     (SheetFormat.cell_at SheetFormat.sample_sheet r 1)) + 2) 50 <= w) /\
    (w = 2 \/
     exists r, 1 <= r <= 2 + 1 /\
               SheetFormat.truthy_value
                 (SheetFormat.cell_value
                    (SheetFormat.cell_at SheetFormat.sample_sheet r 1)) = true /\
               w = Nat.min (SheetFormat.value_length (rt := Analyzer.sample_runtime)
                              (SheetFormat.cell_value
                                 (SheetFormat.cell_at SheetFormat.sample_sheet r 1))
                            + 2) 50).
Proof.
  apply (formatting_widths (rt := Analyzer.sample_runtime) SheetFormat.sample_letter
           SheetFormat.sample_sheet 2 2 1); [| lia].
  intros a b Ha Hb Heq.
  assert (Ha' : a = 1 \/ a = 2) by lia. assert (Hb' : b = 1 \/ b = 2) by lia.
  destruct Ha' as [-> | ->], Hb' as [-> | ->]; try reflexivity;
    vm_compute in Heq; discriminate Heq.
Defined.

(** The sample sheet formatted: the long name is cut off at 50, the
    second column is as wide as its header plus two, the filter spans the
    table and only the header is bold. *)
Example formatted_sample_sheet :
  let ws := SheetFormat.apply_sheet_formatting (rt := Analyzer.sample_runtime)
              SheetFormat.sample_letter SheetFormat.sample_sheet 2 2 in
  SheetFormat.column_widths ws !! "A" = Some 50 /\
  SheetFormat.column_widths ws !! "B" = Some 12 /\
  SheetFormat.auto_filter_ref ws = Some "A1:B3" /\
  SheetFormat.cell_fill (SheetFormat.cell_at ws 1 2) = Some "90EE90" /\
  SheetFormat.cell_fill (SheetFormat.cell_at ws 3 1) = Some "F0FFF0" /\
  SheetFormat.cell_bold (SheetFormat.cell_at ws 1 1) = true /\
  SheetFormat.cell_bold (SheetFormat.cell_at ws 2 1) = false.
Proof. vm_compute. repeat split. Qed.

End ParseHtmlExtra.

(* ================================================================== *)
(** * The command line of both scripts *)
(* ================================================================== *)

Module CliExtra.

(** ** The command line *)

Section CommandLine.
Import Cli.
Variable World : Type.
Variable glob : string -> list string.
Variable default_path : string.
Variable process_file : World -> string -> bool * World.

(** What the loop over the arguments has gathered. *)
Lemma gathered_spec (files acc : list string) :
  fold_left
    (fun files_to_process file_pattern =>
       if has_wildcard file_pattern then
         match glob file_pattern with
         | [] => files_to_process
         | matched_files => files_to_process ++ matched_files
         end
       else files_to_process ++ [file_pattern])
    files acc
  = acc ++ concat (map (fun p => if has_wildcard p then glob p else [p]) files).
Proof.
  revert acc. induction files as [| p files IH]; intros acc.
  - simpl. now rewrite app_nil_r.
  - cbn [fold_left map concat]. rewrite IH.
    destruct (has_wildcard p).
    + destruct (glob p); [reflexivity | now rewrite <- app_assoc].
    + now rewrite <- app_assoc.
Qed.

Lemma concat_map_nil {A B} (g : A -> list B) (xs : list A) :
  concat (map g xs) = [] <-> forall x, In x xs -> g x = [].
Proof.
  induction xs as [| y xs IH]; [now split |].
  cbn [map concat]. split.
  - intros Hnil. apply app_eq_nil in Hnil. destruct Hnil as [Hy Hrest].
    intros x [<- | Hx]; [exact Hy | now apply IH].
  - intros Hall. rewrite (Hall y (in_eq _ _)). apply IH.
    intros x Hx. apply Hall. now apply in_cons.
Qed.

Lemma process_all_counts (files : list string) (s f : nat) (w : World) :
  let '(success_count, failed_count, _) :=
    fold_left
      (fun state file =>
         let '(success_count, failed_count, w) := state in
         let (ok, w) := process_file w file in
         if ok then (success_count + 1, failed_count, w)
         else (success_count, failed_count + 1, w))
      files (s, f, w) in
  success_count + failed_count = s + f + length files.
Proof.
  revert s f w. induction files as [| file files IH]; intros s f w.
  - simpl. lia.
  - cbn [fold_left length]. destruct (process_file w file) as [[] w'].
    + specialize (IH (s + 1) f w').
      destruct (fold_left _ files (s + 1, f, w')) as [[sc fc] w'']. lia.
    + specialize (IH s (f + 1) w').
      destruct (fold_left _ files (s, f + 1, w')) as [[sc fc] w'']. lia.
Qed.

(** X23. [main] stops with "no files" exactly when arguments were given
    and every one of them is a wildcard pattern that matches nothing;
    without arguments it takes the default file; a name without wildcard
    is always taken, found or not; and the two counts it prints add up to
    the number of files taken. *)
Theorem main_files_and_counts (files : list string) (w : World) :
  (fst (main World glob default_path process_file files w) = None <->
   files <> [] /\ forall p, In p files -> has_wildcard p = true /\ glob p = []) /\
  (files = [] -> files_to_process glob default_path files = [default_path]) /\
  (forall p, In p files -> has_wildcard p = false ->
     In p (files_to_process glob default_path files)) /\
  (forall success_count failed_count,
     fst (main World glob default_path process_file files w)
     = Some (success_count, failed_count) ->
     success_count + failed_count
     = length (files_to_process glob default_path files)).
Proof.
  assert (Hfiles : files <> [] ->
            files_to_process glob default_path files
            = concat (map (fun p => if has_wildcard p then glob p else [p]) files)).
  { intros Hne. unfold files_to_process. destruct files; [contradiction |].
    now rewrite gathered_spec. }
  assert (Hmain : fst (main World glob default_path process_file files w) = None <->
                  files_to_process glob default_path files = []).
  { unfold main.
    destruct (files_to_process glob default_path files) as [| x l] eqn:E;
      [now split |].
    destruct (process_all World process_file (x :: l) w) as [[sc fc] w'].
    split; discriminate. }
  split; [| split; [| split]].
  - rewrite Hmain. destruct files as [| p0 files0] eqn:Hf.
    + split; [discriminate | now intros [Hne _]].
    + rewrite <- Hf in *. rewrite Hfiles by (rewrite Hf; discriminate).
      rewrite concat_map_nil. split.
      * intros Hnil. split; [rewrite Hf; discriminate |]. intros p Hp.
        specialize (Hnil p Hp).
        destruct (has_wildcard p); [now split | discriminate Hnil].
      * intros [_ Hall] p Hp. now destruct (Hall p Hp) as [-> ->].
  - now intros ->.
  - intros p Hp Hplain.
    rewrite Hfiles by (intros ->; destruct Hp).
    apply in_concat. exists [p]. split; [| apply in_eq].
    apply in_map_iff. exists p. split; [now rewrite Hplain | exact Hp].
  - intros sc fc. unfold main.
    destruct (files_to_process glob default_path files) as [| x l] eqn:E;
      [discriminate |].
    pose proof (process_all_counts (x :: l) 0 0 w) as Hcounts.
    unfold process_all.
    destruct (fold_left _ (x :: l) (0, 0, w)) as [[sc' fc'] w'].
    cbn [fst]. intros [= <- <-]. exact Hcounts.
Qed.

End CommandLine.

End CliExtra.
